(** * visits_per_week: weekly attendance report from an access log

    Shallow embedding of [visits_per_week.py] and the properties of its
    identity parser, ISO-week bucketer, aggregator and report builder.

    Conventions of the embedding.
    - A Python [int] is a [Z].
    - A Python [str] is a [string]; a character is its code point, so the
      model covers the code points 0..255.  In that range the white space
      of [str.strip] is 9..13, 28..32, 133 and 160, and the only decimal
      digits accepted by [int] are ['0'..'9'].
    - A [dict] is an association list in insertion order, a [set] a
      duplicate-free list in insertion order: the report must not depend
      on those orders, which is one of the properties proved below.
    - An exception is an [exn] value carried by the [result] type. *)

From Stdlib Require Import ZArith List String Ascii Bool Lia.
From Stdlib Require Import DecimalString DecimalPos Permutation Sorted.
Import ListNotations.

Local Open Scope string_scope.
Local Open Scope list_scope.
Local Open Scope Z_scope.

Set Implicit Arguments.

(** ** Python exceptions *)

Inductive exn : Type :=
| ValueError
| IndexError
| StopIteration
| UnboundLocalError.

Inductive result (A : Type) : Type :=
| Ok (a : A)
| Raise (e : exn).

Arguments Ok {A} a.
Arguments Raise {A} e.

Definition bind {A B : Type} (m : result A) (k : A -> result B) : result B :=
  match m with
  | Ok a => k a
  | Raise e => Raise e
  end.

Notation "x <- m ;; k" := (bind m (fun x => k))
  (at level 61, m at next level, right associativity).

(** ** Python strings *)

Module PyStr.

(** [len(s)] *)
Definition len (s : string) : Z := Z.of_nat (String.length s).

(** [str.isspace] on one character (code points up to 255). *)
Definition isspace (c : ascii) : bool :=
  let n := Z.of_nat (nat_of_ascii c) in
  ((9 <=? n) && (n <=? 13)) || ((28 <=? n) && (n <=? 32))
  || (n =? 133) || (n =? 160).

(** [s.rfind(c)]: the highest index holding [c], or [-1]. *)
Fixpoint rfind (c : ascii) (s : string) : Z :=
  match s with
  | EmptyString => -1
  | String a r =>
      let j := rfind c r in
      if 0 <=? j then j + 1
      else if Ascii.eqb a c then 0 else -1
  end.

(** A slice bound as Python normalises it: negative bounds count from
    the end, and everything is clamped to [0 .. len]. *)
Definition bound (n i : Z) : nat :=
  Z.to_nat (if i <? 0 then Z.max 0 (n + i) else Z.min i n).

Fixpoint take (n : nat) (s : string) : string :=
  match n, s with
  | S n', String a r => String a (take n' r)
  | _, _ => EmptyString
  end.

Fixpoint drop (n : nat) (s : string) : string :=
  match n, s with
  | S n', String _ r => drop n' r
  | _, _ => s
  end.

(** [s[:i]] *)
Definition slice_to (s : string) (i : Z) : string :=
  take (bound (len s) i) s.

(** [s[i:]] *)
Definition slice_from (s : string) (i : Z) : string :=
  drop (bound (len s) i) s.

Fixpoint lstrip (s : string) : string :=
  match s with
  | EmptyString => EmptyString
  | String a r => if isspace a then lstrip r else s
  end.

Fixpoint rstrip (s : string) : string :=
  match s with
  | EmptyString => EmptyString
  | String a r =>
      match rstrip r with
      | EmptyString => if isspace a then EmptyString else String a EmptyString
      | r' => String a r'
      end
  end.

(** [s.strip()] *)
Definition strip (s : string) : string := rstrip (lstrip s).

Definition digit (c : ascii) : option Z :=
  let n := Z.of_nat (nat_of_ascii c) in
  if (48 <=? n) && (n <=? 57) then Some (n - 48) else None.

(** The digits of an integer literal as [int] reads them: a digit, then
    digits each optionally preceded by one underscore.  [acc] is the value
    read so far; [after_digit] tells whether the previous character was a
    digit (an underscore is accepted only there, and not at the end). *)
Fixpoint digits (acc : Z) (after_digit : bool) (s : string) : option Z :=
  match s with
  | EmptyString => if after_digit then Some acc else None
  | String a r =>
      match digit a with
      | Some d => digits (10 * acc + d) true r
      | None =>
          if Ascii.eqb a "_" && after_digit then digits acc false r
          else None
      end
  end.

(** [int(s)] in base 10: surrounding white space is dropped, one sign is
    accepted, anything else raises [ValueError]. *)
Definition int (s : string) : result Z :=
  let body (t : string) : option Z :=
    match t with
    | String "-" r => option_map Z.opp (digits 0 false r)
    | String "+" r => digits 0 false r
    | _ => digits 0 false t
    end in
  match body (strip s) with
  | Some z => Ok z
  | None => Raise ValueError
  end.

(** [str(z)] for an [int]. *)
Definition str (z : Z) : string := NilZero.string_of_int (Z.to_int z).

(** [sep.join(l)] *)
Fixpoint join (sep : string) (l : list string) : string :=
  match l with
  | [] => EmptyString
  | [x] => x
  | x :: r => (x ++ sep ++ join sep r)%string
  end.

End PyStr.

(** ** Identity parser *)

(** [parse_name_and_group(description_2)].  The [try .. except ValueError]
    around [int] is the [match] on its result; no other exception of [int]
    exists in the model, so [Raise] of anything else is propagated. *)
Definition parse_name_and_group (description_2 : string) : result (string * Z) :=
  let index_of_sharp := PyStr.rfind "#" description_2 in
  if (0 <? index_of_sharp) && (index_of_sharp <? PyStr.len description_2 - 1) then
    let name := PyStr.strip (PyStr.slice_to description_2 index_of_sharp) in
    group <- match PyStr.int (PyStr.strip (PyStr.slice_from description_2 (index_of_sharp + 1))) with
             | Ok g => Ok g
             | Raise ValueError => Ok (-1)
             | Raise e => Raise e
             end ;;
    Ok (name, group)
  else Ok (description_2, -1).

(** ** Python containers *)

(** A [dict] whose keys are compared by [eqb] (the class's [__eq__]). *)
Module Dict.
Section WithKey.
Variables (K V : Type) (eqb : K -> K -> bool).

Definition t : Type := list (K * V).

Definition keys (d : t) : list K := map fst d.
Definition values (d : t) : list V := map snd d.

(** [d.get(k)] *)
Fixpoint get (d : t) (k : K) : option V :=
  match d with
  | [] => None
  | (k', v) :: r => if eqb k' k then Some v else get r k
  end.

(** [d[k] = v]: the value of an existing key is replaced where it is
    (the key object first inserted stays); a new key goes last. *)
Fixpoint set_item (d : t) (k : K) (v : V) : t :=
  match d with
  | [] => [(k, v)]
  | (k', v') :: r =>
      if eqb k' k then (k', v) :: r else (k', v') :: set_item r k v
  end.

(** The value [d.setdefault(k, v)] returns; its insertion, when [k] is
    new, is the [set_item] that stores the mutated value back. *)
Definition get_default (d : t) (k : K) (v : V) : V :=
  match get d k with Some x => x | None => v end.
End WithKey.
End Dict.

(** A [set] whose elements are compared by [eqb]. *)
Module PySet.
Section WithElt.
Variables (A : Type) (eqb : A -> A -> bool).

Definition t : Type := list A.

Definition mem (s : t) (x : A) : bool := existsb (fun y => eqb y x) s.

(** [s.add(x)] *)
Definition add (s : t) (x : A) : t := if mem s x then s else s ++ [x].
End WithElt.
End PySet.

(** [sorted(l)]: a stable sort that only asks [<]. *)
Section Sorted.
Variables (A : Type) (ltb : A -> A -> bool).

Fixpoint insert (x : A) (l : list A) : list A :=
  match l with
  | [] => [x]
  | y :: r => if ltb y x then y :: insert x r else x :: l
  end.

Definition sorted (l : list A) : list A := fold_right insert [] l.

(** [min(l)] and [max(l)]: the first smallest, the first largest element;
    [ValueError] on an empty argument. *)
Definition py_min (l : list A) : result A :=
  match l with
  | [] => Raise ValueError
  | x :: r => Ok (fold_left (fun cur y => if ltb y cur then y else cur) r x)
  end.

Definition py_max (l : list A) : result A :=
  match l with
  | [] => Raise ValueError
  | x :: r => Ok (fold_left (fun cur y => if ltb cur y then y else cur) r x)
  end.
End Sorted.

(** [enumerate(l)] *)
Fixpoint enumerate_from {A : Type} (i : Z) (l : list A) : list (Z * A) :=
  match l with
  | [] => []
  | x :: r => (i, x) :: enumerate_from (i + 1) r
  end.

Definition enumerate {A : Type} (l : list A) : list (Z * A) := enumerate_from 0 l.

(** Comparison of tuples of integers, as Python compares tuples. *)
Fixpoint tuple_ltb (a b : list Z) : bool :=
  match a, b with
  | x :: a', y :: b' => if x =? y then tuple_ltb a' b' else x <? y
  | [], _ :: _ => true
  | _, [] => false
  end.

(** ** [datetime] of the standard library

    The proleptic Gregorian calendar of Python's [datetime] module: the
    functions below follow its reference implementation ([_is_leap],
    [_days_before_year], [_days_in_month], [_days_before_month],
    [_ymd2ord], [weekday], [_isoweek1monday], [isocalendar]).  A time zone
    is not part of the model: nothing in the program reads it. *)
Module Datetime.

Record t : Type := make
  { year : Z; month : Z; day : Z;
    hour : Z; minute : Z; second : Z; microsecond : Z }.

Definition is_leap (y : Z) : bool :=
  (y mod 4 =? 0) && (negb (y mod 100 =? 0) || (y mod 400 =? 0)).

Definition days_before_year (y : Z) : Z :=
  let y := y - 1 in
  y * 365 + y / 4 - y / 100 + y / 400.

Definition DAYS_IN_MONTH : list Z :=
  [-1; 31; 28; 31; 30; 31; 30; 31; 31; 30; 31; 30; 31].

Definition DAYS_BEFORE_MONTH : list Z :=
  [-1; 0; 31; 59; 90; 120; 151; 181; 212; 243; 273; 304; 334].

Definition days_in_month (y m : Z) : Z :=
  if (m =? 2) && is_leap y then 29
  else nth (Z.to_nat m) DAYS_IN_MONTH 0.

Definition days_before_month (y m : Z) : Z :=
  nth (Z.to_nat m) DAYS_BEFORE_MONTH 0
  + (if (2 <? m) && is_leap y then 1 else 0).

Definition ymd2ord (y m d : Z) : Z :=
  days_before_year y + days_before_month y m + d.

(** What the constructor checks: [MINYEAR <= year <= MAXYEAR], a month
    of the year, a day of the month, a time of the day. *)
Definition valid (d : t) : Prop :=
  1 <= year d <= 9999 /\ 1 <= month d <= 12
  /\ 1 <= day d <= days_in_month (year d) (month d)
  /\ 0 <= hour d < 24 /\ 0 <= minute d < 60 /\ 0 <= second d < 60
  /\ 0 <= microsecond d < 1000000.

Definition toordinal (d : t) : Z := ymd2ord (year d) (month d) (day d).

(** [d.weekday()]: Monday is 0, Sunday is 6. *)
Definition weekday (d : t) : Z := (toordinal d + 6) mod 7.

Definition isoweek1monday (y : Z) : Z :=
  let THURSDAY := 3 in
  let firstday := ymd2ord y 1 1 in
  let firstweekday := (firstday + 6) mod 7 in
  let week1monday := firstday - firstweekday in
  if THURSDAY <? firstweekday then week1monday + 7 else week1monday.

(** [d.isocalendar()]: ISO year, ISO week number, ISO week day. *)
Definition isocalendar (d : t) : Z * Z * Z :=
  let y := year d in
  let week1monday := isoweek1monday y in
  let today := ymd2ord (year d) (month d) (day d) in
  let week := (today - week1monday) / 7 in
  let wday := (today - week1monday) mod 7 in
  if week <? 0 then
    let y := y - 1 in
    let week1monday := isoweek1monday y in
    let week := (today - week1monday) / 7 in
    let wday := (today - week1monday) mod 7 in
    (y, week + 1, wday + 1)
  else if (52 <=? week) && (isoweek1monday (y + 1) <=? today) then
    (y + 1, 0 + 1, wday + 1)
  else (y, week + 1, wday + 1).

(** [d.isocalendar()[:2]] *)
Definition isoweek (d : t) : Z * Z :=
  let '(y, w, _) := isocalendar d in (y, w).

Definition key (d : t) : list Z :=
  [year d; month d; day d; hour d; minute d; second d; microsecond d].

(** [__eq__] and [__lt__] of naive datetimes. *)
Definition eqb (a b : t) : bool :=
  (year a =? year b) && (month a =? month b) && (day a =? day b)
  && (hour a =? hour b) && (minute a =? minute b)
  && (second a =? second b) && (microsecond a =? microsecond b).

Definition ltb (a b : t) : bool := tuple_ltb (key a) (key b).

(** The fields [Week.__str__] reads through [getattr]. *)
Inductive field : Type := f_year | f_month | f_day.

Definition getattr (d : t) (f : field) : Z :=
  match f with
  | f_year => year d
  | f_month => month d
  | f_day => day d
  end.

End Datetime.

(** ** The classes of the program *)

Module Counter.
Record t : Type := make { count : Z }.

Definition init : t := {| count := 0 |}.

Definition increment (self : t) : t := {| count := count self + 1 |}.
End Counter.

Module User.
Record t : Type := make { name : string; group : Z }.

Definition identifier (self : t) : string * Z := (name self, group self).

Definition eqb (self other : t) : bool :=
  String.eqb (name self) (name other) && (group self =? group other).

(** [self.identifier < other.identifier]: strings by code points, then
    the groups as integers. *)
Definition ltb (self other : t) : bool :=
  if String.eqb (name self) (name other) then group self <? group other
  else String.ltb (name self) (name other).
End User.

Module Week.
Record t : Type := make
  { year : Z; number : Z;
    daily_presences : Dict.t Datetime.t (PySet.t User.t) }.

Definition init (year number : Z) : t :=
  {| year := year; number := number; daily_presences := [] |}.

Definition identifier (self : t) : Z * Z := (year self, number self).

Definition eqb (self other : t) : bool :=
  (year self =? year other) && (number self =? number other).

Definition ltb (self other : t) : bool :=
  tuple_ltb [year self; number self] [year other; number other].

(** The loop of [__str__] over the three fields: the lists
    [common_pieces], [from_pieces] and [to_pieces] it builds. *)
Definition pieces_step (min_date max_date : Datetime.t)
    (st : list string * list string * list string) (f : Datetime.field)
    : list string * list string * list string :=
  let '(common_pieces, from_pieces, to_pieces) := st in
  let min_val := Datetime.getattr min_date f in
  let max_val := Datetime.getattr max_date f in
  if min_val =? max_val then
    (common_pieces ++ [PyStr.str min_val], from_pieces, to_pieces)
  else
    (common_pieces, from_pieces ++ [PyStr.str min_val],
     to_pieces ++ [PyStr.str max_val]).

Definition pieces (min_date max_date : Datetime.t)
    : list string * list string * list string :=
  fold_left (pieces_step min_date max_date)
    [Datetime.f_year; Datetime.f_month; Datetime.f_day] ([], [], []).

(** [__str__] *)
Definition str (self : t) : result string :=
  if Z.of_nat (List.length (daily_presences self)) =? 1 then
    match Dict.keys (daily_presences self) with
    | date :: _ =>
        Ok ("(only "
            ++ PyStr.join "/" (map PyStr.str
                 [Datetime.year date; Datetime.month date; Datetime.day date])
            ++ ")")%string
    | [] => Raise StopIteration
    end
  else
    min_date <- py_min Datetime.ltb (Dict.keys (daily_presences self)) ;;
    max_date <- py_max Datetime.ltb (Dict.keys (daily_presences self)) ;;
    let '(common_pieces, from_pieces, to_pieces) := pieces min_date max_date in
    Ok ("(" ++ PyStr.join "/" common_pieces
        ++ " from " ++ PyStr.join "/" from_pieces
        ++ " to " ++ PyStr.join "/" to_pieces ++ ")")%string.
End Week.

Definition pair_eqb (a b : Z * Z) : bool :=
  (fst a =? fst b) && (snd a =? snd b).

Module WeekSet.
Record t : Type := make { weeks : Dict.t (Z * Z) Week.t }.

Definition init : t := {| weeks := [] |}.

(** [__len__] *)
Definition len (self : t) : Z := Z.of_nat (List.length (weeks self)).

(** [__iter__] *)
Definition iter (self : t) : list Week.t :=
  sorted Week.ltb (Dict.values (weeks self)).

(** [datetime(year=date.year, month=date.month, day=date.day)]: the date
    of a passage, its time of day dropped. *)
Definition passage_date (date : Datetime.t) : Datetime.t :=
  Datetime.make (Datetime.year date) (Datetime.month date) (Datetime.day date)
    0 0 0 0.

(** [add_passage].  The week and the set of users are objects mutated in
    place in the source; here the changed set is stored back into the
    week and the changed week back into [weeks], at the same keys. *)
Definition add_passage (self : t) (date : Datetime.t) (user : User.t) : t :=
  let week_identifier := Datetime.isoweek date in
  let '(weeks1, week) :=
    match Dict.get pair_eqb (weeks self) week_identifier with
    | Some week => (weeks self, week)
    | None =>
        let week := Week.init (fst week_identifier) (snd week_identifier) in
        (Dict.set_item pair_eqb (weeks self) week_identifier week, week)
    end in
  let passage_date := passage_date date in
  let users :=
    Dict.get_default Datetime.eqb (Week.daily_presences week) passage_date [] in
  let week' :=
    Week.make (Week.year week) (Week.number week)
      (Dict.set_item Datetime.eqb (Week.daily_presences week) passage_date
         (PySet.add User.eqb users user)) in
  {| weeks := Dict.set_item pair_eqb weeks1 week_identifier week' |}.
End WeekSet.

(** ** The program *)

(** [s.split(',')] *)
Fixpoint split_comma (s : string) : list string :=
  match s with
  | EmptyString => [EmptyString]
  | String a r =>
      if Ascii.eqb a "," then EmptyString :: split_comma r
      else match split_comma r with
           | x :: l => String a x :: l
           | [] => [String a EmptyString]
           end
  end.

(** [columns[i]] for [0 <= i] *)
Definition index (columns : list string) (i : nat) : result string :=
  match nth_error columns i with
  | Some c => Ok c
  | None => Raise IndexError
  end.

(** What the loop of [main] does with the date and with column 7 of a line:
    the identity is parsed and the passage is added. *)
Definition register (week_set : WeekSet.t) (date : Datetime.t) (column7 : string)
    : result WeekSet.t :=
  ng <- parse_name_and_group (PyStr.strip column7) ;;
  let '(name, group) := ng in
  let user := User.make name group in
  Ok (WeekSet.add_passage week_set date user).

Section Reading.
(** [datetime.fromisoformat], of the standard library. *)
Variable fromisoformat : string -> result Datetime.t.

(** The body of the reading loop. *)
Definition read_line (week_set : WeekSet.t) (line : string) : result WeekSet.t :=
  let columns := split_comma line in
  c1 <- index columns 1 ;;
  date <- fromisoformat (PyStr.strip c1) ;;
  c7 <- index columns 7 ;;
  register week_set date c7.

(** The reading loop: the state is the week set and the variable
    [line_number], which is unbound ([None]) until the first iteration
    assigns it. *)
Fixpoint read_loop (week_set : WeekSet.t) (line_number : option Z)
    (lines : list (Z * string)) : result (WeekSet.t * option Z) :=
  match lines with
  | [] => Ok (week_set, line_number)
  | (i, line) :: rest =>
      week_set' <- read_line week_set line ;;
      read_loop week_set' (Some i) rest
  end.

(** The first part of [main]: the header line is skipped, the other lines
    are read, and the number of entries is reported.  The result is the
    week set and the number printed after ["# Parsing finished,"]. *)
Definition read_input (file : list string) : result (WeekSet.t * Z) :=
  match file with
  | [] => Raise StopIteration
  | _ :: line_iterator =>
      st <- read_loop WeekSet.init None (enumerate line_iterator) ;;
      let '(week_set, line_number) := st in
      match line_number with
      | Some n => Ok (week_set, n + 1)
      | None => Raise UnboundLocalError
      end
  end.
End Reading.

Definition counts : Type := Dict.t User.t (Dict.t Week.t Counter.t).

(** [user_to_week_to_count.setdefault(user, {}).setdefault(week, Counter())
    .increment()] *)
Definition count_presence (week : Week.t) (user_to_week_to_count : counts)
    (user : User.t) : counts :=
  let week_to_count := Dict.get_default User.eqb user_to_week_to_count user [] in
  let counter := Dict.get_default Week.eqb week_to_count week Counter.init in
  Dict.set_item User.eqb user_to_week_to_count user
    (Dict.set_item Week.eqb week_to_count week (Counter.increment counter)).

(** The two inner loops of the counting, for one week. *)
Definition count_week (user_to_week_to_count : counts) (week : Week.t) : counts :=
  fold_left
    (fun acc users => fold_left (count_presence week) users acc)
    (Dict.values (Week.daily_presences week))
    user_to_week_to_count.

(** The counting loop of [main]: the headers and the counts. *)
Fixpoint count_loop (headers : list string) (user_to_week_to_count : counts)
    (weeks : list (Z * Week.t)) : result (list string * counts) :=
  match weeks with
  | [] => Ok (headers, user_to_week_to_count)
  | (i, week) :: rest =>
      label <- Week.str week ;;
      let week_name := ("Week " ++ PyStr.str (i + 1) ++ " " ++ label)%string in
      count_loop (headers ++ [week_name])
        (count_week user_to_week_to_count week) rest
  end.

(** A line of the output: a user, then the count of each week. *)
Definition user_line (week_set : WeekSet.t)
    (item : User.t * Dict.t Week.t Counter.t) : list string :=
  let '(user, week_to_count) := item in
  fold_left
    (fun line week =>
       line ++ [PyStr.str
                  (Counter.count (Dict.get_default Week.eqb week_to_count week Counter.init))])
    (WeekSet.iter week_set)
    [User.name user; PyStr.str (User.group user)].

(** [sorted(user_to_week_to_count.items())] compares pairs of a user and a
    dictionary.  The keys of a dictionary are pairwise different, so the
    users decide and the dictionaries are never compared. *)
Definition item_ltb (a b : User.t * Dict.t Week.t Counter.t) : bool :=
  User.ltb (fst a) (fst b).

(** The second part of [main]: the header row and the lines of the users,
    as lists of fields. *)
Definition report (week_set : WeekSet.t) : result (list string * list (list string)) :=
  hc <- count_loop ["Name"; "Group"] [] (enumerate (WeekSet.iter week_set)) ;;
  let '(headers, user_to_week_to_count) := hc in
  Ok (headers, map (user_line week_set) (sorted item_ltb user_to_week_to_count)).

(** The text written to the output file. *)
Definition output (separator : string) (r : list string * list (list string)) : string :=
  let '(headers, lines) := r in
  fold_left (fun text line => (text ++ PyStr.join separator line ++ String "010" EmptyString)%string)
    lines (PyStr.join separator headers ++ String "010" EmptyString)%string.

(** The whole run on records already split: a record is the date read from
    column 1 and the text of column 7. *)
Fixpoint register_all (week_set : WeekSet.t) (records : list (Datetime.t * string))
    : result WeekSet.t :=
  match records with
  | [] => Ok week_set
  | (date, column7) :: rest =>
      week_set' <- register week_set date column7 ;;
      register_all week_set' rest
  end.

Definition pipeline (records : list (Datetime.t * string))
    : result (list string * list (list string)) :=
  week_set <- register_all WeekSet.init records ;;
  report week_set.

Definition main (fromisoformat : string -> result Datetime.t) (file : list string)
    : result (Z * (list string * list (list string))) :=
  wn <- read_input fromisoformat file ;;
  let '(week_set, entries) := wn in
  r <- report week_set ;;
  Ok (entries, r).

(** ** Notions used to state the properties *)

(** The passages of a run, added one after the other. *)
Definition add_passages (week_set : WeekSet.t) (passages : list (Datetime.t * User.t))
    : WeekSet.t :=
  fold_left (fun ws p => WeekSet.add_passage ws (fst p) (snd p)) passages week_set.

(** A text without the character [c]. *)
Definition without (c : ascii) (s : string) : Prop :=
  forall n, String.get n s <> Some c.

(** The group read from a token: its integer, or [-1] when it has none. *)
Definition group_of_token (token : string) : Z :=
  match PyStr.int token with
  | Ok g => g
  | Raise _ => -1
  end.

(** ISO 8601 in the words of the specification.  A day is given by its
    ordinal (day 1 is Monday 0001-01-01).  Weeks start on Monday; week 1
    of a year is the week that holds the year's first Thursday; a week
    belongs to the year that holds its Thursday. *)
Definition monday_of (n : Z) : Z := n - (n + 6) mod 7.

Definition first_thursday (Y n : Z) : Prop :=
  Datetime.ymd2ord Y 1 1 <= n < Datetime.ymd2ord Y 1 1 + 7 /\ (n + 6) mod 7 = 3.

Definition iso8601_week (n Y W : Z) : Prop :=
  exists th,
    first_thursday Y th
    /\ 1 <= W
    /\ monday_of n = (th - 3) + 7 * (W - 1)
    /\ monday_of n + 3 < Datetime.ymd2ord (Y + 1) 1 1.

(** The extra day of a leap year. *)
Definition leap_day (y : Z) : Z := if Datetime.is_leap y then 1 else 0.

(** Two timestamps of one calendar day. *)
Definition same_day (a b : Datetime.t) : Prop :=
  Datetime.year a = Datetime.year b /\ Datetime.month a = Datetime.month b
  /\ Datetime.day a = Datetime.day b.

(** The users recorded on a day of a week of the set ([false] when the week
    or the day has no entry). *)
Definition recorded (week_set : WeekSet.t) (k : Z * Z) (d : Datetime.t) (u : User.t)
    : bool :=
  match Dict.get pair_eqb (WeekSet.weeks week_set) k with
  | Some w =>
      match Dict.get Datetime.eqb (Week.daily_presences w) d with
      | Some users => PySet.mem User.eqb users u
      | None => false
      end
  | None => false
  end.

(** Every week is stored under its own identity, and each of its days lies
    in the ISO week of that identity. *)
Definition days_in_iso_week (week_set : WeekSet.t) : Prop :=
  forall k w, In (k, w) (WeekSet.weeks week_set) ->
    Week.identifier w = k
    /\ forall d, In d (Dict.keys (Week.daily_presences w)) ->
         Datetime.isoweek d = Week.identifier w.

(** What the dictionaries and sets of a week set are by construction: keys
    and elements without repetition, no week without a day, no day without
    a user, and days that are dates of the week. *)
Definition week_wf (k : Z * Z) (w : Week.t) : Prop :=
  Week.identifier w = k
  /\ Week.daily_presences w <> []
  /\ NoDup (Dict.keys (Week.daily_presences w))
  /\ forall d users, In (d, users) (Week.daily_presences w) ->
       users <> [] /\ NoDup users
       /\ Datetime.isoweek d = k /\ WeekSet.passage_date d = d.

Definition weekset_wf (week_set : WeekSet.t) : Prop :=
  NoDup (Dict.keys (WeekSet.weeks week_set))
  /\ forall k w, In (k, w) (WeekSet.weeks week_set) -> week_wf k w.

(** The week a passage at [date] goes to: the one stored for its ISO week,
    or a new one. *)
Definition week_for (week_set : WeekSet.t) (date : Datetime.t) : Week.t :=
  let k := Datetime.isoweek date in
  match Dict.get pair_eqb (WeekSet.weeks week_set) k with
  | Some week => week
  | None => Week.init (fst k) (snd k)
  end.

(** That week once the passage is registered. *)
Definition week_with (week : Week.t) (date : Datetime.t) (user : User.t) : Week.t :=
  let d := WeekSet.passage_date date in
  Week.make (Week.year week) (Week.number week)
    (Dict.set_item Datetime.eqb (Week.daily_presences week) d
       (PySet.add User.eqb (Dict.get_default Datetime.eqb (Week.daily_presences week) d []) user)).

(** No week of the set is without a day. *)
Definition has_days (w : Week.t) : Prop := Week.daily_presences w <> [].

(** The label of a week is defined: its first and last days exist and
    [__str__] returns. *)
Definition label_defined (w : Week.t) : Prop :=
  (exists d, py_min Datetime.ltb (Dict.keys (Week.daily_presences w)) = Ok d)
  /\ (exists d, py_max Datetime.ltb (Dict.keys (Week.daily_presences w)) = Ok d)
  /\ exists label, Week.str w = Ok label.

(** The label pieces in the words of the specification: the fields are
    walked in the order year, month, day; a field on which the two days
    agree goes to the common prefix as long as no field differed; from the
    first field that differs on, every field goes to the lists "from" and
    "to", whether it differs or not. *)
Fixpoint pieces_after (diverged : bool) (fields : list Datetime.field)
    (min_date max_date : Datetime.t)
    (st : list string * list string * list string)
    : list string * list string * list string :=
  match fields with
  | [] => st
  | f :: rest =>
      let '(common_pieces, from_pieces, to_pieces) := st in
      let min_val := Datetime.getattr min_date f in
      let max_val := Datetime.getattr max_date f in
      if diverged || negb (min_val =? max_val) then
        pieces_after true rest min_date max_date
          (common_pieces, from_pieces ++ [PyStr.str min_val],
           to_pieces ++ [PyStr.str max_val])
      else
        pieces_after false rest min_date max_date
          (common_pieces ++ [PyStr.str min_val], from_pieces, to_pieces)
  end.

Definition pieces_spec (min_date max_date : Datetime.t)
    : list string * list string * list string :=
  pieces_after false [Datetime.f_year; Datetime.f_month; Datetime.f_day]
    min_date max_date ([], [], []).

(** The label of a week with two days or more is built from the pieces the
    specification describes. *)
Definition label_as_specified (w : Week.t) : Prop :=
  (2 <= List.length (Week.daily_presences w))%nat ->
  exists min_date max_date,
    py_min Datetime.ltb (Dict.keys (Week.daily_presences w)) = Ok min_date
    /\ py_max Datetime.ltb (Dict.keys (Week.daily_presences w)) = Ok max_date
    /\ Week.pieces min_date max_date = pieces_spec min_date max_date.

(** A week object holding the first of May 2022 and the first of June
    2023: two days that no ISO week holds together. *)
Definition week_of_two_years : Week.t :=
  Week.make 2022 17
    [(Datetime.make 2022 5 1 0 0 0 0, [User.make "A" 1]);
     (Datetime.make 2023 6 1 0 0 0 0, [User.make "A" 1])].

(** A week holding the last Friday of 2022 and the first of January 2023. *)
Definition week_over_new_year : Week.t :=
  Week.make 2022 52
    [(Datetime.make 2022 12 30 0 0 0 0, [User.make "A" 1]);
     (Datetime.make 2023 1 1 0 0 0 0, [User.make "A" 1])].

(** A file of two lines, for the examples: a header and one record. *)
Definition one_record_file : list string :=
  ["Id,Date,C2,C3,C4,C5,C6,Description #2";
   "17,2023-05-01 08:30:00,a,b,c,d,e, Alice #3 "].

(** A stand-in for [datetime.fromisoformat] in the examples: it reads
    nothing and answers 2023-05-01 08:30. *)
Definition fromisoformat_example (s : string) : result Datetime.t :=
  Ok (Datetime.make 2023 5 1 8 30 0 0).

(** The count stored for a user and a week, if any. *)
Definition stored_count (c : counts) (u : User.t) (w : Week.t) : option Z :=
  match Dict.get User.eqb c u with
  | Some week_to_count => option_map Counter.count (Dict.get Week.eqb week_to_count w)
  | None => None
  end.

(** The stored count, an absent one read as 0. *)
Definition tally (c : counts) (u : User.t) (w : Week.t) : Z :=
  match stored_count c u w with Some n => n | None => 0 end.

(** The number of day keys of a week whose set of users holds [u]. *)
Definition days_present (u : User.t) (w : Week.t) : Z :=
  Z.of_nat (List.length
              (filter (fun users => PySet.mem User.eqb users u)
                 (Dict.values (Week.daily_presences w)))).

Fixpoint Zsum (l : list Z) : Z :=
  match l with
  | [] => 0
  | x :: r => x + Zsum r
  end.

(** How many times the counting loops meet [u] in a list of users, and in
    the days of a week. *)
Definition occurrences (u : User.t) (users : list User.t) : Z :=
  Z.of_nat (List.length (filter (fun x => User.eqb x u) users)).

Definition presences (u : User.t) (w : Week.t) : Z :=
  Zsum (map (occurrences u) (Dict.values (Week.daily_presences w))).

(** The label of a week that has one. *)
Definition label_of (w : Week.t) : string :=
  match Week.str w with Ok label => label | Raise _ => EmptyString end.

(** The header names of weeks numbered from [i + 1]. *)
Definition week_names (i : Z) (weeks : list Week.t) : list string :=
  map (fun iw => ("Week " ++ PyStr.str (fst iw + 1) ++ " " ++ label_of (snd iw))%string)
    (enumerate_from i weeks).

(** The users met in the week set. *)
Definition appears (ws : WeekSet.t) (u : User.t) : Prop :=
  exists w users,
    In w (Dict.values (WeekSet.weeks ws))
    /\ In users (Dict.values (Week.daily_presences w))
    /\ In u users.

(** The line of a user in the report, in the words of the specification:
    the name, the group as text, and for each week in turn the number of
    its days on which the user was recorded. *)
Definition line_of (weeks : list Week.t) (u : User.t) : list string :=
  User.name u :: PyStr.str (User.group u)
  :: map (fun w => PyStr.str (days_present u w)) weeks.

(** Stored counts are positive. *)
Definition positive (c : counts) : Prop :=
  forall u w n, stored_count c u w = Some n -> 0 < n.

(** The line of a user as the report builds it from the stored counts, an
    absent count read as 0. *)
Definition line_of_counts (c : counts) (weeks : list Week.t) (u : User.t) : list string :=
  User.name u :: PyStr.str (User.group u)
  :: map (fun w => PyStr.str (tally c u w)) weeks.

(** The order of users in the words of the specification: by name, as
    texts compared character by character, then by group. *)
Definition user_before (a b : User.t) : Prop :=
  String.compare (User.name a) (User.name b) = Lt
  \/ (User.name a = User.name b /\ User.group a < User.group b).

(** The order of weeks: by year, then by number. *)
Definition week_before (a b : Week.t) : Prop :=
  Week.year a < Week.year b
  \/ (Week.year a = Week.year b /\ Week.number a < Week.number b).

(** The user of a record: the identity parsed from column 7. *)
Definition identity_of (column7 : string) : User.t :=
  match parse_name_and_group (PyStr.strip column7) with
  | Ok (name, group) => User.make name group
  | Raise _ => User.make column7 (-1)
  end.

(** The passages of a list of records. *)
Definition passages_of (records : list (Datetime.t * string))
    : list (Datetime.t * User.t) :=
  map (fun r => (fst r, identity_of (snd r))) records.

(** Whether [u] is recorded on day [d] of the week [w]. *)
Definition day_has (w : Week.t) (d : Datetime.t) (u : User.t) : bool :=
  match Dict.get Datetime.eqb (Week.daily_presences w) d with
  | Some users => PySet.mem User.eqb users u
  | None => false
  end.

(** Two weeks of one identity with the same users on the same days, in
    whatever order the days and the users were inserted. *)
Definition week_sim (a b : Week.t) : Prop :=
  Week.identifier a = Week.identifier b
  /\ week_wf (Week.identifier a) a /\ week_wf (Week.identifier b) b
  /\ forall d u, day_has a d u = day_has b d u.

(** Whether a passage is that of [u] on day [d] of the ISO week [k]. *)
Definition passage_hits (k : Z * Z) (d : Datetime.t) (u : User.t)
    (p : Datetime.t * User.t) : bool :=
  pair_eqb (Datetime.isoweek (fst p)) k
  && Datetime.eqb (WeekSet.passage_date (fst p)) d
  && User.eqb (snd p) u.

(** The order of week identities. *)
Definition pair_before (a b : Z * Z) : Prop :=
  tuple_ltb [fst a; snd a] [fst b; snd b] = true.

(** Three records, and the same records in another order. *)
Definition records_example : list (Datetime.t * string) :=
  [(Datetime.make 2023 5 1 10 0 0 0, "A#1");
   (Datetime.make 2023 5 2 9 15 0 0, "A#1");
   (Datetime.make 2023 5 1 8 30 0 0, "B#2")].

Definition records_example_permuted : list (Datetime.t * string) :=
  [(Datetime.make 2023 5 1 8 30 0 0, "B#2");
   (Datetime.make 2023 5 2 9 15 0 0, "A#1");
   (Datetime.make 2023 5 1 10 0 0 0, "A#1")].

(** [x <= y] as [sorted] sees it: not [y < x]. *)
Definition not_after (A : Type) (ltb : A -> A -> bool) (x y : A) : Prop :=
  ltb y x = false.

(** The passages of the three records of the example. *)
Definition passages_example : list (Datetime.t * User.t) :=
  [(Datetime.make 2023 5 1 10 0 0 0, User.make "A" 1);
   (Datetime.make 2023 5 2 9 15 0 0, User.make "A" 1);
   (Datetime.make 2023 5 1 8 30 0 0, User.make "B" 2)].

(** The text of a label made of three lists of pieces. *)
Definition label_text (common_pieces from_pieces to_pieces : list string) : string :=
  ("(" ++ PyStr.join "/" common_pieces
   ++ " from " ++ PyStr.join "/" from_pieces
   ++ " to " ++ PyStr.join "/" to_pieces ++ ")")%string.

(** The forms the label of a week takes: for one day, [(only Y/M/D)]; for
    more days, with [a] the earliest and [b] the latest of them,
    [(Y/M from D to D')] when both are of one month,
    [(Y from M/D to M'/D')] when both are of one year, and
    [( from Y/M/D to Y'/M'/D')] otherwise. *)
Definition label_form (w : Week.t) : Prop :=
  match Dict.keys (Week.daily_presences w) with
  | [] => False
  | [d] =>
      Week.str w
      = Ok ("(only "
            ++ PyStr.join "/"
                 [PyStr.str (Datetime.year d); PyStr.str (Datetime.month d);
                  PyStr.str (Datetime.day d)]
            ++ ")")%string
  | days =>
      exists a b,
        In a days /\ In b days
        /\ (forall d, In d days -> Datetime.ltb d a = false /\ Datetime.ltb b d = false)
        /\ Datetime.day a <> Datetime.day b
        /\ let str := PyStr.str in
           (Datetime.year a = Datetime.year b /\ Datetime.month a = Datetime.month b
            /\ Week.str w
               = Ok (label_text [str (Datetime.year a); str (Datetime.month a)]
                       [str (Datetime.day a)] [str (Datetime.day b)]))
           \/ (Datetime.year a = Datetime.year b /\ Datetime.month a <> Datetime.month b
               /\ Week.str w
                  = Ok (label_text [str (Datetime.year a)]
                          [str (Datetime.month a); str (Datetime.day a)]
                          [str (Datetime.month b); str (Datetime.day b)]))
           \/ (Datetime.year a <> Datetime.year b
               /\ Week.str w
                  = Ok (label_text []
                          [str (Datetime.year a); str (Datetime.month a); str (Datetime.day a)]
                          [str (Datetime.year b); str (Datetime.month b); str (Datetime.day b)]))
  end.

(** A text whose characters all pass the test [p]. *)
Fixpoint all_chars (p : ascii -> bool) (s : string) : bool :=
  match s with
  | EmptyString => true
  | String a r => p a && all_chars p r
  end.

(** A text of white space only. *)
Definition blank (s : string) : bool := all_chars PyStr.isspace s.

(** The characters [str] writes an integer with: the digits and the sign. *)
Definition int_char (c : ascii) : bool :=
  match PyStr.digit c with
  | Some _ => true
  | None => Ascii.eqb c "-"
  end.

(** The value of a sequence of decimal digits read after the value [acc]. *)
Fixpoint uint_value (acc : Z) (d : Decimal.uint) : Z :=
  match d with
  | Decimal.Nil => acc
  | Decimal.D0 d => uint_value (10 * acc + 0) d
  | Decimal.D1 d => uint_value (10 * acc + 1) d
  | Decimal.D2 d => uint_value (10 * acc + 2) d
  | Decimal.D3 d => uint_value (10 * acc + 3) d
  | Decimal.D4 d => uint_value (10 * acc + 4) d
  | Decimal.D5 d => uint_value (10 * acc + 5) d
  | Decimal.D6 d => uint_value (10 * acc + 6) d
  | Decimal.D7 d => uint_value (10 * acc + 7) d
  | Decimal.D8 d => uint_value (10 * acc + 8) d
  | Decimal.D9 d => uint_value (10 * acc + 9) d
  end.

(** ** The label, field by field *)

(** The fields the loop of [__str__] walks, in its order. *)
Definition label_fields : list Datetime.field :=
  [Datetime.f_year; Datetime.f_month; Datetime.f_day].

(** Two days have the same value in a field. *)
Definition same_field (a b : Datetime.t) (f : Datetime.field) : bool :=
  Datetime.getattr a f =? Datetime.getattr b f.

(** The pieces when every field is looked at on its own: the fields on
    which the two days agree make the common prefix, in the order of the
    fields, and the fields on which they differ make the lists "from" and
    "to". *)
Definition pieces_by_field (min_date max_date : Datetime.t)
    : list string * list string * list string :=
  let differs f := negb (same_field min_date max_date f) in
  (map (fun f => PyStr.str (Datetime.getattr min_date f))
     (filter (same_field min_date max_date) label_fields),
   map (fun f => PyStr.str (Datetime.getattr min_date f)) (filter differs label_fields),
   map (fun f => PyStr.str (Datetime.getattr max_date f)) (filter differs label_fields)).

(** No field coincides after an earlier field differs: days of different
    years are of different months, and days of different months have
    different day numbers. *)
Definition differs_to_the_end (a b : Datetime.t) : Prop :=
  (Datetime.year a <> Datetime.year b -> Datetime.month a <> Datetime.month b)
  /\ (Datetime.month a <> Datetime.month b -> Datetime.day a <> Datetime.day b).

(** [min_date] and [max_date] are what [min] and [max] return on the days
    of a week, and they are its earliest and its latest day. *)
Definition earliest_and_latest (w : Week.t) (min_date max_date : Datetime.t) : Prop :=
  let days := Dict.keys (Week.daily_presences w) in
  py_min Datetime.ltb days = Ok min_date
  /\ py_max Datetime.ltb days = Ok max_date
  /\ In min_date days /\ In max_date days
  /\ forall d, In d days ->
       Datetime.ltb d min_date = false /\ Datetime.ltb max_date d = false.

(** The label of a week of two days or more, field by field: it is made
    of the pieces of the earliest and latest days, every field is placed
    by its own comparison, and the pieces are those of the specification
    exactly when no field coincides after an earlier one differs. *)
Definition label_field_by_field (w : Week.t) : Prop :=
  exists min_date max_date,
    earliest_and_latest w min_date max_date
    /\ (let '(common_pieces, from_pieces, to_pieces) := Week.pieces min_date max_date in
        Week.str w = Ok (label_text common_pieces from_pieces to_pieces))
    /\ Week.pieces min_date max_date = pieces_by_field min_date max_date
    /\ (Week.pieces min_date max_date = pieces_spec min_date max_date
        <-> differs_to_the_end min_date max_date).

(** The week of the specification's example: a week object holding the
    30th of December 2022 and the 2nd of January 2023. *)
Definition week_of_two_iso_weeks : Week.t :=
  Week.make 2022 52
    [(Datetime.make 2022 12 30 0 0 0 0, [User.make "A" 1]);
     (Datetime.make 2023 1 2 0 0 0 0, [User.make "A" 1])].

(** * Properties *)

Unset Implicit Arguments.

(** ** Strings *)

Lemma rfind_without (c : ascii) (s : string) :
  without c s -> PyStr.rfind c s = -1.
Proof.
  induction s as [|a r IH]; intros H; simpl; [reflexivity|].
  rewrite IH.
  - simpl. destruct (Ascii.eqb_spec a c) as [->|]; [|reflexivity].
    exfalso. apply (H 0%nat). reflexivity.
  - intros n. apply (H (S n)).
Qed.

Lemma rfind_last (c : ascii) (before after : string) :
  without c after ->
  PyStr.rfind c (before ++ String c after) = PyStr.len before.
Proof.
  intros H. unfold PyStr.len.
  induction before as [|a r IH].
  - simpl. rewrite (rfind_without _ _ H). simpl. now rewrite Ascii.eqb_refl.
  - cbn [append PyStr.rfind String.length]. rewrite IH.
    destruct (0 <=? Z.of_nat (String.length r)) eqn:E; [lia|].
    apply Z.leb_gt in E. lia.
Qed.

Lemma len_app (a b : string) : PyStr.len (a ++ b) = PyStr.len a + PyStr.len b.
Proof.
  unfold PyStr.len. induction a as [|x a IH]; cbn [append String.length]; lia.
Qed.

Lemma take_app (a b : string) : PyStr.take (String.length a) (a ++ b) = a.
Proof. induction a as [|x a IH]; simpl; [now destruct b | now rewrite IH]. Qed.

Lemma drop_app (a b : string) : PyStr.drop (String.length a) (a ++ b) = b.
Proof. induction a as [|x a IH]; simpl; [now destruct b | exact IH]. Qed.

Lemma slice_to_app (a b : string) : PyStr.slice_to (a ++ b) (PyStr.len a) = a.
Proof.
  unfold PyStr.slice_to, PyStr.bound. rewrite len_app.
  assert (0 <= PyStr.len a /\ 0 <= PyStr.len b) as [Ha Hb] by (unfold PyStr.len; lia).
  destruct (PyStr.len a <? 0) eqn:E; [lia|].
  replace (Z.min (PyStr.len a) (PyStr.len a + PyStr.len b)) with (PyStr.len a) by lia.
  unfold PyStr.len. rewrite Nat2Z.id. apply take_app.
Qed.

Lemma slice_from_app (a : string) (c : ascii) (b : string) :
  PyStr.slice_from (a ++ String c b) (PyStr.len a + 1) = b.
Proof.
  unfold PyStr.slice_from, PyStr.bound. rewrite len_app.
  assert (0 <= PyStr.len a /\ 0 <= PyStr.len b) as [Ha Hb] by (unfold PyStr.len; lia).
  assert (PyStr.len (String c b) = 1 + PyStr.len b) as ->
    by (unfold PyStr.len; cbn [String.length]; lia).
  destruct (PyStr.len a + 1 <? 0) eqn:E; [lia|].
  replace (Z.min _ _) with (Z.of_nat (String.length (a ++ String c EmptyString)))
    by (fold (PyStr.len (a ++ String c EmptyString)); rewrite len_app;
        unfold PyStr.len at 2; cbn [String.length]; lia).
  rewrite Nat2Z.id.
  replace (a ++ String c b)%string with ((a ++ String c EmptyString) ++ b)%string.
  - apply drop_app.
  - clear. induction a as [|x a IH]; simpl; [reflexivity | now rewrite IH].
Qed.

(** [int] raises nothing but [ValueError]. *)
Lemma int_raises (s : string) (e : exn) : PyStr.int s = Raise e -> e = ValueError.
Proof.
  unfold PyStr.int.
  destruct (match PyStr.strip s with
            | String "-" r => option_map Z.opp (PyStr.digits 0 false r)
            | String "+" r => PyStr.digits 0 false r
            | _ => PyStr.digits 0 false (PyStr.strip s)
            end); [discriminate | now intros [= <-]].
Qed.

Lemma parse_inside (before after : string) :
  without "#" after -> before <> EmptyString -> after <> EmptyString ->
  parse_name_and_group (before ++ String "#" after)
  = Ok (PyStr.strip before, group_of_token (PyStr.strip after)).
Proof.
  intros Hw Hb Ha. unfold parse_name_and_group.
  rewrite (rfind_last _ before _ Hw), len_app.
  assert (0 < PyStr.len before)
    by (destruct before; [congruence | unfold PyStr.len; cbn [String.length]; lia]).
  assert (PyStr.len (String "#" after) = 1 + PyStr.len after) as ->
    by (unfold PyStr.len; cbn [String.length]; lia).
  assert (0 < PyStr.len after)
    by (destruct after; [congruence | unfold PyStr.len; cbn [String.length]; lia]).
  destruct (0 <? PyStr.len before) eqn:E1; [|lia].
  destruct (PyStr.len before <? PyStr.len before + (1 + PyStr.len after) - 1) eqn:E2; [|lia].
  cbn [andb]. rewrite slice_to_app, slice_from_app. unfold group_of_token.
  destruct (PyStr.int (PyStr.strip after)) as [g|e] eqn:E; [reflexivity|].
  now rewrite (int_raises _ _ E).
Qed.

Lemma parse_no_sharp (s : string) :
  without "#" s -> parse_name_and_group s = Ok (s, -1).
Proof.
  intros H. unfold parse_name_and_group. now rewrite (rfind_without _ _ H).
Qed.

Lemma parse_sharp_first (after : string) :
  without "#" after ->
  parse_name_and_group (String "#" after) = Ok (String "#" after, -1).
Proof.
  intros H. unfold parse_name_and_group.
  change (String "#" after) with (EmptyString ++ String "#" after)%string at 1 2.
  now rewrite (rfind_last _ EmptyString _ H).
Qed.

Lemma parse_sharp_last (before : string) :
  parse_name_and_group (before ++ "#") = Ok ((before ++ "#")%string, -1).
Proof.
  unfold parse_name_and_group.
  assert (without "#" EmptyString) as H by (intros [|n]; discriminate).
  rewrite (rfind_last _ before _ H), len_app.
  change (PyStr.len "#") with 1.
  destruct (PyStr.len before <? PyStr.len before + 1 - 1) eqn:E; [lia|].
  now rewrite andb_false_r.
Qed.

Lemma parse_total (s : string) :
  exists name group, parse_name_and_group s = Ok (name, group).
Proof.
  unfold parse_name_and_group.
  destruct (_ && _); [|eauto].
  destruct (PyStr.int _) as [g|e] eqn:E; [simpl; eauto|].
  rewrite (int_raises _ _ E). simpl. eauto.
Qed.

(** A text holds no [#], or splits in one way around its last [#]. *)
Lemma last_sharp_cases (s : string) :
  without "#" s
  \/ exists before after, s = (before ++ String "#" after)%string /\ without "#" after.
Proof.
  induction s as [|a r IH].
  - left. intros [|n]; discriminate.
  - destruct IH as [Hr | (before & after & -> & Hafter)].
    + destruct (Ascii.eqb_spec a "#") as [-> | Hne].
      * right. exists EmptyString, r. split; [reflexivity | exact Hr].
      * left. intros [|n]; cbn; [congruence | apply Hr].
    + right. exists (String a before), after. split; [reflexivity | exact Hafter].
Qed.

(** C2: [parse_name_and_group] never raises; a text holds no [#] or splits
    around its last [#]; when that [#] stands strictly inside the text
    (something before it and something after it), the result is the
    trimmed text before it and the integer of the trimmed text after it,
    or [-1] when that is no integer; without a [#], or with the last [#]
    first or last in the text, the result is the text itself and [-1]. *)
Theorem parse_name_and_group_spec :
  (forall s, exists name group, parse_name_and_group s = Ok (name, group))
  /\ (forall s,
        without "#" s
        \/ exists before after,
             s = (before ++ String "#" after)%string /\ without "#" after)
  /\ (forall before after,
        without "#" after -> before <> EmptyString -> after <> EmptyString ->
        parse_name_and_group (before ++ String "#" after)
        = Ok (PyStr.strip before, group_of_token (PyStr.strip after)))
  /\ (forall s, without "#" s -> parse_name_and_group s = Ok (s, -1))
  /\ (forall after, without "#" after ->
        parse_name_and_group (String "#" after) = Ok (String "#" after, -1))
  /\ (forall before,
        parse_name_and_group (before ++ "#") = Ok ((before ++ "#")%string, -1))
  /\ parse_name_and_group "Alice #3" = Ok ("Alice", 3)
  /\ parse_name_and_group "Bob#" = Ok ("Bob#", -1)
  /\ parse_name_and_group "  Eve # x " = Ok ("Eve", -1)
  /\ parse_name_and_group "NoHash" = Ok ("NoHash", -1).
Proof.
  split; [exact parse_total|].
  split; [exact last_sharp_cases|].
  split; [exact parse_inside|].
  split; [exact parse_no_sharp|].
  split; [exact parse_sharp_first|].
  split; [exact parse_sharp_last|].
  repeat split; reflexivity.
Qed.

(** ** The calendar *)

Lemma leap_day_range y : 0 <= leap_day y <= 1.
Proof. unfold leap_day. destruct (Datetime.is_leap y); lia. Qed.

Lemma days_before_year_succ y :
  Datetime.days_before_year (y + 1) = Datetime.days_before_year y + 365 + leap_day y.
Proof.
  unfold Datetime.days_before_year, leap_day, Datetime.is_leap.
  replace (y + 1 - 1) with y by lia.
  destruct (y mod 4 =? 0) eqn:E4; destruct (y mod 100 =? 0) eqn:E100;
    destruct (y mod 400 =? 0) eqn:E400; cbn [andb orb negb];
    rewrite ?Z.eqb_eq, ?Z.eqb_neq in *;
    Z.to_euclidean_division_equations; lia.
Qed.

Lemma days_before_year_mono y k :
  0 <= k -> Datetime.days_before_year y + 365 * k <= Datetime.days_before_year (y + k).
Proof.
  intros Hk. revert k Hk. apply natlike_ind.
  - replace (y + 0) with y by lia. lia.
  - intros k Hk IH. replace (y + Z.succ k) with (y + k + 1) by lia.
    rewrite days_before_year_succ. pose proof (leap_day_range (y + k)). lia.
Qed.

(** The two tables, month by month. *)
Lemma month_tables y m :
  1 <= m <= 12 ->
  let l := leap_day y in
  let dim := Datetime.days_in_month y m in
  let dbm := Datetime.days_before_month y m in
     (m = 1 /\ dim = 31 /\ dbm = 0)
  \/ (m = 2 /\ dim = 28 + l /\ dbm = 31)
  \/ (m = 3 /\ dim = 31 /\ dbm = 59 + l)
  \/ (m = 4 /\ dim = 30 /\ dbm = 90 + l)
  \/ (m = 5 /\ dim = 31 /\ dbm = 120 + l)
  \/ (m = 6 /\ dim = 30 /\ dbm = 151 + l)
  \/ (m = 7 /\ dim = 31 /\ dbm = 181 + l)
  \/ (m = 8 /\ dim = 31 /\ dbm = 212 + l)
  \/ (m = 9 /\ dim = 30 /\ dbm = 243 + l)
  \/ (m = 10 /\ dim = 31 /\ dbm = 273 + l)
  \/ (m = 11 /\ dim = 30 /\ dbm = 304 + l)
  \/ (m = 12 /\ dim = 31 /\ dbm = 334 + l).
Proof.
  intros Hm. unfold leap_day, Datetime.days_in_month, Datetime.days_before_month.
  assert (m = 1 \/ m = 2 \/ m = 3 \/ m = 4 \/ m = 5 \/ m = 6 \/ m = 7 \/ m = 8
          \/ m = 9 \/ m = 10 \/ m = 11 \/ m = 12) as Hc by lia.
  destruct (Datetime.is_leap y);
    repeat (destruct Hc as [-> | Hc]); try subst m; vm_compute; intuition congruence.
Qed.

Lemma ymd2ord_jan1 y : Datetime.ymd2ord y 1 1 = Datetime.days_before_year y + 1.
Proof.
  pose proof (month_tables y 1 ltac:(lia)) as H. cbv zeta in H.
  unfold Datetime.ymd2ord. lia.
Qed.

(** The Monday that starts ISO week 1 of a year is at most three days away
    from the first of January. *)
Lemma isoweek1monday_spec y :
  Datetime.days_before_year y - 2 <= Datetime.isoweek1monday y
    <= Datetime.days_before_year y + 4
  /\ Datetime.isoweek1monday y mod 7 = 1.
Proof.
  unfold Datetime.isoweek1monday. rewrite ymd2ord_jan1.
  destruct (3 <? (Datetime.days_before_year y + 1 + 6) mod 7) eqn:E;
    [apply Z.ltb_lt in E | apply Z.ltb_ge in E];
    Z.to_euclidean_division_equations; lia.
Qed.

Lemma day_of_year_bounds y m d :
  1 <= m <= 12 -> 1 <= d <= Datetime.days_in_month y m ->
  1 <= Datetime.days_before_month y m + d <= 365 + leap_day y.
Proof.
  intros Hm Hd. pose proof (month_tables y m Hm) as H. cbv zeta in H.
  pose proof (leap_day_range y). lia.
Qed.

(** The days of ISO week [W] of ISO year [Y] are the seven days from the
    Monday [7 * (W - 1)] days after the Monday of week 1. *)
Lemma isoweek_range d :
  Datetime.valid d ->
  let Y := fst (Datetime.isoweek d) in
  let W := snd (Datetime.isoweek d) in
  1 <= W <= 53
  /\ Datetime.isoweek1monday Y + 7 * (W - 1) <= Datetime.toordinal d
     < Datetime.isoweek1monday Y + 7 * W
  /\ Datetime.toordinal d < Datetime.isoweek1monday (Y + 1).
Proof.
  intros (Hy & Hm & Hd & _).
  pose proof (day_of_year_bounds _ _ _ Hm Hd) as Hdoy.
  unfold Datetime.isoweek, Datetime.isocalendar, Datetime.toordinal, Datetime.ymd2ord in *.
  set (y := Datetime.year d) in *.
  set (doy := Datetime.days_before_month y (Datetime.month d) + Datetime.day d) in *.
  replace (Datetime.days_before_year y
           + Datetime.days_before_month y (Datetime.month d) + Datetime.day d)
    with (Datetime.days_before_year y + doy) by (unfold doy; lia).
  clearbody doy. clear Hm Hd.
  pose proof (isoweek1monday_spec y) as [Hr0 Hm0].
  pose proof (isoweek1monday_spec (y + 1)) as [Hr1 Hm1].
  pose proof (isoweek1monday_spec (y - 1)) as [Hr2 Hm2].
  pose proof (isoweek1monday_spec (y + 1 + 1)) as [Hr3 Hm3].
  pose proof (days_before_year_succ y) as S0.
  pose proof (days_before_year_succ (y - 1)) as S1.
  pose proof (days_before_year_succ (y + 1)) as S2.
  replace (y - 1 + 1) with y in S1 by lia.
  assert (Datetime.isoweek1monday (y - 1 + 1) = Datetime.isoweek1monday y) as Hback
    by (f_equal; lia).
  pose proof (leap_day_range y). pose proof (leap_day_range (y - 1)).
  pose proof (leap_day_range (y + 1)).
  set (m0 := Datetime.isoweek1monday y) in *.
  set (m1 := Datetime.isoweek1monday (y + 1)) in *.
  set (m2 := Datetime.isoweek1monday (y - 1)) in *.
  set (m0' := Datetime.isoweek1monday (y - 1 + 1)) in *.
  set (m3 := Datetime.isoweek1monday (y + 1 + 1)) in *.
  set (b0 := Datetime.days_before_year y) in *.
  set (b1 := Datetime.days_before_year (y + 1)) in *.
  set (b2 := Datetime.days_before_year (y - 1)) in *.
  set (b3 := Datetime.days_before_year (y + 1 + 1)) in *.
  destruct ((b0 + doy - m0) / 7 <? 0) eqn:E1.
  - apply Z.ltb_lt in E1. cbn [fst snd].
    change (Datetime.isoweek1monday (y - 1)) with m2.
    change (Datetime.isoweek1monday (y - 1 + 1)) with m0'.
    clearbody m0 m0' m1 m2 m3 b0 b1 b2 b3.
    Z.to_euclidean_division_equations; lia.
  - apply Z.ltb_ge in E1.
    destruct ((52 <=? (b0 + doy - m0) / 7) && (m1 <=? b0 + doy)) eqn:E2.
    + apply andb_true_iff in E2 as [E2 E3]. apply Z.leb_le in E2, E3.
      cbn [fst snd].
      change (Datetime.isoweek1monday (y + 1)) with m1.
      change (Datetime.isoweek1monday (y + 1 + 1)) with m3.
      clearbody m0 m0' m1 m2 m3 b0 b1 b2 b3.
      Z.to_euclidean_division_equations; lia.
    + cbn [fst snd]. apply andb_false_iff in E2.
      rewrite Z.leb_gt, Z.leb_gt in E2.
      change (Datetime.isoweek1monday y) with m0.
      change (Datetime.isoweek1monday (y + 1)) with m1.
      clearbody m0 m0' m1 m2 m3 b0 b1 b2 b3.
      Z.to_euclidean_division_equations; lia.
Qed.

(** [isocalendar] computes the week of ISO 8601. *)
Lemma isoweek_iso8601 d :
  Datetime.valid d ->
  iso8601_week (Datetime.toordinal d)
    (fst (Datetime.isoweek d)) (snd (Datetime.isoweek d)).
Proof.
  intros Hv. pose proof (isoweek_range d Hv) as H. cbv zeta in H.
  set (Y := fst (Datetime.isoweek d)) in *. set (W := snd (Datetime.isoweek d)) in *.
  destruct H as (HW & Hn & Hnext).
  pose proof (isoweek1monday_spec Y) as [Hr0 Hm0].
  pose proof (isoweek1monday_spec (Y + 1)) as [Hr1 Hm1].
  exists (Datetime.isoweek1monday Y + 3).
  unfold first_thursday, monday_of. rewrite !ymd2ord_jan1.
  set (n := Datetime.toordinal d) in *.
  set (m0 := Datetime.isoweek1monday Y) in *.
  set (m1 := Datetime.isoweek1monday (Y + 1)) in *.
  clearbody n m0 m1.
  repeat split; try lia; Z.to_euclidean_division_equations; lia.
Qed.

(** The ISO week of a day is unique. *)
Lemma iso8601_week_unique n Y W Y' W' :
  iso8601_week n Y W -> iso8601_week n Y' W' -> Y = Y' /\ W = W'.
Proof.
  intros (th & (Hth & Hthd) & HW & Hm & Hnext) (th' & (Hth' & Hthd') & HW' & Hm' & Hnext').
  rewrite ymd2ord_jan1 in *.
  assert (Y = Y') as ->.
  { destruct (Z.lt_trichotomy Y Y') as [Hlt | [-> | Hlt]]; [exfalso | reflexivity | exfalso].
    - pose proof (days_before_year_mono (Y + 1) (Y' - (Y + 1)) ltac:(lia)) as Hmono.
      replace (Y + 1 + (Y' - (Y + 1))) with Y' in Hmono by lia. lia.
    - pose proof (days_before_year_mono (Y' + 1) (Y - (Y' + 1)) ltac:(lia)) as Hmono.
      replace (Y' + 1 + (Y - (Y' + 1))) with Y in Hmono by lia. lia. }
  split; [reflexivity|].
  Z.to_euclidean_division_equations; lia.
Qed.

(** Two days of one ISO week, field by field: when the years differ the
    months differ, and when the months differ the days differ. *)
Lemma same_week_fields a b :
  Datetime.valid a -> Datetime.valid b ->
  Datetime.isoweek a = Datetime.isoweek b ->
  (Datetime.year a <> Datetime.year b -> Datetime.month a <> Datetime.month b)
  /\ (Datetime.month a <> Datetime.month b -> Datetime.day a <> Datetime.day b).
Proof.
  intros Ha Hb Hw.
  pose proof (isoweek_range a Ha) as Ra. pose proof (isoweek_range b Hb) as Rb.
  cbv zeta in Ra, Rb. rewrite Hw in Ra.
  assert (-6 <= Datetime.toordinal a - Datetime.toordinal b <= 6) as Hclose by lia.
  clear Ra Rb Hw.
  destruct Ha as (_ & Hma & Hda & _), Hb as (_ & Hmb & Hdb & _).
  unfold Datetime.toordinal, Datetime.ymd2ord in Hclose.
  pose proof (month_tables (Datetime.year a) _ Hma) as Ta.
  pose proof (month_tables (Datetime.year b) _ Hmb) as Tb.
  cbv zeta in Ta, Tb.
  pose proof (leap_day_range (Datetime.year a)).
  pose proof (leap_day_range (Datetime.year b)).
  pose proof (days_before_year_succ (Datetime.year a)) as Sa.
  pose proof (days_before_year_succ (Datetime.year b)) as Sb.
  destruct (Z.lt_trichotomy (Datetime.year a) (Datetime.year b)) as [Hlt | [Heq | Hlt]].
  - pose proof (days_before_year_mono (Datetime.year a + 1)
                  (Datetime.year b - (Datetime.year a + 1)) ltac:(lia)) as Hmono.
    replace (Datetime.year a + 1 + (Datetime.year b - (Datetime.year a + 1)))
      with (Datetime.year b) in Hmono by lia.
    split; intros _; lia.
  - rewrite Heq in *. split; [congruence|]. intros Hne. lia.
  - pose proof (days_before_year_mono (Datetime.year b + 1)
                  (Datetime.year a - (Datetime.year b + 1)) ltac:(lia)) as Hmono.
    replace (Datetime.year b + 1 + (Datetime.year a - (Datetime.year b + 1)))
      with (Datetime.year a) in Hmono by lia.
    split; intros _; lia.
Qed.

(** ** Equality tests *)

Lemma pair_eqb_eq (a b : Z * Z) : pair_eqb a b = true <-> a = b.
Proof.
  destruct a, b. unfold pair_eqb. cbn [fst snd].
  rewrite andb_true_iff, !Z.eqb_eq. split; [intros [-> ->] | intros [= -> ->]]; auto.
Qed.

Lemma datetime_eqb_eq (a b : Datetime.t) : Datetime.eqb a b = true <-> a = b.
Proof.
  destruct a, b. unfold Datetime.eqb. cbn.
  rewrite !andb_true_iff, !Z.eqb_eq. split.
  - intros [[[[[[-> ->] ->] ->] ->] ->] ->]. reflexivity.
  - intros [= -> -> -> -> -> -> ->]. tauto.
Qed.

Lemma user_eqb_eq (a b : User.t) : User.eqb a b = true <-> a = b.
Proof.
  destruct a, b. unfold User.eqb. cbn.
  rewrite andb_true_iff, String.eqb_eq, Z.eqb_eq.
  split; [intros [-> ->] | intros [= -> ->]]; auto.
Qed.

Lemma week_eqb_eq (a b : Week.t) :
  Week.eqb a b = true <-> Week.identifier a = Week.identifier b.
Proof.
  unfold Week.eqb, Week.identifier. rewrite andb_true_iff, !Z.eqb_eq.
  split; [intros [-> ->] | intros [= -> ->]]; auto.
Qed.

(** ** Dictionaries and sets *)

Section DictFacts.
Variables (K V : Type) (eqb : K -> K -> bool).
Hypothesis eqb_refl : forall k, eqb k k = true.
Hypothesis eqb_sym : forall a b, eqb a b = eqb b a.
Hypothesis eqb_trans : forall a b c, eqb a b = true -> eqb b c = true -> eqb a c = true.

Local Abbreviation get := (Dict.get eqb).
Local Abbreviation set_item := (Dict.set_item eqb).

Lemma eqb_false_trans a b c : eqb a b = true -> eqb b c = false -> eqb a c = false.
Proof.
  intros H1 H2. destruct (eqb a c) eqn:E; [|reflexivity].
  rewrite <- H2. symmetry. apply eqb_trans with a; [now rewrite eqb_sym | exact E].
Qed.

Lemma get_set_same (d : Dict.t K V) k v : get (set_item d k v) k = Some v.
Proof.
  induction d as [|[k' v'] r IH]; cbn.
  - now rewrite eqb_refl.
  - destruct (eqb k' k) eqn:E; cbn; now rewrite E.
Qed.

Lemma get_set_other (d : Dict.t K V) k v k' :
  eqb k k' = false -> get (set_item d k v) k' = get d k'.
Proof.
  intros H. induction d as [|[k0 v0] r IH]; cbn.
  - now rewrite H.
  - destruct (eqb k0 k) eqn:E; cbn.
    + rewrite (eqb_false_trans _ _ _ E H). reflexivity.
    + now rewrite IH.
Qed.

Lemma get_compat (d : Dict.t K V) k k' : eqb k k' = true -> get d k = get d k'.
Proof.
  intros H. induction d as [|[k0 v0] r IH]; cbn; [reflexivity|].
  destruct (eqb k0 k) eqn:E.
  - now rewrite (eqb_trans _ _ _ E H).
  - rewrite eqb_sym in H. rewrite eqb_sym in E.
    assert (eqb k0 k' = false) as ->; [|exact IH].
    rewrite eqb_sym. apply eqb_false_trans with k; [exact H | exact E].
Qed.

Lemma set_set (d : Dict.t K V) k v v' : set_item (set_item d k v) k v' = set_item d k v'.
Proof.
  induction d as [|[k0 v0] r IH]; cbn.
  - now rewrite eqb_refl.
  - destruct (eqb k0 k) eqn:E; cbn; rewrite E; [reflexivity | now rewrite IH].
Qed.

Lemma set_get_id (d : Dict.t K V) k v : get d k = Some v -> set_item d k v = d.
Proof.
  induction d as [|[k0 v0] r IH]; cbn; [discriminate|].
  destruct (eqb k0 k); [now intros [= ->] | intros H; now rewrite IH].
Qed.
End DictFacts.

(** Facts that need keys compared by their value. *)
Section DictKeyFacts.
Variables (K V : Type) (eqb : K -> K -> bool).
Hypothesis eqb_eq : forall a b, eqb a b = true <-> a = b.

Local Abbreviation get := (Dict.get eqb).
Local Abbreviation set_item := (Dict.set_item eqb).

Lemma key_eqb_refl k : eqb k k = true.
Proof. now apply eqb_eq. Qed.

Lemma key_eqb_sym a b : eqb a b = eqb b a.
Proof.
  destruct (eqb a b) eqn:E1, (eqb b a) eqn:E2; try reflexivity.
  - apply eqb_eq in E1 as ->. now rewrite key_eqb_refl in E2.
  - apply eqb_eq in E2 as ->. now rewrite key_eqb_refl in E1.
Qed.

Lemma key_eqb_trans a b c : eqb a b = true -> eqb b c = true -> eqb a c = true.
Proof. rewrite !eqb_eq. congruence. Qed.

Lemma key_eqb_neq a b : eqb a b = false <-> a <> b.
Proof.
  split.
  - intros H ->. now rewrite key_eqb_refl in H.
  - intros H. destruct (eqb a b) eqn:E; [|reflexivity]. now apply eqb_eq in E.
Qed.

Lemma get_In (d : Dict.t K V) k v : get d k = Some v -> In (k, v) d.
Proof.
  induction d as [|[k0 v0] r IH]; cbn; [discriminate|].
  destruct (eqb k0 k) eqn:E.
  - apply eqb_eq in E as ->. intros [= ->]. now left.
  - intros H. right. now apply IH.
Qed.

Lemma get_None (d : Dict.t K V) k : get d k = None <-> ~ In k (Dict.keys d).
Proof.
  induction d as [|[k0 v0] r IH]; cbn; [tauto|].
  destruct (eqb k0 k) eqn:E.
  - apply eqb_eq in E. split; [discriminate | intros H; exfalso; auto].
  - rewrite IH. split; [intros H [->|H']; [|auto] | tauto].
    assert (eqb k k = true) as H' by now apply eqb_eq. congruence.
Qed.

Lemma In_get (d : Dict.t K V) k v :
  NoDup (Dict.keys d) -> In (k, v) d -> get d k = Some v.
Proof.
  induction d as [|[k0 v0] r IH]; cbn; [tauto|].
  intros Hnd [[= -> ->] | Hin].
  - assert (eqb k k = true) as -> by now apply eqb_eq. reflexivity.
  - inversion Hnd as [|? ? Hnotin Hnd']; subst.
    destruct (eqb k0 k) eqn:E; [|auto].
    apply eqb_eq in E as ->. exfalso. apply Hnotin.
    change k with (fst (k, v)). now apply in_map.
Qed.

Lemma keys_set_item (d : Dict.t K V) k v :
  Dict.keys (set_item d k v)
  = if existsb (fun k' => eqb k' k) (Dict.keys d) then Dict.keys d
    else Dict.keys d ++ [k].
Proof.
  unfold Dict.keys.
  induction d as [|[k0 v0] r IH]; cbn [Dict.set_item map fst existsb]; [reflexivity|].
  destruct (eqb k0 k) eqn:E; cbn [map fst orb]; [reflexivity|].
  rewrite IH. now destruct (existsb _ _).
Qed.

Lemma In_keys_set_item (d : Dict.t K V) k v k' :
  In k' (Dict.keys (set_item d k v)) <-> k' = k \/ In k' (Dict.keys d).
Proof.
  rewrite keys_set_item. destruct (existsb _ _) eqn:E.
  - apply existsb_exists in E as (x & Hx & Hxk). apply eqb_eq in Hxk as ->.
    split; [auto | intros [->|H]; auto].
  - rewrite in_app_iff. cbn. intuition auto.
Qed.

Lemma NoDup_keys_set_item (d : Dict.t K V) k v :
  NoDup (Dict.keys d) -> NoDup (Dict.keys (set_item d k v)).
Proof.
  intros H. rewrite keys_set_item. destruct (existsb _ _) eqn:E; [exact H|].
  apply NoDup_app; [exact H | repeat constructor; auto | ].
  intros x Hx [<-|[]].
  assert (existsb (fun k' => eqb k' k) (Dict.keys d) = true); [|congruence].
  apply existsb_exists. exists k. split; [exact Hx | now apply eqb_eq].
Qed.

Lemma In_set_item (d : Dict.t K V) k v k' v' :
  In (k', v') (set_item d k v) ->
  (k' = k /\ v' = v) \/ (k' <> k /\ In (k', v') d) \/ (k' = k /\ In (k', v') d).
Proof.
  induction d as [|[k0 v0] r IH]; cbn.
  - intros [H|[]]. injection H as <- <-. auto.
  - destruct (eqb k' k) eqn:E'.
    + apply eqb_eq in E'. subst k'.
      destruct (eqb k0 k) eqn:E.
      * intros [H | H]; [injection H as _ <-; auto | auto].
      * intros [H | H]; [injection H as -> _; now rewrite key_eqb_refl in E|].
        apply IH in H. intuition auto.
    + apply key_eqb_neq in E'.
      destruct (eqb k0 k) eqn:E.
      * apply eqb_eq in E. subst k0.
        intros [H | H]; [injection H as <- _; congruence | auto].
      * intros [H | H]; [auto|]. apply IH in H. intuition auto.
Qed.

Lemma In_set_item_wf (d : Dict.t K V) k v k' v' :
  NoDup (Dict.keys d) ->
  In (k', v') (set_item d k v) <->
  (k' = k /\ v' = v) \/ (k' <> k /\ In (k', v') d).
Proof.
  intros Hnd. split.
  - intros H. destruct (In_set_item _ _ _ _ _ H) as [H1 | [H1 | [-> H1]]]; auto.
    left. split; [reflexivity|].
    apply In_get in H; [|now apply NoDup_keys_set_item].
    rewrite (get_set_same _ _ eqb key_eqb_refl) in H. congruence.
  - intros [[-> ->] | [Hne Hin]].
    + apply get_In. apply (get_set_same _ _ eqb key_eqb_refl).
    + apply get_In.
      rewrite (get_set_other _ _ eqb key_eqb_sym key_eqb_trans);
        [now apply In_get | apply key_eqb_neq; congruence].
Qed.
End DictKeyFacts.

Section SetFacts.
Variables (A : Type) (eqb : A -> A -> bool).
Hypothesis eqb_eq : forall a b, eqb a b = true <-> a = b.

Local Abbreviation mem := (PySet.mem eqb).
Local Abbreviation add := (PySet.add eqb).

Lemma mem_In (s : PySet.t A) x : mem s x = true <-> In x s.
Proof.
  unfold PySet.mem. rewrite existsb_exists. split.
  - intros (y & Hy & E). apply eqb_eq in E. now subst.
  - intros H. exists x. split; [exact H | now apply eqb_eq].
Qed.

Lemma mem_add (s : PySet.t A) x y : mem (add s x) y = mem s y || eqb x y.
Proof.
  unfold PySet.add. destruct (mem s x) eqn:E.
  - destruct (eqb x y) eqn:Exy; [|now rewrite orb_false_r].
    apply eqb_eq in Exy. subst y. now rewrite E.
  - unfold PySet.mem. rewrite existsb_app. cbn. now rewrite orb_false_r.
Qed.

Lemma add_mem (s : PySet.t A) x : mem s x = true -> add s x = s.
Proof. unfold PySet.add. now intros ->. Qed.

Lemma add_not_nil (s : PySet.t A) x : add s x <> [].
Proof.
  unfold PySet.add. destruct (mem s x) eqn:E.
  - intros ->. discriminate.
  - now destruct s.
Qed.

Lemma In_add (s : PySet.t A) x y : In y (add s x) <-> In y s \/ y = x.
Proof.
  unfold PySet.add. destruct (mem s x) eqn:E.
  - apply mem_In in E. split; [auto | intros [H| ->]; auto].
  - rewrite in_app_iff. cbn. intuition auto.
Qed.

Lemma NoDup_add (s : PySet.t A) x : NoDup s -> NoDup (add s x).
Proof.
  intros H. unfold PySet.add. destruct (mem s x) eqn:E; [exact H|].
  apply NoDup_app; [exact H | repeat constructor; auto |].
  intros y Hy [<-|[]]. apply mem_In in Hy. congruence.
Qed.
End SetFacts.

Lemma set_item_not_nil (K V : Type) (eqb : K -> K -> bool) (d : Dict.t K V) k v :
  Dict.set_item eqb d k v <> [].
Proof. destruct d as [|[k0 v0] r]; cbn; [|destruct (eqb k0 k)]; discriminate. Qed.

(** ** The week set under [add_passage] *)

Lemma pair_eqb_refl k : pair_eqb k k = true.
Proof. now apply pair_eqb_eq. Qed.

Lemma datetime_eqb_refl d : Datetime.eqb d d = true.
Proof. now apply datetime_eqb_eq. Qed.

Lemma same_day_isoweek a b : same_day a b -> Datetime.isoweek a = Datetime.isoweek b.
Proof.
  intros (Hy & Hm & Hd). unfold Datetime.isoweek, Datetime.isocalendar.
  now rewrite Hy, Hm, Hd.
Qed.

Lemma same_day_passage_date a b :
  same_day a b -> WeekSet.passage_date a = WeekSet.passage_date b.
Proof.
  intros (Hy & Hm & Hd). unfold WeekSet.passage_date. now rewrite Hy, Hm, Hd.
Qed.

Lemma passage_date_same_day t : same_day (WeekSet.passage_date t) t.
Proof. repeat split. Qed.

Lemma passage_date_isoweek t :
  Datetime.isoweek (WeekSet.passage_date t) = Datetime.isoweek t.
Proof. apply same_day_isoweek, passage_date_same_day. Qed.

Lemma passage_date_idem t :
  WeekSet.passage_date (WeekSet.passage_date t) = WeekSet.passage_date t.
Proof. reflexivity. Qed.

Lemma add_passage_weeks ws t u :
  WeekSet.weeks (WeekSet.add_passage ws t u)
  = Dict.set_item pair_eqb (WeekSet.weeks ws) (Datetime.isoweek t)
      (week_with (week_for ws t) t u).
Proof.
  unfold WeekSet.add_passage, week_for, week_with.
  destruct (Dict.get pair_eqb (WeekSet.weeks ws) (Datetime.isoweek t)) as [w|]; cbn.
  - reflexivity.
  - now rewrite (set_set _ _ pair_eqb pair_eqb_refl).
Qed.

Lemma pair_eqb_sym a b : pair_eqb a b = pair_eqb b a.
Proof. apply (key_eqb_sym _ pair_eqb pair_eqb_eq). Qed.

Lemma pair_eqb_trans a b c : pair_eqb a b = true -> pair_eqb b c = true -> pair_eqb a c = true.
Proof. apply (key_eqb_trans _ pair_eqb pair_eqb_eq). Qed.

Lemma datetime_eqb_sym a b : Datetime.eqb a b = Datetime.eqb b a.
Proof. apply (key_eqb_sym _ Datetime.eqb datetime_eqb_eq). Qed.

Lemma datetime_eqb_trans a b c :
  Datetime.eqb a b = true -> Datetime.eqb b c = true -> Datetime.eqb a c = true.
Proof. apply (key_eqb_trans _ Datetime.eqb datetime_eqb_eq). Qed.

Lemma week_eta w : Week.make (Week.year w) (Week.number w) (Week.daily_presences w) = w.
Proof. now destruct w. Qed.

Lemma weekset_ext ws ws' : WeekSet.weeks ws = WeekSet.weeks ws' -> ws = ws'.
Proof. destruct ws, ws'. cbn. now intros ->. Qed.

(** What is recorded after a passage: what was, and the passage. *)
Lemma recorded_add_passage ws t u k d u' :
  recorded (WeekSet.add_passage ws t u) k d u'
  = recorded ws k d u'
    || (pair_eqb (Datetime.isoweek t) k && Datetime.eqb (WeekSet.passage_date t) d
        && User.eqb u u').
Proof.
  unfold recorded. rewrite add_passage_weeks.
  destruct (pair_eqb (Datetime.isoweek t) k) eqn:Ek.
  - apply pair_eqb_eq in Ek. subst k.
    rewrite (get_set_same _ _ pair_eqb pair_eqb_refl).
    unfold week_with, week_for. cbn [Week.daily_presences].
    set (w0 := match Dict.get pair_eqb (WeekSet.weeks ws) (Datetime.isoweek t) with
               | Some week => week
               | None => Week.init (fst (Datetime.isoweek t)) (snd (Datetime.isoweek t))
               end).
    assert (match Dict.get pair_eqb (WeekSet.weeks ws) (Datetime.isoweek t) with
            | Some w =>
                match Dict.get Datetime.eqb (Week.daily_presences w) d with
                | Some users => PySet.mem User.eqb users u'
                | None => false
                end
            | None => false
            end
            = match Dict.get Datetime.eqb (Week.daily_presences w0) d with
              | Some users => PySet.mem User.eqb users u'
              | None => false
              end) as ->.
    { unfold w0. now destruct (Dict.get pair_eqb _ _). }
    destruct (Datetime.eqb (WeekSet.passage_date t) d) eqn:Ed.
    + apply datetime_eqb_eq in Ed. subst d.
      rewrite (get_set_same _ _ Datetime.eqb datetime_eqb_refl).
      rewrite (mem_add _ User.eqb user_eqb_eq). unfold Dict.get_default.
      now destruct (Dict.get Datetime.eqb (Week.daily_presences w0) _).
    + rewrite (get_set_other _ _ Datetime.eqb datetime_eqb_sym datetime_eqb_trans) by exact Ed.
      cbn. now rewrite orb_false_r.
  - rewrite (get_set_other _ _ pair_eqb pair_eqb_sym pair_eqb_trans) by exact Ek.
    cbn. now rewrite orb_false_r.
Qed.

(** A passage that is already recorded changes nothing. *)
Lemma add_passage_recorded ws t u :
  recorded ws (Datetime.isoweek t) (WeekSet.passage_date t) u = true ->
  WeekSet.add_passage ws t u = ws.
Proof.
  unfold recorded. intros H. apply weekset_ext. rewrite add_passage_weeks.
  unfold week_with, week_for.
  destruct (Dict.get pair_eqb (WeekSet.weeks ws) (Datetime.isoweek t)) as [w|] eqn:Ew;
    [|discriminate].
  apply set_get_id. rewrite Ew. f_equal.
  unfold Dict.get_default.
  destruct (Dict.get Datetime.eqb (Week.daily_presences w) (WeekSet.passage_date t))
    as [users|] eqn:Ed; [|discriminate].
  rewrite (add_mem _ User.eqb) by exact H.
  rewrite (set_get_id _ _ Datetime.eqb _ _ _ Ed). symmetry. apply week_eta.
Qed.

Lemma recorded_add_passages ws ps k d u :
  recorded ws k d u = true -> recorded (add_passages ws ps) k d u = true.
Proof.
  revert ws. induction ps as [|[t' u'] ps IH]; intros ws H; cbn; [exact H|].
  apply IH. rewrite recorded_add_passage, H. reflexivity.
Qed.

Lemma add_passage_again ws t u ps t' u' :
  same_day t t' -> User.eqb u u' = true ->
  WeekSet.add_passage (add_passages (WeekSet.add_passage ws t u) ps) t' u'
  = add_passages (WeekSet.add_passage ws t u) ps.
Proof.
  intros Hd Hu. apply user_eqb_eq in Hu. subst u'.
  apply add_passage_recorded, recorded_add_passages.
  rewrite recorded_add_passage.
  rewrite <- (same_day_isoweek _ _ Hd), <- (same_day_passage_date _ _ Hd).
  rewrite pair_eqb_refl, datetime_eqb_refl.
  assert (User.eqb u u = true) as -> by now apply user_eqb_eq.
  now rewrite orb_true_r.
Qed.

Lemma same_day_refl t : same_day t t.
Proof. repeat split. Qed.

Lemma user_eqb_refl u : User.eqb u u = true.
Proof. now apply user_eqb_eq. Qed.

(** C4: adding a passage twice in succession gives the state that adding
    it once gives; a second passage of the same user (equal name and group)
    on the same calendar day, right after the first or after any other
    passages, leaves the whole week set, hence every set of users of a day,
    as it was. *)
Theorem add_passage_idempotent :
  forall (ws : WeekSet.t) (t : Datetime.t) (u : User.t),
    WeekSet.add_passage (WeekSet.add_passage ws t u) t u = WeekSet.add_passage ws t u
    /\ (forall t' u', same_day t t' -> User.eqb u u' = true ->
          WeekSet.add_passage (WeekSet.add_passage ws t u) t' u'
          = WeekSet.add_passage ws t u)
    /\ (forall ps t' u', same_day t t' -> User.eqb u u' = true ->
          WeekSet.add_passage (add_passages (WeekSet.add_passage ws t u) ps) t' u'
          = add_passages (WeekSet.add_passage ws t u) ps).
Proof.
  intros ws t u. split; [|split].
  - apply (add_passage_again ws t u [] t u (same_day_refl t) (user_eqb_refl u)).
  - intros t' u' Hd Hu. apply (add_passage_again ws t u [] t' u' Hd Hu).
  - intros ps t' u' Hd Hu. apply (add_passage_again ws t u ps t' u' Hd Hu).
Qed.

(** ** Invariants of the week set *)

Lemma add_passage_In ws t u k w :
  In (k, w) (WeekSet.weeks (WeekSet.add_passage ws t u)) ->
  (k = Datetime.isoweek t /\ w = week_with (week_for ws t) t u)
  \/ In (k, w) (WeekSet.weeks ws).
Proof.
  rewrite add_passage_weeks. intros H.
  apply (In_set_item _ _ pair_eqb pair_eqb_eq) in H. tauto.
Qed.

Lemma week_for_cases ws t :
  In (Datetime.isoweek t, week_for ws t) (WeekSet.weeks ws)
  \/ (Dict.get pair_eqb (WeekSet.weeks ws) (Datetime.isoweek t) = None
      /\ week_for ws t
         = Week.init (fst (Datetime.isoweek t)) (snd (Datetime.isoweek t))).
Proof.
  unfold week_for.
  destruct (Dict.get pair_eqb (WeekSet.weeks ws) (Datetime.isoweek t)) as [w|] eqn:E.
  - left. now apply (get_In _ _ pair_eqb pair_eqb_eq).
  - right. auto.
Qed.

Lemma week_with_identifier w t u :
  Week.identifier (week_with w t u) = Week.identifier w.
Proof. reflexivity. Qed.

Lemma week_init_identifier k : Week.identifier (Week.init (fst k) (snd k)) = k.
Proof. now destruct k. Qed.

Lemma days_in_iso_week_init : days_in_iso_week WeekSet.init.
Proof. intros k w []. Qed.

Lemma days_in_iso_week_add ws t u :
  days_in_iso_week ws -> days_in_iso_week (WeekSet.add_passage ws t u).
Proof.
  intros Hinv k w Hin.
  destruct (add_passage_In _ _ _ _ _ Hin) as [[-> ->] | Hold]; [|now apply Hinv].
  rewrite week_with_identifier.
  assert (Week.identifier (week_for ws t) = Datetime.isoweek t
          /\ forall d, In d (Dict.keys (Week.daily_presences (week_for ws t))) ->
               Datetime.isoweek d = Datetime.isoweek t) as [Hid Hdays].
  { destruct (week_for_cases ws t) as [Hin' | [_ ->]].
    - destruct (Hinv _ _ Hin') as [Hid Hdays]. split; [exact Hid|].
      intros d Hd. rewrite (Hdays d Hd). exact Hid.
    - split; [apply week_init_identifier | intros d []]. }
  split; [exact Hid|]. intros d Hd. rewrite Hid.
  unfold week_with in Hd. cbn [Week.daily_presences] in Hd.
  apply (In_keys_set_item _ _ Datetime.eqb datetime_eqb_eq) in Hd as [-> | Hd].
  - apply passage_date_isoweek.
  - now apply Hdays.
Qed.

Lemma days_in_iso_week_add_passages ws ps :
  days_in_iso_week ws -> days_in_iso_week (add_passages ws ps).
Proof.
  revert ws. induction ps as [|[t u] ps IH]; intros ws H; cbn; [exact H|].
  apply IH, days_in_iso_week_add, H.
Qed.

(** C8: in the empty week set, and after every [add_passage] on a week set
    where it holds, every stored week is stored under its own identity and
    the ISO (year, week) of each of its day keys is the week's (year,
    number); so it holds after any passages added to the empty set. *)
Theorem days_in_iso_week_invariant :
  days_in_iso_week WeekSet.init
  /\ (forall ws t u, days_in_iso_week ws -> days_in_iso_week (WeekSet.add_passage ws t u))
  /\ (forall ps k w d,
        In (k, w) (WeekSet.weeks (add_passages WeekSet.init ps)) ->
        In d (Dict.keys (Week.daily_presences w)) ->
        Datetime.isoweek d = (Week.year w, Week.number w)).
Proof.
  split; [exact days_in_iso_week_init|].
  split; [exact days_in_iso_week_add|].
  intros ps k w d Hw Hd.
  destruct (days_in_iso_week_add_passages _ ps days_in_iso_week_init k w Hw) as [_ H].
  exact (H d Hd).
Qed.

Lemma has_days_label w : has_days w -> label_defined w.
Proof.
  unfold has_days, label_defined, Week.str.
  destruct (Week.daily_presences w) as [|[d users] r]; [congruence|]. intros _.
  cbn [Dict.keys map fst py_min py_max].
  split; [eauto|]. split; [eauto|].
  destruct (Z.of_nat _ =? 1); [eauto|].
  cbn [bind]. destruct (Week.pieces _ _) as [[c f] to]. eauto.
Qed.

Lemma has_days_add ws t u :
  Forall has_days (Dict.values (WeekSet.weeks ws)) ->
  Forall has_days (Dict.values (WeekSet.weeks (WeekSet.add_passage ws t u))).
Proof.
  rewrite !Forall_forall. intros H w Hw.
  apply in_map_iff in Hw as ([k w'] & <- & Hin). cbn [snd].
  destruct (add_passage_In _ _ _ _ _ Hin) as [[_ ->] | Hold].
  - apply set_item_not_nil.
  - apply H. change w' with (snd (k, w')). now apply in_map.
Qed.

Lemma has_days_add_passages ws ps :
  Forall has_days (Dict.values (WeekSet.weeks ws)) ->
  Forall has_days (Dict.values (WeekSet.weeks (add_passages ws ps))).
Proof.
  revert ws. induction ps as [|[t u] ps IH]; intros ws H; cbn; [exact H|].
  apply IH, has_days_add, H.
Qed.

(** ** Sorting *)

Section SortFacts.
Variables (A : Type) (ltb : A -> A -> bool).

Lemma insert_perm x l : Permutation (insert ltb x l) (x :: l).
Proof.
  induction l as [|y r IH]; cbn; [reflexivity|].
  destruct (ltb y x); [|reflexivity].
  rewrite IH. apply perm_swap.
Qed.

Lemma sorted_perm l : Permutation (sorted ltb l) l.
Proof.
  unfold sorted. induction l as [|x r IH]; cbn; [reflexivity|].
  rewrite insert_perm. now constructor.
Qed.

Lemma sorted_In l x : In x (sorted ltb l) <-> In x l.
Proof.
  split; apply Permutation_in; [|symmetry]; apply sorted_perm.
Qed.

Hypothesis ltb_asym : forall x y, ltb x y = true -> ltb y x = false.
Hypothesis leb_trans :
  forall x y z, ltb y x = false -> ltb z y = false -> ltb z x = false.

Lemma insert_sorted x l : StronglySorted (not_after ltb) l -> StronglySorted (not_after ltb) (insert ltb x l).
Proof.
  induction 1 as [|y r Hr IH Hy]; cbn; [repeat constructor|].
  destruct (ltb y x) eqn:E.
  - constructor; [exact IH|].
    apply Forall_forall. intros z Hz.
    apply (Permutation_in _ (insert_perm x r)) in Hz. destruct Hz as [<- | Hz].
    + unfold not_after. now apply ltb_asym.
    + now apply (proj1 (Forall_forall _ _) Hy).
  - constructor; [now constructor|].
    constructor; [exact E|].
    apply Forall_forall. intros z Hz. unfold not_after.
    apply (leb_trans x y z); [exact E|].
    now apply (proj1 (Forall_forall _ _) Hy).
Qed.

Lemma sorted_sorted l : StronglySorted (not_after ltb) (sorted ltb l).
Proof.
  unfold sorted. induction l as [|x r IH]; cbn; [constructor|].
  now apply insert_sorted.
Qed.

(** With elements of pairwise different keys, the order is strict. *)
Lemma sorted_strict (B : Type) (key : A -> B) l :
  (forall a b, ltb a b = false -> ltb b a = false -> key a = key b) ->
  NoDup (map key l) ->
  StronglySorted (fun a b => ltb a b = true) (sorted ltb l).
Proof.
  intros Htotal Hnd.
  assert (NoDup (map key (sorted ltb l))) as Hnd'.
  { eapply Permutation_NoDup; [|exact Hnd].
    apply Permutation_map. symmetry. apply sorted_perm. }
  pose proof (sorted_sorted l) as Hs. revert Hnd'.
  induction Hs as [|x r Hr IH Hx]; intros Hnd'; [constructor|].
  cbn in Hnd'. inversion Hnd' as [|? ? Hnotin Hnd'']; subst.
  constructor; [now apply IH|].
  apply Forall_forall. intros z Hz.
  destruct (ltb x z) eqn:E; [reflexivity|]. exfalso. apply Hnotin.
  rewrite (Htotal x z E (proj1 (Forall_forall _ _) Hx z Hz)).
  now apply in_map.
Qed.
End SortFacts.

Lemma strongly_sorted_impl (A : Type) (R S : A -> A -> Prop) (l : list A) :
  (forall a b, R a b -> S a b) -> StronglySorted R l -> StronglySorted S l.
Proof.
  intros H. induction 1 as [|x r Hr IH Hx]; constructor; [exact IH|].
  eapply Forall_impl; [|exact Hx]. intros a. apply H.
Qed.

(** Two lists in strictly ascending order with the same elements are equal. *)
Lemma strictly_sorted_unique (A : Type) (lt : A -> A -> Prop) (l1 l2 : list A) :
  (forall x, ~ lt x x) -> (forall x y z, lt x y -> lt y z -> lt x z) ->
  StronglySorted lt l1 -> StronglySorted lt l2 ->
  (forall x, In x l1 <-> In x l2) -> l1 = l2.
Proof.
  intros Hirr Htr H1. revert l2.
  induction H1 as [|a r1 Hr1 IH Ha]; intros l2 H2 Hsame.
  - destruct l2 as [|b r2]; [reflexivity|]. exfalso. apply (Hsame b). now left.
  - destruct H2 as [|b r2 Hr2 Hb].
    + exfalso. apply (Hsame a). now left.
    + rewrite Forall_forall in Ha, Hb.
      assert (a = b) as <-.
      { destruct (proj1 (Hsame a) (or_introl eq_refl)) as [Hab | Hab]; [now symmetry|].
        destruct (proj2 (Hsame b) (or_introl eq_refl)) as [Hba | Hba]; [exact Hba|].
        exfalso. apply (Hirr a). apply (Htr a b a); [now apply Ha | now apply Hb]. }
      f_equal. apply IH; [exact Hr2|].
      intros x. split; intros Hx.
      * destruct (proj1 (Hsame x) (or_intror Hx)) as [<- | Hx']; [|exact Hx'].
        exfalso. apply (Hirr a). now apply Ha.
      * destruct (proj2 (Hsame x) (or_intror Hx)) as [<- | Hx']; [|exact Hx'].
        exfalso. apply (Hirr a). now apply Hb.
Qed.

(** ** Orders *)

Lemma tuple_ltb_irrefl a : tuple_ltb a a = false.
Proof. induction a as [|x a IH]; cbn; [reflexivity|]. now rewrite Z.eqb_refl. Qed.

Lemma tuple_ltb_trans a b c :
  tuple_ltb a b = true -> tuple_ltb b c = true -> tuple_ltb a c = true.
Proof.
  revert b c. induction a as [|x a IH]; intros [|y b] [|z c]; cbn; try congruence.
  destruct (x =? y) eqn:Exy, (y =? z) eqn:Eyz, (x =? z) eqn:Exz;
    rewrite ?Z.eqb_eq, ?Z.eqb_neq, ?Z.ltb_lt in *;
    try lia; try (intros; lia); apply IH.
Qed.

Lemma tuple_ltb_total a b : tuple_ltb a b = false -> tuple_ltb b a = false -> a = b.
Proof.
  revert b. induction a as [|x a IH]; intros [|y b]; cbn; try congruence.
  destruct (x =? y) eqn:Exy, (y =? x) eqn:Eyx;
    rewrite ?Z.eqb_eq, ?Z.eqb_neq, ?Z.ltb_ge in *;
    try lia; try (intros; lia).
  subst y. intros H1 H2. f_equal. now apply IH.
Qed.

Lemma tuple_ltb_asym a b : tuple_ltb a b = true -> tuple_ltb b a = false.
Proof.
  intros H. destruct (tuple_ltb b a) eqn:E; [|reflexivity].
  pose proof (tuple_ltb_trans _ _ _ H E) as H'. now rewrite tuple_ltb_irrefl in H'.
Qed.

Lemma tuple_leb_trans x y z :
  tuple_ltb y x = false -> tuple_ltb z y = false -> tuple_ltb z x = false.
Proof.
  intros H1 H2. destruct (tuple_ltb z x) eqn:E; [|reflexivity].
  destruct (tuple_ltb x y) eqn:Exy.
  - pose proof (tuple_ltb_trans _ _ _ E Exy). congruence.
  - rewrite (tuple_ltb_total _ _ Exy H1) in E. congruence.
Qed.

(** C10: after any passages added to the empty week set, every stored week
    has a day, so its earliest and latest days exist and its label is
    defined; [add_passage] keeps that, the week it creates getting the day
    of the passage. *)
Theorem weeks_have_days :
  (forall ws t u,
     Forall has_days (Dict.values (WeekSet.weeks ws)) ->
     Forall has_days (Dict.values (WeekSet.weeks (WeekSet.add_passage ws t u))))
  /\ (forall ps,
        Forall (fun w => has_days w /\ label_defined w)
          (Dict.values (WeekSet.weeks (add_passages WeekSet.init ps))))
  /\ (forall ps,
        Forall (fun w => exists label, Week.str w = Ok label)
          (WeekSet.iter (add_passages WeekSet.init ps))).
Proof.
  assert (forall ps,
            Forall (fun w => has_days w /\ label_defined w)
              (Dict.values (WeekSet.weeks (add_passages WeekSet.init ps)))) as H.
  { intros ps. eapply Forall_impl; [|apply (has_days_add_passages WeekSet.init ps); constructor].
    intros w Hw. split; [exact Hw | now apply has_days_label]. }
  split; [exact has_days_add|]. split; [exact H|].
  intros ps. apply Forall_forall. intros w Hw.
  apply sorted_In in Hw.
  apply (proj1 (Forall_forall _ _) (H ps) w Hw).
Qed.

(** ** The ISO week of a passage *)

Lemma add_passage_files ws t u :
  recorded (WeekSet.add_passage ws t u) (Datetime.isoweek t) (WeekSet.passage_date t) u
  = true.
Proof.
  rewrite recorded_add_passage, pair_eqb_refl, datetime_eqb_refl, user_eqb_refl.
  apply orb_true_r.
Qed.

Lemma add_passage_elsewhere ws t u k d u' :
  k <> Datetime.isoweek t ->
  recorded (WeekSet.add_passage ws t u) k d u' = recorded ws k d u'.
Proof.
  intros H. rewrite recorded_add_passage.
  assert (pair_eqb (Datetime.isoweek t) k = false) as ->.
  { apply (key_eqb_neq _ pair_eqb pair_eqb_eq). congruence. }
  apply orb_false_r.
Qed.

Lemma add_passage_week_identity ps t u :
  exists w,
    Dict.get pair_eqb
      (WeekSet.weeks (WeekSet.add_passage (add_passages WeekSet.init ps) t u))
      (Datetime.isoweek t) = Some w
    /\ (Week.year w, Week.number w) = Datetime.isoweek t.
Proof.
  pose proof (days_in_iso_week_add _ t u
                (days_in_iso_week_add_passages _ ps days_in_iso_week_init)) as Hinv.
  rewrite add_passage_weeks.
  rewrite (get_set_same _ _ pair_eqb pair_eqb_refl).
  eexists. split; [reflexivity|].
  apply (Hinv (Datetime.isoweek t)).
  apply (get_In _ _ pair_eqb pair_eqb_eq). rewrite add_passage_weeks.
  apply (get_set_same _ _ pair_eqb pair_eqb_refl).
Qed.

Lemma new_year_2023 t :
  Datetime.year t = 2023 -> Datetime.month t = 1 -> Datetime.day t = 1 ->
  Datetime.isoweek t = (2022, 52) /\ Datetime.weekday t = 6.
Proof.
  intros Hy Hm Hd.
  unfold Datetime.isoweek, Datetime.isocalendar, Datetime.weekday, Datetime.toordinal.
  rewrite Hy, Hm, Hd. split; reflexivity.
Qed.

(** C3: a passage is recorded in the week stored under the ISO (year, week)
    of its timestamp, on its calendar day, and in no other week; the week
    stored there has that identity; for a valid date the pair is the week
    of ISO 8601 (weeks from Monday, week 1 holding the first Thursday of
    the year) and no other pair is; any timestamp of 2023-01-01, a Sunday,
    goes to week 52 of 2022. *)
Theorem add_passage_iso_week :
  (forall ws t u,
     recorded (WeekSet.add_passage ws t u)
       (Datetime.isoweek t) (WeekSet.passage_date t) u = true)
  /\ (forall ws t u k d u',
        k <> Datetime.isoweek t ->
        recorded (WeekSet.add_passage ws t u) k d u' = recorded ws k d u')
  /\ (forall ps t u, exists w,
        Dict.get pair_eqb
          (WeekSet.weeks (WeekSet.add_passage (add_passages WeekSet.init ps) t u))
          (Datetime.isoweek t) = Some w
        /\ (Week.year w, Week.number w) = Datetime.isoweek t)
  /\ (forall t, Datetime.valid t ->
        iso8601_week (Datetime.toordinal t)
          (fst (Datetime.isoweek t)) (snd (Datetime.isoweek t))
        /\ 1 <= snd (Datetime.isoweek t) <= 53
        /\ forall Y W, iso8601_week (Datetime.toordinal t) Y W ->
             Datetime.isoweek t = (Y, W))
  /\ (forall t,
        Datetime.year t = 2023 -> Datetime.month t = 1 -> Datetime.day t = 1 ->
        Datetime.isoweek t = (2022, 52) /\ Datetime.weekday t = 6).
Proof.
  split; [exact add_passage_files|].
  split; [exact add_passage_elsewhere|].
  split; [exact add_passage_week_identity|].
  split; [|exact new_year_2023].
  intros t Hv. pose proof (isoweek_iso8601 t Hv) as Hiso.
  split; [exact Hiso|]. split; [apply (isoweek_range t Hv)|].
  intros Y W H.
  destruct (iso8601_week_unique _ _ _ _ _ Hiso H) as [<- <-].
  now destruct (Datetime.isoweek t).
Qed.

(** ** The label of a week *)

Section MinMax.
Variables (A : Type) (ltb : A -> A -> bool).

Lemma fold_pick_In (pick : A -> A -> bool) l x :
  In (fold_left (fun cur y => if pick cur y then y else cur) l x) (x :: l).
Proof.
  revert x. induction l as [|y r IH]; intros x; cbn; [now left|].
  destruct (IH (if pick x y then y else x)) as [H | H].
  - destruct (pick x y); [right; left | left]; congruence.
  - right. now right.
Qed.

Lemma py_min_In l m : py_min ltb l = Ok m -> In m l.
Proof.
  destruct l as [|x r]; [discriminate|]. intros [= <-].
  apply (fold_pick_In (fun cur y => ltb y cur)).
Qed.

Lemma py_max_In l m : py_max ltb l = Ok m -> In m l.
Proof.
  destruct l as [|x r]; [discriminate|]. intros [= <-].
  apply (fold_pick_In (fun cur y => ltb cur y)).
Qed.
End MinMax.

Lemma pieces_of_one_week a b :
  (Datetime.year a <> Datetime.year b -> Datetime.month a <> Datetime.month b) ->
  (Datetime.month a <> Datetime.month b -> Datetime.day a <> Datetime.day b) ->
  Week.pieces a b = pieces_spec a b.
Proof.
  intros Hym Hmd. unfold Week.pieces, pieces_spec, Week.pieces_step.
  cbn [fold_left pieces_after Datetime.getattr].
  destruct (Datetime.year a =? Datetime.year b) eqn:Ey; cbn [orb negb app];
    destruct (Datetime.month a =? Datetime.month b) eqn:Em; cbn [orb negb app];
    destruct (Datetime.day a =? Datetime.day b) eqn:Ed; cbn [orb negb app];
    try reflexivity; exfalso;
    rewrite ?Z.eqb_eq, ?Z.eqb_neq in *; tauto.
Qed.

Lemma label_of_one_iso_week (w : Week.t) :
  (forall d, In d (Dict.keys (Week.daily_presences w)) ->
     Datetime.valid d /\ Datetime.isoweek d = Week.identifier w) ->
  label_as_specified w.
Proof.
  intros Hdays Hlen.
  destruct (Week.daily_presences w) as [|[d0 u0] r] eqn:E; [cbn in Hlen; lia|].
  cbn [Dict.keys map fst py_min py_max] in *.
  eexists. eexists. split; [reflexivity|]. split; [reflexivity|].
  set (mn := fold_left _ _ _). set (mx := fold_left _ _ _).
  assert (In mn (d0 :: map fst r)) as Hmn
    by apply (fold_pick_In _ (fun cur y => Datetime.ltb y cur)).
  assert (In mx (d0 :: map fst r)) as Hmx
    by apply (fold_pick_In _ (fun cur y => Datetime.ltb cur y)).
  destruct (Hdays _ Hmn) as [Vmn Imn]. destruct (Hdays _ Hmx) as [Vmx Imx].
  destruct (same_week_fields mn mx Vmn Vmx) as [H1 H2]; [congruence|].
  now apply pieces_of_one_week.
Qed.

Lemma passage_date_valid t : Datetime.valid t -> Datetime.valid (WeekSet.passage_date t).
Proof.
  unfold Datetime.valid, WeekSet.passage_date. cbn. intros (Hy & Hm & Hd & _).
  repeat split; try lia; apply Hd.
Qed.

Lemma days_valid_add ws t u :
  Datetime.valid t ->
  (forall k w d, In (k, w) (WeekSet.weeks ws) ->
     In d (Dict.keys (Week.daily_presences w)) -> Datetime.valid d) ->
  forall k w d, In (k, w) (WeekSet.weeks (WeekSet.add_passage ws t u)) ->
    In d (Dict.keys (Week.daily_presences w)) -> Datetime.valid d.
Proof.
  intros Hv Hinv k w d Hin Hd.
  destruct (add_passage_In _ _ _ _ _ Hin) as [[-> ->] | Hold]; [|now apply (Hinv k w d)].
  unfold week_with in Hd. cbn [Week.daily_presences] in Hd.
  apply (In_keys_set_item _ _ Datetime.eqb datetime_eqb_eq) in Hd as [-> | Hd].
  - now apply passage_date_valid.
  - destruct (week_for_cases ws t) as [Hin' | [_ E]].
    + now apply (Hinv _ _ d Hin').
    + rewrite E in Hd. destruct Hd.
Qed.

Lemma days_valid_add_passages ps :
  Forall (fun p => Datetime.valid (fst p)) ps ->
  forall ws,
    (forall k w d, In (k, w) (WeekSet.weeks ws) ->
       In d (Dict.keys (Week.daily_presences w)) -> Datetime.valid d) ->
    forall k w d, In (k, w) (WeekSet.weeks (add_passages ws ps)) ->
      In d (Dict.keys (Week.daily_presences w)) -> Datetime.valid d.
Proof.
  induction 1 as [|[t u] ps Hv Hps IH]; intros ws Hinv; cbn; [exact Hinv|].
  apply IH. now apply days_valid_add.
Qed.

(** ** Well-formed week sets *)

Lemma weekset_wf_init : weekset_wf WeekSet.init.
Proof. split; [constructor | intros k w []]. Qed.

Lemma week_for_wf ws t :
  weekset_wf ws ->
  Week.identifier (week_for ws t) = Datetime.isoweek t
  /\ NoDup (Dict.keys (Week.daily_presences (week_for ws t)))
  /\ forall d users, In (d, users) (Week.daily_presences (week_for ws t)) ->
       users <> [] /\ NoDup users
       /\ Datetime.isoweek d = Datetime.isoweek t /\ WeekSet.passage_date d = d.
Proof.
  intros [_ Hwf]. destruct (week_for_cases ws t) as [Hin | [_ ->]].
  - destruct (Hwf _ _ Hin) as (Hid & _ & Hnd & Hdays). auto.
  - split; [apply week_init_identifier|]. split; [constructor | intros d users []].
Qed.

Lemma week_with_wf w t u :
  Week.identifier w = Datetime.isoweek t ->
  NoDup (Dict.keys (Week.daily_presences w)) ->
  (forall d users, In (d, users) (Week.daily_presences w) ->
     users <> [] /\ NoDup users
     /\ Datetime.isoweek d = Datetime.isoweek t /\ WeekSet.passage_date d = d) ->
  week_wf (Datetime.isoweek t) (week_with w t u).
Proof.
  intros Hid Hnd Hdays. unfold week_wf, week_with. cbn [Week.daily_presences].
  split; [exact Hid|]. split; [apply set_item_not_nil|].
  split; [now apply (NoDup_keys_set_item _ _ Datetime.eqb datetime_eqb_eq)|].
  intros d users Hin.
  apply (In_set_item_wf _ _ Datetime.eqb datetime_eqb_eq) in Hin; [|exact Hnd].
  destruct Hin as [[-> ->] | [_ Hin]]; [|now apply Hdays].
  split; [apply add_not_nil|].
  split; [|split; [apply passage_date_isoweek | apply passage_date_idem]].
  apply (NoDup_add _ User.eqb user_eqb_eq). unfold Dict.get_default.
  destruct (Dict.get Datetime.eqb (Week.daily_presences w) (WeekSet.passage_date t))
    as [users|] eqn:E; [|constructor].
  apply (get_In _ _ Datetime.eqb datetime_eqb_eq) in E. now apply (Hdays _ _ E).
Qed.

Lemma weekset_wf_add ws t u : weekset_wf ws -> weekset_wf (WeekSet.add_passage ws t u).
Proof.
  intros Hwf. pose proof (week_for_wf ws t Hwf) as (Hid & Hnd & Hdays).
  destruct Hwf as [Hkeys Hwf]. unfold weekset_wf. rewrite add_passage_weeks.
  split; [now apply (NoDup_keys_set_item _ _ pair_eqb pair_eqb_eq)|].
  intros k w Hin.
  apply (In_set_item_wf _ _ pair_eqb pair_eqb_eq) in Hin; [|exact Hkeys].
  destruct Hin as [[-> ->] | [_ Hin]]; [|now apply Hwf].
  now apply week_with_wf.
Qed.

Lemma weekset_wf_add_passages ws ps : weekset_wf ws -> weekset_wf (add_passages ws ps).
Proof.
  revert ws. induction ps as [|[t u] ps IH]; intros ws H; cbn; [exact H|].
  apply IH, weekset_wf_add, H.
Qed.

Lemma wf_values_identifiers ws :
  weekset_wf ws ->
  map Week.identifier (Dict.values (WeekSet.weeks ws)) = Dict.keys (WeekSet.weeks ws).
Proof.
  intros [_ Hwf]. unfold Dict.values, Dict.keys. rewrite map_map.
  apply map_ext_in. intros [k w] Hin. cbn. now apply (Hwf k w Hin).
Qed.

Lemma wf_In_value ws w :
  weekset_wf ws -> In w (Dict.values (WeekSet.weeks ws)) ->
  In (Week.identifier w, w) (WeekSet.weeks ws) /\ week_wf (Week.identifier w) w.
Proof.
  intros [_ Hwf] Hin. apply in_map_iff in Hin as ([k w'] & <- & Hin). cbn [snd].
  pose proof (Hwf k w' Hin) as H. destruct H as [Hid H].
  rewrite Hid. split; [exact Hin | now split].
Qed.

(** ** Counting *)

Lemma week_eqb_refl w : Week.eqb w w = true.
Proof. now apply week_eqb_eq. Qed.

Lemma week_eqb_sym a b : Week.eqb a b = Week.eqb b a.
Proof.
  destruct (Week.eqb a b) eqn:E1, (Week.eqb b a) eqn:E2; try reflexivity.
  - apply week_eqb_eq in E1. symmetry in E1. apply week_eqb_eq in E1. congruence.
  - apply week_eqb_eq in E2. symmetry in E2. apply week_eqb_eq in E2. congruence.
Qed.

Lemma week_eqb_trans a b c :
  Week.eqb a b = true -> Week.eqb b c = true -> Week.eqb a c = true.
Proof. rewrite !week_eqb_eq. congruence. Qed.

Lemma user_eqb_sym a b : User.eqb a b = User.eqb b a.
Proof. apply (key_eqb_sym _ User.eqb user_eqb_eq). Qed.

Lemma user_eqb_trans a b c :
  User.eqb a b = true -> User.eqb b c = true -> User.eqb a c = true.
Proof. apply (key_eqb_trans _ User.eqb user_eqb_eq). Qed.

(** One increment: the count of the user and week goes up by one, stored
    from then on; nothing else changes. *)
Lemma stored_count_presence week c user u w :
  stored_count (count_presence week c user) u w
  = if User.eqb user u && Week.eqb week w then Some (tally c u w + 1)
    else stored_count c u w.
Proof.
  unfold tally, stored_count, count_presence.
  destruct (User.eqb user u) eqn:Eu; cbn [andb].
  - apply user_eqb_eq in Eu. subst u.
    rewrite (get_set_same _ _ User.eqb user_eqb_refl).
    unfold Dict.get_default.
    destruct (Week.eqb week w) eqn:Ew.
    + rewrite <- (get_compat _ _ Week.eqb week_eqb_sym week_eqb_trans _ week w Ew).
      rewrite (get_set_same _ _ Week.eqb week_eqb_refl). cbn.
      destruct (Dict.get User.eqb c user) as [w2c|]; cbn.
      * rewrite <- (get_compat _ _ Week.eqb week_eqb_sym week_eqb_trans _ week w Ew).
        now destruct (Dict.get Week.eqb w2c week).
      * reflexivity.
    + rewrite (get_set_other _ _ Week.eqb week_eqb_sym week_eqb_trans) by exact Ew.
      now destruct (Dict.get User.eqb c user).
  - now rewrite (get_set_other _ _ User.eqb user_eqb_sym user_eqb_trans) by exact Eu.
Qed.

Lemma tally_presence week c user u w :
  tally (count_presence week c user) u w
  = tally c u w + if User.eqb user u && Week.eqb week w then 1 else 0.
Proof.
  unfold tally at 1. rewrite stored_count_presence.
  destruct (User.eqb user u && Week.eqb week w); [reflexivity|].
  unfold tally. lia.
Qed.

Lemma positive_tally c u w :
  positive c ->
  0 <= tally c u w
  /\ stored_count c u w = if tally c u w =? 0 then None else Some (tally c u w).
Proof.
  intros H. unfold tally. destruct (stored_count c u w) as [n|] eqn:E.
  - pose proof (H _ _ _ E). destruct (n =? 0) eqn:En; [lia|]. split; [lia | reflexivity].
  - split; [lia | reflexivity].
Qed.

Lemma positive_presence week c user : positive c -> positive (count_presence week c user).
Proof.
  intros H u w n. rewrite stored_count_presence.
  destruct (User.eqb user u && Week.eqb week w); [|apply H].
  intros [= <-]. pose proof (positive_tally c u w H). lia.
Qed.

Lemma occurrences_cons u x users :
  occurrences u (x :: users) = (if User.eqb x u then 1 else 0) + occurrences u users.
Proof.
  unfold occurrences. cbn [filter]. destruct (User.eqb x u); cbn [List.length]; lia.
Qed.

Lemma count_users week users c :
  positive c ->
  positive (fold_left (count_presence week) users c)
  /\ forall u w,
       tally (fold_left (count_presence week) users c) u w
       = tally c u w + if Week.eqb week w then occurrences u users else 0.
Proof.
  revert c. induction users as [|x users IH]; intros c Hc; cbn [fold_left].
  - split; [exact Hc|]. intros u w. unfold occurrences. cbn. destruct (Week.eqb week w); lia.
  - destruct (IH _ (positive_presence week c x Hc)) as [Hp Ht]. split; [exact Hp|].
    intros u w. rewrite Ht, tally_presence, occurrences_cons.
    destruct (User.eqb x u), (Week.eqb week w); cbn [andb]; lia.
Qed.

Lemma count_days week days c :
  positive c ->
  positive (fold_left (fun acc users => fold_left (count_presence week) users acc) days c)
  /\ forall u w,
       tally (fold_left (fun acc users => fold_left (count_presence week) users acc) days c) u w
       = tally c u w + if Week.eqb week w then Zsum (map (occurrences u) days) else 0.
Proof.
  revert c. induction days as [|users days IH]; intros c Hc; cbn [fold_left map Zsum].
  - split; [exact Hc|]. intros u w. destruct (Week.eqb week w); lia.
  - destruct (count_users week users c Hc) as [Hp Ht].
    destruct (IH _ Hp) as [Hp' Ht']. split; [exact Hp'|].
    intros u w. rewrite Ht', Ht. destruct (Week.eqb week w); lia.
Qed.

Lemma count_week_tally c week :
  positive c ->
  positive (count_week c week)
  /\ forall u w,
       tally (count_week c week) u w
       = tally c u w + if Week.eqb week w then presences u week else 0.
Proof. intros Hc. apply (count_days week _ c Hc). Qed.

Lemma count_weeks_tally weeks c :
  positive c ->
  positive (fold_left count_week weeks c)
  /\ forall u w,
       tally (fold_left count_week weeks c) u w
       = tally c u w
         + Zsum (map (fun week => if Week.eqb week w then presences u week else 0) weeks).
Proof.
  revert c. induction weeks as [|week weeks IH]; intros c Hc; cbn [fold_left map Zsum].
  - split; [exact Hc|]. intros u w. lia.
  - destruct (count_week_tally c week Hc) as [Hp Ht].
    destruct (IH _ Hp) as [Hp' Ht']. split; [exact Hp'|].
    intros u w. rewrite Ht', Ht. lia.
Qed.

Lemma positive_nil : positive [].
Proof. intros u w n. discriminate. Qed.

(** A sum in which one week only counts. *)
Lemma Zsum_other (f : Week.t -> Z) w weeks :
  (forall week, In week weeks -> Week.eqb week w = false) ->
  Zsum (map (fun week => if Week.eqb week w then f week else 0) weeks) = 0.
Proof.
  induction weeks as [|x r IH]; intros H; cbn [map Zsum]; [reflexivity|].
  rewrite (H x (or_introl eq_refl)), IH; [reflexivity|].
  intros week Hw. apply H. now right.
Qed.

Lemma Zsum_single (f : Week.t -> Z) w weeks :
  NoDup (map Week.identifier weeks) -> In w weeks ->
  Zsum (map (fun week => if Week.eqb week w then f week else 0) weeks) = f w.
Proof.
  induction weeks as [|x r IH]; intros Hnd Hin; [destruct Hin|].
  cbn [map Zsum] in *. inversion Hnd as [|? ? Hnotin Hnd']; subst.
  destruct Hin as [-> | Hin].
  - rewrite week_eqb_refl, Zsum_other; [lia|].
    intros week Hweek. destruct (Week.eqb week w) eqn:E; [|reflexivity].
    exfalso. apply Hnotin. apply week_eqb_eq in E. rewrite <- E. now apply in_map.
  - rewrite IH by assumption.
    destruct (Week.eqb x w) eqn:E; [|lia].
    exfalso. apply Hnotin. apply week_eqb_eq in E. rewrite E. now apply in_map.
Qed.

(** In a set, a user is met once or not at all. *)
Lemma occurrences_NoDup u users :
  NoDup users -> occurrences u users = if PySet.mem User.eqb users u then 1 else 0.
Proof.
  induction 1 as [|x r Hnotin Hnd IH]; [reflexivity|].
  rewrite occurrences_cons, IH. unfold PySet.mem. cbn [existsb].
  fold (PySet.mem User.eqb r u).
  destruct (User.eqb x u) eqn:E; cbn [orb]; [|lia].
  apply user_eqb_eq in E. subst x.
  destruct (PySet.mem User.eqb r u) eqn:Em; [|lia].
  apply (mem_In _ User.eqb user_eqb_eq) in Em. contradiction.
Qed.

Lemma presences_days_present u w :
  (forall users, In users (Dict.values (Week.daily_presences w)) -> NoDup users) ->
  presences u w = days_present u w.
Proof.
  unfold presences, days_present.
  induction (Dict.values (Week.daily_presences w)) as [|users r IH]; intros H; [reflexivity|].
  cbn [map Zsum filter]. rewrite IH by (intros x Hx; apply H; now right).
  rewrite (occurrences_NoDup u users (H users (or_introl eq_refl))).
  destruct (PySet.mem User.eqb users u); cbn [List.length]; lia.
Qed.

Lemma days_present_bounds u w :
  0 <= days_present u w <= Z.of_nat (List.length (Week.daily_presences w)).
Proof.
  unfold days_present. split; [lia|].
  apply inj_le. etransitivity; [apply filter_length_le|].
  unfold Dict.values. now rewrite length_map.
Qed.

(** The counting loop returns when every week has a label: the headers get
    the names of the weeks, the counts are those of the weeks in turn. *)
Lemma count_loop_ok weeks :
  Forall (fun w => exists label, Week.str w = Ok label) weeks ->
  forall i headers c,
    count_loop headers c (enumerate_from i weeks)
    = Ok (headers ++ week_names i weeks, fold_left count_week weeks c).
Proof.
  induction 1 as [|w weeks [label Hl] Hr IH]; intros i headers c;
    cbn [enumerate_from count_loop fold_left].
  - unfold week_names. cbn. now rewrite app_nil_r.
  - rewrite Hl. cbn [bind]. rewrite IH. unfold week_names.
    cbn [enumerate_from map fst snd]. unfold label_of. rewrite Hl.
    now rewrite <- app_assoc.
Qed.

Lemma labels_defined ps :
  Forall (fun w => exists label, Week.str w = Ok label)
    (WeekSet.iter (add_passages WeekSet.init ps)).
Proof.
  apply Forall_forall. intros w Hw. apply sorted_In in Hw.
  apply has_days_label.
  apply (proj1 (Forall_forall _ _)
           (has_days_add_passages WeekSet.init ps (Forall_nil _)) w Hw).
Qed.

(** The counts of a well-formed week set. *)
Lemma counts_of_wf ws :
  weekset_wf ws ->
  let c := fold_left count_week (WeekSet.iter ws) [] in
  positive c
  /\ (forall u w, In w (Dict.values (WeekSet.weeks ws)) -> tally c u w = days_present u w)
  /\ (forall u w, (forall w0, In w0 (Dict.values (WeekSet.weeks ws)) -> Week.eqb w0 w = false) ->
        tally c u w = 0).
Proof.
  intros Hwf c.
  destruct (count_weeks_tally (WeekSet.iter ws) [] positive_nil) as [Hp Ht].
  fold c in Hp, Ht. split; [exact Hp|]. split.
  - intros u w Hw. rewrite Ht. unfold tally at 1. cbn.
    rewrite Zsum_single.
    + apply presences_days_present. intros users Hin.
      destruct (wf_In_value ws w Hwf Hw) as [_ (_ & _ & _ & Hdays)].
      apply in_map_iff in Hin as ([d us] & <- & Hin). now apply (Hdays d us Hin).
    + eapply Permutation_NoDup.
      * apply Permutation_map. symmetry. apply sorted_perm.
      * rewrite wf_values_identifiers by exact Hwf. apply Hwf.
    + now apply sorted_In.
  - intros u w Hnone. rewrite Ht. unfold tally at 1. cbn.
    apply Zsum_other. intros week Hweek. apply Hnone. now apply sorted_In in Hweek.
Qed.

(** C5: the counting loop of [main] returns on the week set of any
    passages; for a user [u] and a stored week [w], a count is stored
    exactly when [u] is in the set of some day of [w], and it is then the
    number of day keys of [w] whose set holds [u], at least 1 and at most
    the number of day entries of [w]; nothing is stored for other weeks. *)
Theorem counts_are_days_present :
  forall ps,
    let ws := add_passages WeekSet.init ps in
    exists headers c,
      count_loop ["Name"; "Group"] [] (enumerate (WeekSet.iter ws)) = Ok (headers, c)
      /\ (forall u w, In w (Dict.values (WeekSet.weeks ws)) ->
            stored_count c u w
            = (if days_present u w =? 0 then None else Some (days_present u w))
            /\ 0 <= days_present u w <= Z.of_nat (List.length (Week.daily_presences w)))
      /\ (forall u w n, stored_count c u w = Some n ->
            1 <= n
            /\ exists w0, In w0 (Dict.values (WeekSet.weeks ws)) /\ Week.eqb w0 w = true).
Proof.
  intros ps ws.
  pose proof (weekset_wf_add_passages WeekSet.init ps weekset_wf_init) as Hwf.
  fold ws in Hwf.
  destruct (counts_of_wf ws Hwf) as (Hp & Hin & Hout).
  eexists. eexists. split; [apply count_loop_ok, labels_defined|].
  split.
  - intros u w Hw. split; [|apply days_present_bounds].
    rewrite <- (Hin u w Hw). now apply positive_tally.
  - intros u w n Hn. pose proof (Hp u w n Hn). split; [lia|].
    destruct (existsb (fun w0 => Week.eqb w0 w) (Dict.values (WeekSet.weeks ws))) eqn:E.
    + apply existsb_exists in E. exact E.
    + exfalso. assert (tally (fold_left count_week (WeekSet.iter ws) []) u w = 0) as Hz.
      { apply Hout. intros w0 Hw0. destruct (Week.eqb w0 w) eqn:E0; [|reflexivity].
        assert (existsb (fun w0 => Week.eqb w0 w) (Dict.values (WeekSet.weeks ws)) = true);
          [|congruence].
        apply existsb_exists. eauto. }
      unfold tally in Hz. rewrite Hn in Hz. lia.
Qed.

(** ** The order of users and of weeks *)

Lemma ascii_compare_refl c : Ascii.compare c c = Eq.
Proof. unfold Ascii.compare. apply N.compare_refl. Qed.

Lemma ascii_compare_lt_trans a b c :
  Ascii.compare a b = Lt -> Ascii.compare b c = Lt -> Ascii.compare a c = Lt.
Proof. unfold Ascii.compare. rewrite !N.compare_lt_iff. apply N.lt_trans. Qed.

Lemma string_compare_refl s : String.compare s s = Eq.
Proof. induction s as [|c s IH]; cbn; [reflexivity|]. now rewrite ascii_compare_refl. Qed.

Lemma string_compare_lt_trans a b c :
  String.compare a b = Lt -> String.compare b c = Lt -> String.compare a c = Lt.
Proof.
  revert b c. induction a as [|x a IH]; intros [|y b] [|z c]; cbn; try congruence.
  destruct (Ascii.compare x y) eqn:Exy; destruct (Ascii.compare y z) eqn:Eyz;
    try discriminate.
  - apply Ascii.compare_eq_iff in Exy, Eyz. subst. rewrite ascii_compare_refl. apply IH.
  - apply Ascii.compare_eq_iff in Exy. subst. now rewrite Eyz.
  - apply Ascii.compare_eq_iff in Eyz. subst. now rewrite Exy.
  - now rewrite (ascii_compare_lt_trans _ _ _ Exy Eyz).
Qed.

Lemma user_ltb_before a b : User.ltb a b = true <-> user_before a b.
Proof.
  unfold User.ltb, user_before, String.ltb.
  destruct (String.eqb_spec (User.name a) (User.name b)) as [E | E].
  - rewrite E, string_compare_refl, Z.ltb_lt. intuition discriminate.
  - destruct (String.compare (User.name a) (User.name b)); intuition (try discriminate).
Qed.

Lemma user_before_irrefl a : ~ user_before a a.
Proof. unfold user_before. rewrite string_compare_refl. intros [H | [_ H]]; [discriminate | lia]. Qed.

Lemma user_before_trans a b c : user_before a b -> user_before b c -> user_before a c.
Proof.
  unfold user_before. intros [H1 | [E1 H1]] [H2 | [E2 H2]].
  - left. now apply string_compare_lt_trans with (User.name b).
  - left. now rewrite <- E2.
  - left. now rewrite E1.
  - right. split; [congruence | lia].
Qed.

Lemma user_before_total a b : ~ user_before a b -> ~ user_before b a -> a = b.
Proof.
  unfold user_before. intros H1 H2.
  destruct (String.compare (User.name a) (User.name b)) eqn:E.
  - apply String.compare_eq_iff in E.
    destruct a as [na ga], b as [nb gb]. cbn in *. subst nb. f_equal.
    destruct (Z.lt_trichotomy ga gb) as [H | [H | H]]; [|exact H|]; exfalso; auto.
  - exfalso. auto.
  - exfalso. apply H2. left. rewrite String.compare_antisym, E. reflexivity.
Qed.

Lemma user_ltb_irrefl a : User.ltb a a = false.
Proof.
  destruct (User.ltb a a) eqn:E; [|reflexivity].
  apply user_ltb_before in E. now apply user_before_irrefl in E.
Qed.

Lemma user_ltb_trans a b c :
  User.ltb a b = true -> User.ltb b c = true -> User.ltb a c = true.
Proof. rewrite !user_ltb_before. apply user_before_trans. Qed.

Lemma user_ltb_total a b : User.ltb a b = false -> User.ltb b a = false -> a = b.
Proof.
  intros H1 H2. apply user_before_total; rewrite <- user_ltb_before; congruence.
Qed.

Lemma user_ltb_asym a b : User.ltb a b = true -> User.ltb b a = false.
Proof.
  intros H. destruct (User.ltb b a) eqn:E; [|reflexivity].
  pose proof (user_ltb_trans _ _ _ H E) as H'. now rewrite user_ltb_irrefl in H'.
Qed.

Lemma user_leb_trans x y z :
  User.ltb y x = false -> User.ltb z y = false -> User.ltb z x = false.
Proof.
  intros H1 H2. destruct (User.ltb z x) eqn:E; [|reflexivity].
  destruct (User.ltb x y) eqn:Exy.
  - pose proof (user_ltb_trans _ _ _ E Exy). congruence.
  - rewrite (user_ltb_total _ _ Exy H1) in E. congruence.
Qed.

Lemma week_ltb_before a b : Week.ltb a b = true <-> week_before a b.
Proof.
  unfold Week.ltb, week_before. cbn [tuple_ltb].
  destruct (Week.year a =? Week.year b) eqn:Ey.
  - apply Z.eqb_eq in Ey.
    destruct (Week.number a =? Week.number b) eqn:En.
    + apply Z.eqb_eq in En. split; [discriminate | lia].
    + rewrite Z.ltb_lt. lia.
  - apply Z.eqb_neq in Ey. rewrite Z.ltb_lt. lia.
Qed.

Lemma week_ltb_total a b :
  Week.ltb a b = false -> Week.ltb b a = false -> Week.identifier a = Week.identifier b.
Proof.
  unfold Week.ltb, Week.identifier. intros H1 H2.
  pose proof (tuple_ltb_total _ _ H1 H2) as H. now injection H as -> ->.
Qed.

(** The weeks of a well-formed week set come out in strictly ascending
    order, each once. *)
Lemma iter_sorted ws :
  weekset_wf ws ->
  StronglySorted (fun a b => Week.ltb a b = true) (WeekSet.iter ws)
  /\ Permutation (WeekSet.iter ws) (Dict.values (WeekSet.weeks ws)).
Proof.
  intros Hwf. split; [|apply sorted_perm].
  apply (sorted_strict _ Week.ltb) with (key := Week.identifier).
  - intros x y. apply tuple_ltb_asym.
  - intros x y z. apply tuple_leb_trans.
  - exact week_ltb_total.
  - rewrite wf_values_identifiers by exact Hwf. apply Hwf.
Qed.

(** ** The lines of the report *)

Lemma keys_count_presence week c user :
  (forall u, In u (Dict.keys (count_presence week c user)) <-> u = user \/ In u (Dict.keys c))
  /\ (NoDup (Dict.keys c) -> NoDup (Dict.keys (count_presence week c user))).
Proof.
  unfold count_presence. split.
  - intros u. apply (In_keys_set_item _ _ User.eqb user_eqb_eq).
  - apply (NoDup_keys_set_item _ _ User.eqb user_eqb_eq).
Qed.

Lemma keys_count_users week users c :
  (forall u, In u (Dict.keys (fold_left (count_presence week) users c))
             <-> In u (Dict.keys c) \/ In u users)
  /\ (NoDup (Dict.keys c) -> NoDup (Dict.keys (fold_left (count_presence week) users c))).
Proof.
  revert c. induction users as [|x users IH]; intros c; cbn [fold_left].
  - split; [intros u; cbn; tauto | auto].
  - destruct (IH (count_presence week c x)) as [Hin Hnd].
    destruct (keys_count_presence week c x) as [Hin' Hnd']. split.
    + intros u. rewrite Hin, Hin'. cbn. intuition auto.
    + auto.
Qed.

Lemma keys_count_days week days c :
  (forall u,
     In u (Dict.keys (fold_left (fun acc users => fold_left (count_presence week) users acc)
                        days c))
     <-> In u (Dict.keys c) \/ exists users, In users days /\ In u users)
  /\ (NoDup (Dict.keys c) ->
      NoDup (Dict.keys (fold_left (fun acc users => fold_left (count_presence week) users acc)
                          days c))).
Proof.
  revert c. induction days as [|users days IH]; intros c; cbn [fold_left].
  - split; [|auto]. intros u. split; [auto | intros [H | (x & [] & _)]; exact H].
  - destruct (IH (fold_left (count_presence week) users c)) as [Hin Hnd].
    destruct (keys_count_users week users c) as [Hin' Hnd']. split; [|auto].
    intros u. rewrite Hin, Hin'. split.
    + intros [[H | H] | (x & Hx & Hu)]; [auto | right; exists users; cbn; auto |].
      right. exists x. cbn. auto.
    + intros [H | (x & [<- | Hx] & Hu)]; [auto | auto |]. right. eauto.
Qed.

Lemma keys_count_weeks weeks c :
  (forall u,
     In u (Dict.keys (fold_left count_week weeks c))
     <-> In u (Dict.keys c)
         \/ exists w users,
              In w weeks /\ In users (Dict.values (Week.daily_presences w)) /\ In u users)
  /\ (NoDup (Dict.keys c) -> NoDup (Dict.keys (fold_left count_week weeks c))).
Proof.
  revert c. induction weeks as [|week weeks IH]; intros c; cbn [fold_left].
  - split; [|auto]. intros u. split; [auto | intros [H | (w & x & [] & _)]; exact H].
  - destruct (IH (count_week c week)) as [Hin Hnd].
    destruct (keys_count_days week (Dict.values (Week.daily_presences week)) c)
      as [Hin' Hnd'].
    fold (count_week c week) in Hin', Hnd'. split; [|auto].
    intros u. rewrite Hin, Hin'. split.
    + intros [[H | (x & Hx & Hu)] | (w & x & Hw & Hx & Hu)]; [auto | |].
      * right. exists week, x. cbn. auto.
      * right. exists w, x. cbn. auto.
    + intros [H | (w & x & [<- | Hw] & Hx & Hu)]; [auto | left; right; eauto |].
      right. eauto.
Qed.

Lemma fold_left_append (A B : Type) (f : A -> B) (l : list A) (init : list B) :
  fold_left (fun line x => line ++ [f x]) l init = init ++ map f l.
Proof.
  revert init. induction l as [|x l IH]; intros init; cbn.
  - now rewrite app_nil_r.
  - rewrite IH, <- app_assoc. reflexivity.
Qed.

Lemma user_line_counts ws c u week_to_count :
  NoDup (Dict.keys c) -> In (u, week_to_count) c ->
  user_line ws (u, week_to_count) = line_of_counts c (WeekSet.iter ws) u.
Proof.
  intros Hnd Hin. unfold user_line, line_of_counts.
  rewrite fold_left_append. cbn [app]. do 2 f_equal.
  apply map_ext. intros w. f_equal.
  unfold tally, stored_count, Dict.get_default.
  rewrite (In_get _ _ User.eqb user_eqb_eq _ _ _ Hnd Hin).
  now destruct (Dict.get Week.eqb week_to_count w).
Qed.

Lemma item_sorted (c : counts) :
  NoDup (Dict.keys c) ->
  StronglySorted (fun a b => User.ltb a b = true) (Dict.keys (sorted item_ltb c))
  /\ Permutation (sorted item_ltb c) c.
Proof.
  intros Hnd. split; [|apply sorted_perm].
  assert (StronglySorted (fun a b => item_ltb a b = true) (sorted item_ltb c)) as H.
  { apply (sorted_strict _ item_ltb) with (key := fst).
    - intros x y. apply user_ltb_asym.
    - intros x y z. apply user_leb_trans.
    - intros a b. apply user_ltb_total.
    - exact Hnd. }
  unfold Dict.keys. induction H as [|x r Hr IH Hx]; cbn [map]; constructor; [exact IH|].
  apply Forall_forall. intros u Hu. apply in_map_iff in Hu as (y & <- & Hy).
  apply (proj1 (Forall_forall _ _) Hx y Hy).
Qed.

(** The report of a well-formed week set whose weeks have labels. *)
Lemma report_of_wf ws :
  weekset_wf ws ->
  Forall (fun w => exists label, Week.str w = Ok label) (WeekSet.iter ws) ->
  let c := fold_left count_week (WeekSet.iter ws) [] in
  let users := Dict.keys (sorted item_ltb c) in
  report ws
  = Ok (["Name"; "Group"] ++ week_names 0 (WeekSet.iter ws),
        map (line_of (WeekSet.iter ws)) users)
  /\ map (line_of_counts c (WeekSet.iter ws)) users = map (line_of (WeekSet.iter ws)) users
  /\ StronglySorted (fun a b => User.ltb a b = true) users
  /\ (forall u, In u users <-> appears ws u).
Proof.
  intros Hwf Hlabels c users.
  destruct (keys_count_weeks (WeekSet.iter ws) []) as [Hkeys Hnd].
  fold c in Hkeys, Hnd. specialize (Hnd (NoDup_nil _)).
  destruct (item_sorted c Hnd) as [Hsorted Hperm]. fold users in Hsorted.
  destruct (counts_of_wf ws Hwf) as (_ & Htally & _). fold c in Htally.
  assert (map (line_of_counts c (WeekSet.iter ws)) users
          = map (line_of (WeekSet.iter ws)) users) as Hlines.
  { apply map_ext. intros u. unfold line_of_counts, line_of. do 2 f_equal.
    apply map_ext_in. intros w Hw. f_equal. apply Htally. now apply sorted_In in Hw. }
  split; [|split; [exact Hlines | split; [exact Hsorted|]]].
  - unfold report, enumerate. rewrite (count_loop_ok _ Hlabels). cbn [bind].
    fold c. f_equal. f_equal. rewrite <- Hlines. unfold users, Dict.keys.
    rewrite map_map. apply map_ext_in. intros [u w2c] Hin. cbn [fst].
    apply user_line_counts; [exact Hnd|].
    now apply (Permutation_in _ Hperm).
  - intros u. unfold users.
    assert (In u (Dict.keys (sorted item_ltb c)) <-> In u (Dict.keys c)) as ->.
    { split; apply Permutation_in; apply Permutation_map; [|symmetry]; exact Hperm. }
    rewrite Hkeys. unfold appears. split.
    + intros [[] | (w & x & Hw & Hx & Hu)]. exists w, x. apply sorted_In in Hw. auto.
    + intros (w & x & Hw & Hx & Hu). right. exists w, x.
      split; [now apply sorted_In | auto].
Qed.

(** C6: the report on the week set of any passages has one line for each
    user met in some day of some week and no other line, the lines in
    strictly ascending order of (name, group), names compared as texts
    character by character (so capitals come before small letters) and
    groups as integers; a line is the name, the group as text, and for each
    week, in ascending order of (year, number), the stored count of the
    user and week, 0 when there is none, which is the number of days of the
    week on which the user was recorded. *)
Theorem report_lines :
  forall ps,
    let ws := add_passages WeekSet.init ps in
    exists headers c users,
      count_loop ["Name"; "Group"] [] (enumerate (WeekSet.iter ws)) = Ok (headers, c)
      /\ report ws = Ok (headers, map (line_of_counts c (WeekSet.iter ws)) users)
      /\ map (line_of_counts c (WeekSet.iter ws)) users = map (line_of (WeekSet.iter ws)) users
      /\ StronglySorted user_before users
      /\ (forall u, In u users <-> appears ws u)
      /\ StronglySorted week_before (WeekSet.iter ws)
      /\ Permutation (WeekSet.iter ws) (Dict.values (WeekSet.weeks ws))
      /\ user_before (User.make "Zed" 1) (User.make "alice" 1).
Proof.
  intros ps ws.
  pose proof (weekset_wf_add_passages WeekSet.init ps weekset_wf_init) as Hwf.
  fold ws in Hwf.
  destruct (report_of_wf ws Hwf (labels_defined ps)) as (Hrep & Hlines & Hsorted & Husers).
  destruct (iter_sorted ws Hwf) as [Hweeks Hperm].
  eexists. eexists. eexists.
  split; [apply count_loop_ok, labels_defined|].
  split; [rewrite Hlines; exact Hrep|].
  split; [exact Hlines|].
  split; [|split; [exact Husers | split; [|split; [exact Hperm | now left]]]].
  - eapply strongly_sorted_impl; [|exact Hsorted]. intros a b. apply user_ltb_before.
  - eapply strongly_sorted_impl; [|exact Hweeks]. intros a b. apply week_ltb_before.
Qed.

(** ** Independence from the order of insertion *)

Section LeastGreatest.
Variables (A : Type) (ltb : A -> A -> bool).
Hypothesis ltb_asym : forall x y, ltb x y = true -> ltb y x = false.
Hypothesis leb_trans :
  forall x y z, ltb y x = false -> ltb z y = false -> ltb z x = false.
Hypothesis ltb_total : forall x y, ltb x y = false -> ltb y x = false -> x = y.

Lemma ltb_irrefl x : ltb x x = false.
Proof. destruct (ltb x x) eqn:E; [|reflexivity]. now rewrite (ltb_asym _ _ E) in E. Qed.

Lemma fold_min_least r x :
  let m := fold_left (fun cur y => if ltb y cur then y else cur) r x in
  forall z, In z (x :: r) -> ltb z m = false.
Proof.
  revert x. induction r as [|y r IH]; intros x m z Hz.
  - destruct Hz as [<- | []]. apply ltb_irrefl.
  - cbn [fold_left] in m.
    pose proof (IH (if ltb y x then y else x)) as H. cbv zeta in H. fold m in H.
    destruct (ltb y x) eqn:E.
    + destruct Hz as [<- | Hz]; [|now apply H].
      apply (leb_trans m y x); [apply H; now left | now apply ltb_asym].
    + destruct Hz as [<- | [<- | Hz]]; [apply H; now left | | apply H; now right].
      apply (leb_trans m x y); [apply H; now left | exact E].
Qed.

Lemma py_min_least l m : py_min ltb l = Ok m -> forall z, In z l -> ltb z m = false.
Proof.
  destruct l as [|x r]; [discriminate|]. intros [= <-]. apply fold_min_least.
Qed.

(** The least element depends on the elements only. *)
Lemma py_min_same l1 l2 :
  (forall x, In x l1 <-> In x l2) -> py_min ltb l1 = py_min ltb l2.
Proof.
  intros Hsame.
  destruct l1 as [|x1 r1], l2 as [|x2 r2].
  - reflexivity.
  - exfalso. apply (Hsame x2). now left.
  - exfalso. apply (Hsame x1). now left.
  - destruct (py_min ltb (x1 :: r1)) as [m1|] eqn:E1; [|discriminate].
    destruct (py_min ltb (x2 :: r2)) as [m2|] eqn:E2; [|discriminate].
    f_equal. apply ltb_total.
    + apply (py_min_least _ _ E2). apply Hsame. apply (py_min_In _ _ _ _ E1).
    + apply (py_min_least _ _ E1). apply Hsame. apply (py_min_In _ _ _ _ E2).
Qed.
End LeastGreatest.

Lemma py_max_as_min (A : Type) (ltb : A -> A -> bool) l :
  py_max ltb l = py_min (fun a b => ltb b a) l.
Proof. reflexivity. Qed.

Lemma py_max_same (A : Type) (ltb : A -> A -> bool) l1 l2 :
  (forall x y, ltb x y = true -> ltb y x = false) ->
  (forall x y z, ltb y x = false -> ltb z y = false -> ltb z x = false) ->
  (forall x y, ltb x y = false -> ltb y x = false -> x = y) ->
  (forall x, In x l1 <-> In x l2) -> py_max ltb l1 = py_max ltb l2.
Proof.
  intros Hasym Htrans Htotal Hsame. rewrite !py_max_as_min.
  apply py_min_same; [| | |exact Hsame].
  - intros x y. apply Hasym.
  - intros x y z H1 H2. now apply (Htrans z y x).
  - intros x y H1 H2. now apply Htotal.
Qed.

Lemma datetime_key_inj a b : Datetime.key a = Datetime.key b -> a = b.
Proof. destruct a, b. unfold Datetime.key. cbn. now intros [= -> -> -> -> -> -> ->]. Qed.

Lemma datetime_ltb_asym a b : Datetime.ltb a b = true -> Datetime.ltb b a = false.
Proof. apply tuple_ltb_asym. Qed.

Lemma datetime_leb_trans x y z :
  Datetime.ltb y x = false -> Datetime.ltb z y = false -> Datetime.ltb z x = false.
Proof. apply tuple_leb_trans. Qed.

Lemma datetime_ltb_total a b : Datetime.ltb a b = false -> Datetime.ltb b a = false -> a = b.
Proof. intros H1 H2. apply datetime_key_inj. now apply tuple_ltb_total. Qed.

(** ** The label, field by field *)

Lemma py_max_greatest (A : Type) (ltb : A -> A -> bool) l m :
  (forall x y, ltb x y = true -> ltb y x = false) ->
  (forall x y z, ltb y x = false -> ltb z y = false -> ltb z x = false) ->
  py_max ltb l = Ok m -> forall z, In z l -> ltb m z = false.
Proof.
  intros Hasym Htrans Hm z Hz. rewrite py_max_as_min in Hm.
  apply (py_min_least _ (fun a b => ltb b a)) with (l := l); try assumption.
  - intros x y. apply Hasym.
  - intros x y z' H1 H2. now apply (Htrans z' y x).
Qed.

(** The loop places every field by its own comparison. *)
Lemma pieces_field_by_field a b : Week.pieces a b = pieces_by_field a b.
Proof.
  unfold Week.pieces, pieces_by_field, Week.pieces_step, label_fields, same_field.
  cbn [fold_left Datetime.getattr filter].
  destruct (Datetime.year a =? Datetime.year b); cbn [negb app];
    destruct (Datetime.month a =? Datetime.month b); cbn [negb app];
    destruct (Datetime.day a =? Datetime.day b); reflexivity.
Qed.

(** The pieces are those of the specification exactly when no field
    coincides after an earlier one differs. *)
Lemma pieces_exact a b :
  Week.pieces a b = pieces_spec a b <-> differs_to_the_end a b.
Proof.
  split.
  - unfold Week.pieces, pieces_spec, Week.pieces_step, differs_to_the_end.
    cbn [fold_left pieces_after Datetime.getattr].
    destruct (Datetime.year a =? Datetime.year b) eqn:Ey; cbn [orb negb app];
      destruct (Datetime.month a =? Datetime.month b) eqn:Em; cbn [orb negb app];
      destruct (Datetime.day a =? Datetime.day b) eqn:Ed; cbn [orb negb app];
      rewrite ?Z.eqb_eq, ?Z.eqb_neq in *; intros H;
      try discriminate H; split; intros; congruence.
  - intros [Hym Hmd]. now apply pieces_of_one_week.
Qed.

Lemma earliest_and_latest_exist (w : Week.t) :
  Week.daily_presences w <> [] ->
  exists min_date max_date, earliest_and_latest w min_date max_date.
Proof.
  intros Hne. unfold earliest_and_latest. cbv zeta.
  destruct (Dict.keys (Week.daily_presences w)) as [|d0 r] eqn:Ekeys.
  { destruct (Week.daily_presences w); [congruence | discriminate]. }
  destruct (py_min Datetime.ltb (d0 :: r)) as [a|] eqn:Ea; [|discriminate].
  destruct (py_max Datetime.ltb (d0 :: r)) as [b|] eqn:Eb; [|discriminate].
  exists a, b. split; [reflexivity|]. split; [reflexivity|].
  split; [exact (py_min_In _ _ _ _ Ea)|]. split; [exact (py_max_In _ _ _ _ Eb)|].
  intros d Hd. split.
  - apply (py_min_least _ Datetime.ltb datetime_ltb_asym datetime_leb_trans _ _ Ea d Hd).
  - apply (py_max_greatest _ Datetime.ltb _ _ datetime_ltb_asym datetime_leb_trans Eb d Hd).
Qed.

Lemma label_of_two_days_or_more (w : Week.t) :
  (2 <= List.length (Week.daily_presences w))%nat -> label_field_by_field w.
Proof.
  intros Hlen.
  destruct (earliest_and_latest_exist w) as (a & b & Hab).
  { intros E. rewrite E in Hlen. cbn in Hlen. lia. }
  exists a, b. split; [exact Hab|].
  split; [|split; [apply pieces_field_by_field | apply pieces_exact]].
  destruct Hab as (Ea & Eb & _).
  destruct (Week.pieces a b) as [[c f] t] eqn:Ep.
  unfold Week.str. rewrite Ea, Eb. cbn [bind]. rewrite Ep.
  assert ((Z.of_nat (List.length (Week.daily_presences w)) =? 1) = false) as ->
    by (apply Z.eqb_neq; lia).
  reflexivity.
Qed.

(** C1, amended: for every week with at least two days, the label is made
    of the pieces of the earliest and latest days, the fields year, month
    and day being walked in that order; each field on which the two days
    differ goes to the lists "from" and "to" and each field on which they
    agree goes to the common prefix, whatever the earlier fields did; so
    from the first differing field on every field is in "from" and "to"
    exactly when no later field coincides.  No later field coincides in a
    week stored by [add_passage] from valid timestamps: there the pieces
    are those of the specification. *)
Theorem label_pieces_field_by_field :
  (forall w,
     (2 <= List.length (Week.daily_presences w))%nat -> label_field_by_field w)
  /\ (forall ps,
        Forall (fun p => Datetime.valid (fst p)) ps ->
        Forall label_as_specified
          (Dict.values (WeekSet.weeks (add_passages WeekSet.init ps)))).
Proof.
  split; [exact label_of_two_days_or_more|].
  intros ps Hv. apply Forall_forall. intros w Hw.
  apply in_map_iff in Hw as ([k w'] & <- & Hin). cbn [snd].
  apply label_of_one_iso_week. intros d Hd. split.
  - apply (days_valid_add_passages ps Hv WeekSet.init) with (k := k) (w := w');
      [intros ? ? ? [] | exact Hin | exact Hd].
  - destruct (days_in_iso_week_add_passages _ ps days_in_iso_week_init k w' Hin) as [_ H].
    now apply H.
Qed.

(** The week of the specification's example, whose days are of two ISO
    weeks, has the pieces the specification describes. *)
Lemma label_pieces_field_by_field_witness :
  (2 <= List.length (Week.daily_presences week_of_two_iso_weeks))%nat
  /\ label_as_specified week_of_two_iso_weeks.
Proof.
  split; [cbn; lia|]. intros Hlen.
  destruct (proj1 label_pieces_field_by_field week_of_two_iso_weeks Hlen)
    as (mn & mx & (Hmn & Hmx & _) & _ & _ & Hexact).
  exists mn, mx. split; [exact Hmn|]. split; [exact Hmx|].
  apply Hexact. cbn in Hmn, Hmx. injection Hmn as <-. injection Hmx as <-.
  split; intros _; discriminate.
Defined.

(** C1 as stated fails: the formatter compares each field on its own, so
    on a week object holding 2022-05-01 and 2023-06-01 the day, equal in
    both, goes to the common prefix although year and month differ. *)
Lemma label_pieces_counterexample : ~ label_as_specified week_of_two_years.
Proof.
  intros H. destruct H as (mn & mx & Hmn & Hmx & Heq); [cbn; lia|].
  cbn in Hmn, Hmx. injection Hmn as <-. injection Hmx as <-.
  vm_compute in Heq. discriminate.
Qed.

(** In a dictionary without repeated keys, the values are those of the keys. *)
Lemma wf_day_has w d users u :
  NoDup (Dict.keys (Week.daily_presences w)) ->
  In (d, users) (Week.daily_presences w) ->
  day_has w d u = PySet.mem User.eqb users u.
Proof.
  intros Hnd Hin. unfold day_has.
  now rewrite (In_get _ _ Datetime.eqb datetime_eqb_eq _ _ _ Hnd Hin).
Qed.

Lemma wf_key_day_has k w d :
  week_wf k w ->
  In d (Dict.keys (Week.daily_presences w)) <-> exists u, day_has w d u = true.
Proof.
  intros (_ & _ & Hnd & Hdays). split.
  - intros Hin. apply in_map_iff in Hin as ([d' users] & <- & Hin). cbn [fst].
    destruct (Hdays _ _ Hin) as (Hne & _).
    destruct users as [|u r]; [congruence|]. exists u.
    rewrite (wf_day_has w d' (u :: r) u Hnd Hin).
    apply (mem_In _ User.eqb user_eqb_eq). now left.
  - intros [u Hu]. unfold day_has in Hu.
    destruct (Dict.get Datetime.eqb (Week.daily_presences w) d) as [users|] eqn:E;
      [|discriminate].
    apply (get_In _ _ Datetime.eqb datetime_eqb_eq) in E.
    change d with (fst (d, users)). now apply in_map.
Qed.

Lemma week_sim_keys a b :
  week_sim a b ->
  Permutation (Dict.keys (Week.daily_presences a)) (Dict.keys (Week.daily_presences b)).
Proof.
  intros (_ & Ha & Hb & Hsame).
  apply NoDup_Permutation; [apply Ha | apply Hb |].
  intros d. rewrite (wf_key_day_has _ a d Ha), (wf_key_day_has _ b d Hb).
  split; intros [u Hu]; exists u; [rewrite <- Hsame | rewrite Hsame]; exact Hu.
Qed.

Lemma days_present_keys u w :
  NoDup (Dict.keys (Week.daily_presences w)) ->
  days_present u w
  = Z.of_nat (List.length (filter (fun d => day_has w d u) (Dict.keys (Week.daily_presences w)))).
Proof.
  intros Hnd. unfold days_present. f_equal.
  assert (forall l : list (Datetime.t * PySet.t User.t),
            (forall d users, In (d, users) l -> day_has w d u = PySet.mem User.eqb users u) ->
            List.length (filter (fun users => PySet.mem User.eqb users u) (map snd l))
            = List.length (filter (fun d => day_has w d u) (map fst l))) as H.
  { induction l as [|[d users] l IH]; intros Hl; [reflexivity|].
    cbn [map filter fst snd]. rewrite (Hl d users (or_introl eq_refl)).
    destruct (PySet.mem User.eqb users u); cbn [List.length];
      rewrite IH; auto; intros d' us' Hin; apply Hl; now right. }
  apply H. intros d users Hin. now apply wf_day_has.
Qed.

Lemma filter_perm_length (A : Type) (f g : A -> bool) (l1 l2 : list A) :
  Permutation l1 l2 -> (forall x, f x = g x) ->
  List.length (filter f l1) = List.length (filter g l2).
Proof.
  intros Hp Hfg. rewrite (filter_ext f g Hfg). apply Permutation_length.
  induction Hp as [|x l l' Hp IH|x y l|l l' l'' H1 IH1 H2 IH2]; cbn [filter].
  - constructor.
  - destruct (g x); [now constructor | exact IH].
  - destruct (g x), (g y); try reflexivity. apply perm_swap.
  - now transitivity (filter g l').
Qed.

Lemma week_sim_days_present a b u : week_sim a b -> days_present u a = days_present u b.
Proof.
  intros Hsim. pose proof (week_sim_keys a b Hsim) as Hperm.
  destruct Hsim as (_ & Ha & Hb & Hsame).
  rewrite (days_present_keys u a) by apply Ha.
  rewrite (days_present_keys u b) by apply Hb.
  f_equal. apply filter_perm_length; [exact Hperm | intros d; apply Hsame].
Qed.

Lemma week_sim_str a b : week_sim a b -> Week.str a = Week.str b.
Proof.
  intros Hsim. pose proof (week_sim_keys a b Hsim) as Hperm.
  assert (forall x, In x (Dict.keys (Week.daily_presences a))
                    <-> In x (Dict.keys (Week.daily_presences b))) as Hsame.
  { intros x. split; apply Permutation_in; [|symmetry]; exact Hperm. }
  unfold Week.str.
  assert (List.length (Week.daily_presences a) = List.length (Week.daily_presences b)) as Hlen.
  { pose proof (Permutation_length Hperm) as H. unfold Dict.keys in H.
    now rewrite !length_map in H. }
  rewrite Hlen.
  rewrite (py_min_same _ Datetime.ltb datetime_ltb_asym datetime_leb_trans datetime_ltb_total
             _ _ Hsame).
  rewrite (py_max_same _ Datetime.ltb _ _ datetime_ltb_asym datetime_leb_trans
             datetime_ltb_total Hsame).
  destruct (Z.of_nat (List.length (Week.daily_presences b)) =? 1) eqn:E1; [|reflexivity].
  apply Z.eqb_eq in E1.
  destruct (Dict.keys (Week.daily_presences a)) as [|da ra] eqn:Ea;
    destruct (Dict.keys (Week.daily_presences b)) as [|db rb] eqn:Eb.
  - reflexivity.
  - exfalso. apply (Hsame db). now left.
  - exfalso. apply (Hsame da). now left.
  - assert (rb = []) as ->.
    { assert (List.length (db :: rb) = 1%nat) as H
        by (rewrite <- Eb; unfold Dict.keys; rewrite length_map; lia).
      destruct rb; [reflexivity | discriminate]. }
    destruct (proj1 (Hsame da) (or_introl eq_refl)) as [-> | []]. reflexivity.
Qed.

Lemma existsb_perm (A : Type) (f : A -> bool) (l l' : list A) :
  Permutation l l' -> existsb f l = existsb f l'.
Proof.
  intros Hp. destruct (existsb f l) eqn:E, (existsb f l') eqn:E'; try reflexivity.
  - apply existsb_exists in E as (x & Hx & Hf).
    assert (existsb f l' = true); [|congruence].
    apply existsb_exists. exists x. split; [now apply (Permutation_in _ Hp) | exact Hf].
  - apply existsb_exists in E' as (x & Hx & Hf).
    assert (existsb f l = true); [|congruence].
    apply existsb_exists. exists x.
    split; [now apply (Permutation_in _ (Permutation_sym Hp)) | exact Hf].
Qed.

(** What is recorded after passages: what was, and the passages. *)
Lemma recorded_passages ws ps k d u :
  recorded (add_passages ws ps) k d u
  = recorded ws k d u || existsb (passage_hits k d u) ps.
Proof.
  revert ws. induction ps as [|[t u'] ps IH]; intros ws; cbn [existsb].
  - cbn. now rewrite orb_false_r.
  - change (add_passages ws ((t, u') :: ps))
      with (add_passages (WeekSet.add_passage ws t u') ps).
    rewrite IH, recorded_add_passage. unfold passage_hits. cbn [fst snd].
    now rewrite orb_assoc.
Qed.

Lemma recorded_perm ps ps' k d u :
  Permutation ps ps' ->
  recorded (add_passages WeekSet.init ps) k d u
  = recorded (add_passages WeekSet.init ps') k d u.
Proof.
  intros Hp. rewrite !recorded_passages. f_equal. now apply existsb_perm.
Qed.

Lemma wf_recorded ws k w d u :
  weekset_wf ws -> In (k, w) (WeekSet.weeks ws) -> recorded ws k d u = day_has w d u.
Proof.
  intros [Hnd _] Hin. unfold recorded, day_has.
  now rewrite (In_get _ _ pair_eqb pair_eqb_eq _ _ _ Hnd Hin).
Qed.

Lemma wf_key_recorded ws k :
  weekset_wf ws ->
  In k (Dict.keys (WeekSet.weeks ws)) <-> exists d u, recorded ws k d u = true.
Proof.
  intros Hwf. split.
  - intros Hin. apply in_map_iff in Hin as ([k' w] & <- & Hin). cbn [fst].
    pose proof (proj2 Hwf _ _ Hin) as Hw.
    destruct (Week.daily_presences w) as [|[d users] r] eqn:E;
      [now destruct Hw as (_ & Hne & _)|].
    assert (In d (Dict.keys (Week.daily_presences w))) as Hd by (rewrite E; now left).
    apply (wf_key_day_has _ w d Hw) in Hd as [u Hu].
    exists d, u. now rewrite (wf_recorded ws k' w d u Hwf Hin).
  - intros (d & u & H). unfold recorded in H.
    destruct (Dict.get pair_eqb (WeekSet.weeks ws) k) as [w|] eqn:E; [|discriminate].
    apply (get_In _ _ pair_eqb pair_eqb_eq) in E.
    change k with (fst (k, w)). now apply in_map.
Qed.

Lemma wf_appears ws u :
  weekset_wf ws -> appears ws u <-> exists k d, recorded ws k d u = true.
Proof.
  intros Hwf. split.
  - intros (w & users & Hw & Husers & Hu).
    destruct (wf_In_value ws w Hwf Hw) as [Hin Hww].
    apply in_map_iff in Husers as ([d us] & <- & Hd). cbn [snd] in Hu.
    exists (Week.identifier w), d.
    rewrite (wf_recorded ws _ w d u Hwf Hin).
    rewrite (wf_day_has w d us u); [|apply Hww | exact Hd].
    now apply (mem_In _ User.eqb user_eqb_eq).
  - intros (k & d & H). unfold recorded in H.
    destruct (Dict.get pair_eqb (WeekSet.weeks ws) k) as [w|] eqn:Ew; [|discriminate].
    destruct (Dict.get Datetime.eqb (Week.daily_presences w) d) as [users|] eqn:Ed;
      [|discriminate].
    apply (get_In _ _ pair_eqb pair_eqb_eq) in Ew.
    apply (get_In _ _ Datetime.eqb datetime_eqb_eq) in Ed.
    apply (mem_In _ User.eqb user_eqb_eq) in H.
    exists w, users. repeat split; [| |exact H].
    + change w with (snd (k, w)). now apply in_map.
    + change users with (snd (d, users)). now apply in_map.
Qed.

Lemma strongly_sorted_map (A B : Type) (f : A -> B) (R : B -> B -> Prop) (l : list A) :
  StronglySorted (fun a b => R (f a) (f b)) l -> StronglySorted R (map f l).
Proof.
  induction 1 as [|x r Hr IH Hx]; cbn [map]; constructor; [exact IH|].
  apply Forall_forall. intros y Hy. apply in_map_iff in Hy as (a & <- & Ha).
  apply (proj1 (Forall_forall _ _) Hx a Ha).
Qed.

Lemma Forall2_of_map_eq (A B : Type) (f : A -> B) (R : A -> A -> Prop) (l1 l2 : list A) :
  map f l1 = map f l2 ->
  (forall a b, In a l1 -> In b l2 -> f a = f b -> R a b) ->
  Forall2 R l1 l2.
Proof.
  revert l2. induction l1 as [|a l1 IH]; intros [|b l2] Hmap HR; try discriminate.
  - constructor.
  - cbn [map] in Hmap. injection Hmap as Hab Hmap.
    constructor; [apply HR; [now left | now left | exact Hab]|].
    apply IH; [exact Hmap|]. intros x y Hx Hy. apply HR; now right.
Qed.

Lemma pair_before_irrefl k : ~ pair_before k k.
Proof. unfold pair_before. now rewrite tuple_ltb_irrefl. Qed.

Lemma pair_before_trans a b c : pair_before a b -> pair_before b c -> pair_before a c.
Proof. unfold pair_before. apply tuple_ltb_trans. Qed.

(** Two well-formed week sets with the same recorded passages hold, in
    ascending order, weeks alike. *)
Lemma iter_sim ws1 ws2 :
  weekset_wf ws1 -> weekset_wf ws2 ->
  (forall k d u, recorded ws1 k d u = recorded ws2 k d u) ->
  Forall2 week_sim (WeekSet.iter ws1) (WeekSet.iter ws2).
Proof.
  intros H1 H2 Hsame.
  assert (forall ws, weekset_wf ws ->
            StronglySorted pair_before (map Week.identifier (WeekSet.iter ws))
            /\ forall k, In k (map Week.identifier (WeekSet.iter ws))
                         <-> exists d u, recorded ws k d u = true) as Hids.
  { intros ws Hwf. destruct (iter_sorted ws Hwf) as [Hs Hp]. split.
    - apply strongly_sorted_map. exact Hs.
    - intros k. rewrite <- (wf_key_recorded ws k Hwf).
      rewrite <- (wf_values_identifiers ws Hwf).
      split; apply Permutation_in; apply Permutation_map; [|symmetry]; exact Hp. }
  destruct (Hids ws1 H1) as [Hs1 Hk1]. destruct (Hids ws2 H2) as [Hs2 Hk2].
  apply Forall2_of_map_eq with (f := Week.identifier).
  - apply (strictly_sorted_unique _ pair_before);
      [exact pair_before_irrefl | exact pair_before_trans | exact Hs1 | exact Hs2 |].
    intros k. rewrite Hk1, Hk2.
    split; intros (d & u & H); exists d, u; [rewrite <- Hsame | rewrite Hsame]; exact H.
  - intros a b Ha Hb Hab. apply sorted_In in Ha, Hb.
    destruct (wf_In_value ws1 a H1 Ha) as [Hina Hwa].
    destruct (wf_In_value ws2 b H2 Hb) as [Hinb Hwb].
    split; [exact Hab|]. split; [exact Hwa|]. split; [exact Hwb|].
    intros d u. rewrite <- (wf_recorded ws1 _ a d u H1 Hina).
    rewrite <- (wf_recorded ws2 _ b d u H2 Hinb). rewrite Hab. apply Hsame.
Qed.

Lemma week_names_sim l1 l2 i :
  Forall2 week_sim l1 l2 -> week_names i l1 = week_names i l2.
Proof.
  intros H. revert i. unfold week_names.
  induction H as [|a b l1 l2 Hab Hl IH]; intros i; cbn [enumerate_from map fst snd];
    [reflexivity|].
  unfold label_of. rewrite (week_sim_str a b Hab). f_equal. apply IH.
Qed.

Lemma line_of_sim l1 l2 u : Forall2 week_sim l1 l2 -> line_of l1 u = line_of l2 u.
Proof.
  intros H. unfold line_of. do 2 f_equal.
  induction H as [|a b l1 l2 Hab Hl IH]; cbn [map]; [reflexivity|].
  now rewrite (week_sim_days_present a b u Hab), IH.
Qed.

Lemma wf_labels ws :
  weekset_wf ws ->
  Forall (fun w => exists label, Week.str w = Ok label) (WeekSet.iter ws).
Proof.
  intros Hwf. apply Forall_forall. intros w Hw. apply sorted_In in Hw.
  apply has_days_label. apply (wf_In_value ws w Hwf Hw).
Qed.

(** The report is a function of what is recorded. *)
Lemma report_determined ws1 ws2 :
  weekset_wf ws1 -> weekset_wf ws2 ->
  (forall k d u, recorded ws1 k d u = recorded ws2 k d u) ->
  report ws1 = report ws2.
Proof.
  intros H1 H2 Hsame.
  destruct (report_of_wf ws1 H1 (wf_labels ws1 H1)) as (-> & _ & Hs1 & Hu1).
  destruct (report_of_wf ws2 H2 (wf_labels ws2 H2)) as (-> & _ & Hs2 & Hu2).
  pose proof (iter_sim ws1 ws2 H1 H2 Hsame) as Hsim.
  rewrite (week_names_sim _ _ 0 Hsim).
  assert (Dict.keys (sorted item_ltb (fold_left count_week (WeekSet.iter ws1) []))
          = Dict.keys (sorted item_ltb (fold_left count_week (WeekSet.iter ws2) []))) as ->.
  { apply (strictly_sorted_unique _ (fun a b => User.ltb a b = true)); [| |exact Hs1|exact Hs2|].
    - intros x. now rewrite user_ltb_irrefl.
    - exact user_ltb_trans.
    - intros u. rewrite Hu1, Hu2, (wf_appears ws1 u H1), (wf_appears ws2 u H2).
      split; intros (k & d & H); exists k, d; [rewrite <- Hsame | rewrite Hsame]; exact H. }
  do 2 f_equal. apply map_ext. intros u. now apply line_of_sim.
Qed.

Lemma register_all_passages ws records :
  register_all ws records = Ok (add_passages ws (passages_of records)).
Proof.
  revert ws. induction records as [|[date column7] records IH]; intros ws;
    cbn [register_all passages_of map add_passages fold_left fst snd]; [reflexivity|].
  unfold register, identity_of.
  destruct (parse_total (PyStr.strip column7)) as (name & group & ->). cbn [bind].
  apply IH.
Qed.

Lemma pipeline_report records :
  pipeline records = report (add_passages WeekSet.init (passages_of records)).
Proof. unfold pipeline. now rewrite register_all_passages. Qed.

(** C7: the run on a list of records and the run on any permutation of it
    return the same report, the same header row and the same lines in the
    same order, and the run returns a report; more generally two week sets
    in which the same users are recorded on the same days of the same
    weeks, in whatever order their dictionaries and sets hold them, have
    the same report. *)
Theorem pipeline_permutation :
  (forall records records' : list (Datetime.t * string),
     Permutation records records' ->
     pipeline records' = pipeline records
     /\ exists headers lines, pipeline records = Ok (headers, lines))
  /\ (forall ws1 ws2,
        weekset_wf ws1 -> weekset_wf ws2 ->
        (forall k d u, recorded ws1 k d u = recorded ws2 k d u) ->
        report ws1 = report ws2).
Proof.
  split; [|exact report_determined].
  intros records records' Hp. rewrite !pipeline_report. split.
  - apply report_determined; try (apply weekset_wf_add_passages, weekset_wf_init).
    intros k d u. apply recorded_perm. unfold passages_of.
    apply Permutation_map. now symmetry.
  - pose proof (weekset_wf_add_passages WeekSet.init (passages_of records) weekset_wf_init)
      as Hwf.
    destruct (report_of_wf _ Hwf (wf_labels _ Hwf)) as (-> & _). eauto.
Qed.

Lemma pipeline_permutation_witness :
  pipeline records_example_permuted = pipeline records_example
  /\ exists headers lines, pipeline records_example = Ok (headers, lines).
Proof.
  apply (proj1 pipeline_permutation). unfold records_example, records_example_permuted.
  eapply perm_trans; [apply perm_swap|].
  eapply perm_trans; [apply perm_skip, perm_swap|].
  apply perm_swap.
Defined.

(** ** Reading the input *)

Section ReadingFacts.
Variable fromisoformat : string -> result Datetime.t.

Lemma read_loop_all (lines : list string) :
  (forall ws line, In line lines -> exists ws', read_line fromisoformat ws line = Ok ws') ->
  forall ws n i,
  exists ws',
    read_loop fromisoformat ws n (enumerate_from i lines)
    = Ok (ws', match lines with
               | [] => n
               | _ :: _ => Some (i + Z.of_nat (List.length lines) - 1)
               end).
Proof.
  induction lines as [|line rest IH]; intros Hok ws n i; cbn [enumerate_from read_loop].
  - eauto.
  - destruct (Hok ws line (or_introl eq_refl)) as [ws1 ->]. cbn [bind].
    destruct (IH (fun ws l Hl => Hok ws l (or_intror Hl)) ws1 (Some i) (i + 1)) as [ws2 ->].
    exists ws2. f_equal. f_equal.
    destruct rest; cbn [List.length]; f_equal; lia.
Qed.

Lemma read_line_passage ws line ws' :
  read_line fromisoformat ws line = Ok ws' ->
  exists t u, ws' = WeekSet.add_passage ws t u.
Proof.
  unfold read_line, register.
  destruct (index (split_comma line) 1) as [c1|]; [|discriminate]. cbn [bind].
  destruct (fromisoformat (PyStr.strip c1)) as [date|]; [|discriminate]. cbn [bind].
  destruct (index (split_comma line) 7) as [c7|]; [|discriminate]. cbn [bind].
  destruct (parse_total (PyStr.strip c7)) as (name & group & ->). cbn [bind].
  intros [= <-]. eauto.
Qed.

Lemma read_loop_wf lines ws n ws' n' :
  read_loop fromisoformat ws n lines = Ok (ws', n') -> weekset_wf ws -> weekset_wf ws'.
Proof.
  revert ws n. induction lines as [|[i line] rest IH]; intros ws n; cbn [read_loop].
  - now intros [= <- _].
  - destruct (read_line fromisoformat ws line) as [ws1|] eqn:E; [|discriminate].
    cbn [bind]. intros Hloop Hwf.
    destruct (read_line_passage _ _ _ E) as (t & u & ->).
    apply (IH _ _ Hloop). now apply weekset_wf_add.
Qed.

Lemma read_input_count header lines :
  lines <> [] ->
  (forall ws line, In line lines -> exists ws', read_line fromisoformat ws line = Ok ws') ->
  exists ws,
    read_input fromisoformat (header :: lines) = Ok (ws, Z.of_nat (List.length lines))
    /\ weekset_wf ws.
Proof.
  intros Hne Hok. unfold read_input, enumerate.
  destruct (read_loop_all lines Hok WeekSet.init None 0) as [ws Hloop].
  rewrite Hloop. cbn [bind]. destruct lines as [|l r]; [congruence|].
  exists ws. split; [f_equal; f_equal; lia|].
  apply (read_loop_wf _ _ _ _ _ Hloop weekset_wf_init).
Qed.
End ReadingFacts.

(** C9: on a file that holds the header only, reading fails where the number
    of entries is reported, [line_number] never having been bound, and so
    does the run; on a file with at least one record after the header, all
    of them readable, the report of the number succeeds, the number is the
    number of records, and the run returns. *)
Theorem entries_report :
  forall (fromisoformat : string -> result Datetime.t) (header : string),
    read_input fromisoformat [header] = Raise UnboundLocalError
    /\ main fromisoformat [header] = Raise UnboundLocalError
    /\ forall lines,
         lines <> [] ->
         (forall ws line, In line lines ->
            exists ws', read_line fromisoformat ws line = Ok ws') ->
         (exists ws,
            read_input fromisoformat (header :: lines)
            = Ok (ws, Z.of_nat (List.length lines)))
         /\ exists r,
              main fromisoformat (header :: lines)
              = Ok (Z.of_nat (List.length lines), r).
Proof.
  intros fromisoformat header. split; [reflexivity|]. split; [reflexivity|].
  intros lines Hne Hok.
  destruct (read_input_count fromisoformat header lines Hne Hok) as (ws & Hread & Hwf).
  split; [eauto|]. unfold main. rewrite Hread. cbn [bind].
  destruct (report_of_wf ws Hwf (wf_labels ws Hwf)) as (-> & _). cbn [bind]. eauto.
Qed.

Lemma entries_report_witness :
  (exists ws, read_input fromisoformat_example one_record_file = Ok (ws, 1))
  /\ exists r, main fromisoformat_example one_record_file = Ok (1, r).
Proof.
  apply (proj2 (proj2 (entries_report fromisoformat_example
                         "Id,Date,C2,C3,C4,C5,C6,Description #2"))
           ["17,2023-05-01 08:30:00,a,b,c,d,e, Alice #3 "]).
  - discriminate.
  - intros ws line [<- | []]. eexists. reflexivity.
Defined.

(** ** Examples of the specification *)

Example label_one_day :
  Week.str (Week.make 2023 18 [(Datetime.make 2023 5 1 0 0 0 0, [User.make "A" 1])])
  = Ok "(only 2023/5/1)".
Proof. reflexivity. Qed.

Example label_two_days :
  Week.str (Week.make 2023 18
              [(Datetime.make 2023 5 3 0 0 0 0, [User.make "A" 1]);
               (Datetime.make 2023 5 1 0 0 0 0, [User.make "A" 1])])
  = Ok "(2023/5 from 1 to 3)".
Proof. reflexivity. Qed.

Example label_over_new_year :
  Week.str week_over_new_year = Ok "( from 2022/12/30 to 2023/1/1)".
Proof. reflexivity. Qed.

Example label_over_two_iso_weeks :
  Week.str week_of_two_iso_weeks = Ok "( from 2022/12/30 to 2023/1/2)".
Proof. reflexivity. Qed.

Example label_of_two_years :
  Week.str week_of_two_years = Ok "(1 from 2022/5 to 2023/6)".
Proof. reflexivity. Qed.

Example label_no_day : Week.str (Week.init 2023 18) = Raise ValueError.
Proof. reflexivity. Qed.

Example report_of_three_records :
  pipeline records_example
  = Ok (["Name"; "Group"; "Week 1 (2023/5 from 1 to 2)"],
        [["A"; "1"; "2"]; ["B"; "2"; "1"]]).
Proof. reflexivity. Qed.

Example output_of_three_records :
  option_map (output ",")
    (match pipeline records_example with Ok r => Some r | Raise _ => None end)
  = Some ("Name,Group,Week 1 (2023/5 from 1 to 2)" ++ String "010" "A,1,2"
          ++ String "010" "B,2,1" ++ String "010" "")%string.
Proof. reflexivity. Qed.

Example main_of_one_record :
  main fromisoformat_example one_record_file
  = Ok (1, (["Name"; "Group"; "Week 1 (only 2023/5/1)"], [["Alice"; "3"; "1"]])).
Proof. reflexivity. Qed.

Example int_forms :
  PyStr.int " -1_0 " = Ok (-10) /\ PyStr.int "+007" = Ok 7
  /\ PyStr.int "1__0" = Raise ValueError /\ PyStr.int "" = Raise ValueError
  /\ PyStr.int "x" = Raise ValueError /\ PyStr.int "- 1" = Raise ValueError.
Proof. repeat split; reflexivity. Qed.

Example iso_weeks :
  Datetime.isocalendar (Datetime.make 2023 1 1 0 0 0 0) = (2022, 52, 7)
  /\ Datetime.isocalendar (Datetime.make 2023 1 2 0 0 0 0) = (2023, 1, 1)
  /\ Datetime.isocalendar (Datetime.make 2024 12 30 0 0 0 0) = (2025, 1, 1)
  /\ Datetime.isocalendar (Datetime.make 2020 12 31 0 0 0 0) = (2020, 53, 4)
  /\ Datetime.isocalendar (Datetime.make 1 1 1 0 0 0 0) = (1, 1, 1).
Proof. repeat split; reflexivity. Qed.

(** * Further properties of the program *)

(** ** What [add_passage] changes *)

Lemma recorded_add_passage_iff ws t u k d u' :
  recorded (WeekSet.add_passage ws t u) k d u' = true
  <-> recorded ws k d u' = true
      \/ (k = Datetime.isoweek t /\ d = WeekSet.passage_date t /\ u' = u).
Proof.
  rewrite recorded_add_passage, orb_true_iff, !andb_true_iff.
  rewrite pair_eqb_eq, datetime_eqb_eq, user_eqb_eq. intuition congruence.
Qed.

Lemma add_passage_other_week ws t u k :
  k <> Datetime.isoweek t ->
  Dict.get pair_eqb (WeekSet.weeks (WeekSet.add_passage ws t u)) k
  = Dict.get pair_eqb (WeekSet.weeks ws) k.
Proof.
  intros H. rewrite add_passage_weeks.
  apply (get_set_other _ _ pair_eqb pair_eqb_sym pair_eqb_trans).
  apply (key_eqb_neq _ pair_eqb pair_eqb_eq). congruence.
Qed.

Lemma add_passage_keys ws t u :
  Dict.keys (WeekSet.weeks (WeekSet.add_passage ws t u))
  = if existsb (fun k => pair_eqb k (Datetime.isoweek t)) (Dict.keys (WeekSet.weeks ws))
    then Dict.keys (WeekSet.weeks ws)
    else Dict.keys (WeekSet.weeks ws) ++ [Datetime.isoweek t].
Proof. rewrite add_passage_weeks. apply (keys_set_item _ _ pair_eqb). Qed.

(** The effect of [add_passage] on the content of the week set: the triples
    (week, day, user) recorded afterwards are those recorded before and the
    triple of the passage; the week objects stored under other identities
    are the same objects, and the weeks stay in the order of their first
    passage, a new week going last. *)
Theorem add_passage_only_adds :
  forall ws t u,
    (forall k d u',
       recorded (WeekSet.add_passage ws t u) k d u' = true
       <-> recorded ws k d u' = true
           \/ (k = Datetime.isoweek t /\ d = WeekSet.passage_date t /\ u' = u))
    /\ (forall k, k <> Datetime.isoweek t ->
          Dict.get pair_eqb (WeekSet.weeks (WeekSet.add_passage ws t u)) k
          = Dict.get pair_eqb (WeekSet.weeks ws) k)
    /\ (Dict.keys (WeekSet.weeks (WeekSet.add_passage ws t u))
        = Dict.keys (WeekSet.weeks ws)
        \/ Dict.keys (WeekSet.weeks (WeekSet.add_passage ws t u))
           = Dict.keys (WeekSet.weeks ws) ++ [Datetime.isoweek t]).
Proof.
  intros ws t u. split; [|split].
  - intros k d u'. apply recorded_add_passage_iff.
  - intros k. apply add_passage_other_week.
  - rewrite add_passage_keys. destruct (existsb _ _); auto.
Qed.

(** ** The number of weeks *)

Lemma len_keys ws : WeekSet.len ws = Z.of_nat (List.length (Dict.keys (WeekSet.weeks ws))).
Proof. unfold WeekSet.len, Dict.keys. now rewrite length_map. Qed.

Lemma len_add_passage ws t u :
  WeekSet.len (WeekSet.add_passage ws t u)
  = WeekSet.len ws
    + if existsb (fun k => pair_eqb k (Datetime.isoweek t)) (Dict.keys (WeekSet.weeks ws))
      then 0 else 1.
Proof.
  rewrite !len_keys, add_passage_keys. destruct (existsb _ _); [lia|].
  rewrite length_app. cbn [List.length]. lia.
Qed.

Lemma keys_add_passages ps ws k :
  In k (Dict.keys (WeekSet.weeks (add_passages ws ps)))
  <-> In k (Dict.keys (WeekSet.weeks ws))
      \/ exists p, In p ps /\ Datetime.isoweek (fst p) = k.
Proof.
  revert ws. induction ps as [|[t u] ps IH]; intros ws.
  - cbn. split; [auto | intros [H | (p & [] & _)]; exact H].
  - change (add_passages ws ((t, u) :: ps))
      with (add_passages (WeekSet.add_passage ws t u) ps).
    rewrite IH, add_passage_weeks, (In_keys_set_item _ _ pair_eqb pair_eqb_eq). split.
    + intros [[-> | H] | (p & Hp & Hk)]; [right; exists (t, u); cbn; auto | auto |].
      right. exists p. cbn. auto.
    + intros [H | (p & [<- | Hp] & Hk)]; [auto | cbn in Hk; auto |]. right. eauto.
Qed.

(** [len(week_set)], the number the run prints as found weeks: a passage
    raises it by one when its ISO week is not yet in the set and leaves it
    otherwise; after the passages of a run it is the number of different
    ISO weeks among their timestamps. *)
Theorem len_counts_iso_weeks :
  (forall ws t u,
     WeekSet.len (WeekSet.add_passage ws t u)
     = WeekSet.len ws
       + if existsb (fun k => pair_eqb k (Datetime.isoweek t)) (Dict.keys (WeekSet.weeks ws))
         then 0 else 1)
  /\ (forall ps,
        let keys := Dict.keys (WeekSet.weeks (add_passages WeekSet.init ps)) in
        NoDup keys
        /\ (forall k, In k keys <-> exists p, In p ps /\ Datetime.isoweek (fst p) = k)
        /\ WeekSet.len (add_passages WeekSet.init ps) = Z.of_nat (List.length keys)
        /\ List.length (WeekSet.iter (add_passages WeekSet.init ps)) = List.length keys).
Proof.
  split; [exact len_add_passage|]. intros ps keys.
  split; [apply (weekset_wf_add_passages WeekSet.init ps weekset_wf_init)|].
  split; [|split; [apply len_keys|]].
  - intros k. unfold keys. rewrite keys_add_passages. cbn.
    split; [intros [[] | H]; exact H | auto].
  - unfold WeekSet.iter. rewrite (Permutation_length (sorted_perm _ Week.ltb _)).
    unfold keys, Dict.keys, Dict.values. now rewrite !length_map.
Qed.

(** ** The orders of users and weeks *)

(** [User.__lt__] and [User.__eq__]: of two users exactly one is before the
    other or they are equal; the order is transitive; two users are equal
    exactly when their names and groups are. *)
Theorem user_order :
  forall a b c : User.t,
    (User.ltb a b = true \/ User.eqb a b = true \/ User.ltb b a = true)
    /\ (User.ltb a b = true -> User.eqb a b = false /\ User.ltb b a = false)
    /\ (User.ltb a b = true -> User.ltb b c = true -> User.ltb a c = true)
    /\ (User.eqb a b = true <-> User.identifier a = User.identifier b).
Proof.
  intros a b c. split; [|split; [|split]].
  - destruct (User.ltb a b) eqn:E1; [auto|]. destruct (User.ltb b a) eqn:E2; [auto|].
    right. left. apply user_eqb_eq. now apply user_ltb_total.
  - intros H. split; [|now apply user_ltb_asym].
    destruct (User.eqb a b) eqn:E; [|reflexivity].
    apply user_eqb_eq in E. subst b. now rewrite user_ltb_irrefl in H.
  - apply user_ltb_trans.
  - rewrite user_eqb_eq. unfold User.identifier. destruct a, b. cbn.
    split; [now intros [= -> ->] | now intros [= -> ->]].
Qed.

(** [Week.__lt__] and [Week.__eq__]: the same for weeks, equality and order
    looking at (year, number) only, whatever days the two weeks hold. *)
Theorem week_order :
  forall a b c : Week.t,
    (Week.ltb a b = true \/ Week.eqb a b = true \/ Week.ltb b a = true)
    /\ (Week.ltb a b = true -> Week.eqb a b = false /\ Week.ltb b a = false)
    /\ (Week.ltb a b = true -> Week.ltb b c = true -> Week.ltb a c = true)
    /\ (Week.eqb a b = true <-> Week.identifier a = Week.identifier b)
    /\ (forall days days',
          Week.eqb (Week.make (Week.year a) (Week.number a) days)
            (Week.make (Week.year a) (Week.number a) days') = true).
Proof.
  intros a b c. split; [|split; [|split; [|split]]].
  - destruct (Week.ltb a b) eqn:E1; [auto|]. destruct (Week.ltb b a) eqn:E2; [auto|].
    right. left. apply week_eqb_eq. now apply week_ltb_total.
  - intros H. split; [|now apply tuple_ltb_asym].
    destruct (Week.eqb a b) eqn:E; [|reflexivity].
    apply week_eqb_eq in E. unfold Week.ltb in H. unfold Week.identifier in E.
    injection E as E1 E2. rewrite E1, E2 in H. now rewrite tuple_ltb_irrefl in H.
  - apply tuple_ltb_trans.
  - apply week_eqb_eq.
  - intros days days'. now apply week_eqb_eq.
Qed.

(** ** At most seven days in a week *)

(** Different dates have different ordinals. *)
Lemma toordinal_inj a b :
  Datetime.valid a -> Datetime.valid b ->
  Datetime.toordinal a = Datetime.toordinal b -> same_day a b.
Proof.
  intros (_ & Hma & Hda & _) (_ & Hmb & Hdb & _) Heq.
  unfold Datetime.toordinal, Datetime.ymd2ord in Heq. unfold same_day.
  pose proof (month_tables (Datetime.year a) _ Hma) as Ta.
  pose proof (month_tables (Datetime.year b) _ Hmb) as Tb.
  cbv zeta in Ta, Tb.
  pose proof (leap_day_range (Datetime.year a)).
  pose proof (leap_day_range (Datetime.year b)).
  pose proof (days_before_year_succ (Datetime.year a)) as Sa.
  pose proof (days_before_year_succ (Datetime.year b)) as Sb.
  destruct (Z.lt_trichotomy (Datetime.year a) (Datetime.year b)) as [Hlt | [Hy | Hlt]].
  - exfalso.
    pose proof (days_before_year_mono (Datetime.year a + 1)
                  (Datetime.year b - (Datetime.year a + 1)) ltac:(lia)) as Hmono.
    replace (Datetime.year a + 1 + (Datetime.year b - (Datetime.year a + 1)))
      with (Datetime.year b) in Hmono by lia.
    lia.
  - rewrite Hy in *. split; [reflexivity|]. lia.
  - exfalso.
    pose proof (days_before_year_mono (Datetime.year b + 1)
                  (Datetime.year a - (Datetime.year b + 1)) ltac:(lia)) as Hmono.
    replace (Datetime.year b + 1 + (Datetime.year a - (Datetime.year b + 1)))
      with (Datetime.year a) in Hmono by lia.
    lia.
Qed.

Lemma NoDup_map_on (A B : Type) (f : A -> B) (l : list A) :
  (forall x y, In x l -> In y l -> f x = f y -> x = y) ->
  NoDup l -> NoDup (map f l).
Proof.
  intros Hinj Hnd. induction Hnd as [|x l Hnotin Hnd IH]; cbn [map]; constructor.
  - intros Hin. apply in_map_iff in Hin as (y & Hxy & Hy).
    apply Hnotin. rewrite (Hinj x y); [exact Hy | now left | now right | now symmetry].
  - apply IH. intros a b Ha Hb. apply Hinj; now right.
Qed.

(** Dates without a time of day, all of one ISO week and all different:
    there are at most seven. *)
Lemma days_of_one_week (k : Z * Z) (days : list Datetime.t) :
  (forall d, In d days ->
     Datetime.valid d /\ WeekSet.passage_date d = d /\ Datetime.isoweek d = k) ->
  NoDup days -> (List.length days <= 7)%nat.
Proof.
  intros Hdays Hnd.
  set (monday := Datetime.isoweek1monday (fst k) + 7 * (snd k - 1)).
  set (offset := fun d => Z.to_nat (Datetime.toordinal d - monday)).
  assert (forall d, In d days -> monday <= Datetime.toordinal d < monday + 7) as Hrange.
  { intros d Hd. destruct (Hdays d Hd) as (Hv & _ & Hk).
    pose proof (isoweek_range d Hv) as H. cbv zeta in H. rewrite Hk in H.
    unfold monday. lia. }
  assert (NoDup (map offset days)) as Hnd'.
  { apply NoDup_map_on; [|exact Hnd]. intros a b Ha Hb Hab.
    destruct (Hdays a Ha) as (Va & Ta & _). destruct (Hdays b Hb) as (Vb & Tb & _).
    pose proof (Hrange a Ha). pose proof (Hrange b Hb). unfold offset in Hab.
    rewrite <- Ta, <- Tb. apply same_day_passage_date, toordinal_inj; [exact Va | exact Vb | lia]. }
  assert (incl (map offset days) (seq 0 7)) as Hincl.
  { intros n Hn. apply in_map_iff in Hn as (d & <- & Hd).
    pose proof (Hrange d Hd). apply in_seq. unfold offset. lia. }
  pose proof (NoDup_incl_length Hnd' Hincl) as H.
  now rewrite length_map, length_seq in H.
Qed.

Lemma days_present_filter_le u w :
  days_present u w <= Z.of_nat (List.length (Dict.keys (Week.daily_presences w))).
Proof.
  pose proof (days_present_bounds u w) as H. unfold Dict.keys. rewrite length_map. lia.
Qed.

Lemma stored_count_compat (c : counts) u w w' :
  Week.eqb w w' = true -> stored_count c u w = stored_count c u w'.
Proof.
  intros H. unfold stored_count. destruct (Dict.get User.eqb c u) as [w2c|]; [|reflexivity].
  now rewrite (get_compat _ _ Week.eqb week_eqb_sym week_eqb_trans _ w w' H).
Qed.

(** A stored count is that of a stored week. *)
Lemma stored_count_of_week ws u w n :
  weekset_wf ws ->
  stored_count (fold_left count_week (WeekSet.iter ws) []) u w = Some n ->
  exists w0,
    In w0 (Dict.values (WeekSet.weeks ws)) /\ Week.eqb w0 w = true
    /\ n = days_present u w0 /\ 1 <= n.
Proof.
  intros Hwf Hn. destruct (counts_of_wf ws Hwf) as (Hp & Hin & Hout).
  pose proof (Hp u w n Hn) as Hpos.
  destruct (existsb (fun w0 => Week.eqb w0 w) (Dict.values (WeekSet.weeks ws))) eqn:E.
  - apply existsb_exists in E as (w0 & Hw0 & Heq). exists w0.
    split; [exact Hw0|]. split; [exact Heq|]. split; [|lia].
    rewrite <- (Hin u w0 Hw0). unfold tally.
    now rewrite (stored_count_compat _ u w0 w Heq), Hn.
  - exfalso.
    assert (tally (fold_left count_week (WeekSet.iter ws) []) u w = 0) as Hz.
    { apply Hout. intros w0 Hw0. destruct (Week.eqb w0 w) eqn:E0; [|reflexivity].
      assert (existsb (fun w0 => Week.eqb w0 w) (Dict.values (WeekSet.weeks ws)) = true);
        [|congruence].
      apply existsb_exists. eauto. }
    unfold tally in Hz. rewrite Hn in Hz. lia.
Qed.

Lemma stored_week_days ps k w :
  Forall (fun p => Datetime.valid (fst p)) ps ->
  In (k, w) (WeekSet.weeks (add_passages WeekSet.init ps)) ->
  NoDup (Dict.keys (Week.daily_presences w))
  /\ forall d, In d (Dict.keys (Week.daily_presences w)) ->
       Datetime.valid d /\ WeekSet.passage_date d = d /\ Datetime.isoweek d = k.
Proof.
  intros Hv Hin.
  pose proof (weekset_wf_add_passages WeekSet.init ps weekset_wf_init) as Hwf.
  destruct (proj2 Hwf k w Hin) as (_ & _ & Hnd & Hdays). split; [exact Hnd|].
  intros d Hd. split.
  - apply (days_valid_add_passages ps Hv WeekSet.init) with (k := k) (w := w);
      [intros ? ? ? [] | exact Hin | exact Hd].
  - apply in_map_iff in Hd as ([d' users] & <- & Hd). cbn [fst].
    destruct (Hdays d' users Hd) as (_ & _ & Hk & Ht). auto.
Qed.

(** Whatever the number of passages, from valid timestamps no week gets
    more than seven days, so every count the run stores, hence every cell
    of the report, is between 1 and 7 (an absent count is written 0). *)
Theorem counts_at_most_seven (ps : list (Datetime.t * User.t)) :
  Forall (fun p => Datetime.valid (fst p)) ps ->
  let ws := add_passages WeekSet.init ps in
  Forall (fun w =>
            (List.length (Week.daily_presences w) <= 7)%nat
            /\ forall u, 0 <= days_present u w <= 7)
    (Dict.values (WeekSet.weeks ws))
  /\ exists headers c,
       count_loop ["Name"; "Group"] [] (enumerate (WeekSet.iter ws)) = Ok (headers, c)
       /\ forall u w n, stored_count c u w = Some n -> 1 <= n <= 7.
Proof.
  intros Hv ws.
  pose proof (weekset_wf_add_passages WeekSet.init ps weekset_wf_init) as Hwf. fold ws in Hwf.
  assert (forall w, In w (Dict.values (WeekSet.weeks ws)) ->
            (List.length (Week.daily_presences w) <= 7)%nat) as Hseven.
  { intros w Hw. apply in_map_iff in Hw as ([k w'] & <- & Hin). cbn [snd].
    destruct (stored_week_days ps k w' Hv Hin) as [Hnd Hdays].
    pose proof (days_of_one_week k _ Hdays Hnd) as H.
    unfold Dict.keys in H. now rewrite length_map in H. }
  split.
  - apply Forall_forall. intros w Hw. split; [now apply Hseven|].
    intros u. pose proof (days_present_bounds u w). pose proof (Hseven w Hw). lia.
  - eexists. eexists. split; [apply count_loop_ok, labels_defined|].
    intros u w n Hn.
    destruct (stored_count_of_week ws u w n Hwf Hn) as (w0 & Hw0 & _ & -> & Hpos).
    pose proof (days_present_bounds u w0). pose proof (Hseven w0 Hw0). lia.
Qed.

Lemma counts_at_most_seven_witness :
  Forall (fun w =>
            (List.length (Week.daily_presences w) <= 7)%nat
            /\ forall u, 0 <= days_present u w <= 7)
    (Dict.values (WeekSet.weeks (add_passages WeekSet.init passages_example)))
  /\ exists headers c,
       count_loop ["Name"; "Group"] []
         (enumerate (WeekSet.iter (add_passages WeekSet.init passages_example)))
       = Ok (headers, c)
       /\ forall u w n, stored_count c u w = Some n -> 1 <= n <= 7.
Proof.
  apply (counts_at_most_seven passages_example).
  repeat constructor; vm_compute; (reflexivity || discriminate).
Defined.

(** ** The forms of a label *)

(** The earliest and the latest of two or more different days differ. *)
Lemma min_max_differ (days : list Datetime.t) a b :
  NoDup days -> (2 <= List.length days)%nat ->
  py_min Datetime.ltb days = Ok a -> py_max Datetime.ltb days = Ok b -> a <> b.
Proof.
  intros Hnd Hlen Ha Hb Hab. subst b.
  assert (forall d, In d days -> d = a) as Hall.
  { intros d Hd. apply datetime_ltb_total.
    - apply (py_min_least _ Datetime.ltb datetime_ltb_asym datetime_leb_trans _ _ Ha d Hd).
    - apply (py_max_greatest _ Datetime.ltb _ _ datetime_ltb_asym datetime_leb_trans Hb d Hd). }
  destruct days as [|x [|y r]]; cbn in Hlen; try lia.
  inversion Hnd as [|? ? Hnotin _]; subst. apply Hnotin.
  rewrite (Hall x (or_introl eq_refl)), <- (Hall y (or_intror (or_introl eq_refl))).
  now left.
Qed.

Lemma label_form_of_week (k : Z * Z) (w : Week.t) :
  Week.daily_presences w <> [] ->
  NoDup (Dict.keys (Week.daily_presences w)) ->
  (forall d, In d (Dict.keys (Week.daily_presences w)) ->
     Datetime.valid d /\ WeekSet.passage_date d = d /\ Datetime.isoweek d = k) ->
  label_form w.
Proof.
  intros Hne Hnd Hdays. unfold label_form.
  destruct (Dict.keys (Week.daily_presences w)) as [|d0 [|d1 r]] eqn:Ekeys.
  - destruct (Week.daily_presences w); [congruence | discriminate].
  - unfold Week.str. rewrite Ekeys.
    assert (List.length (Week.daily_presences w) = 1%nat) as ->
      by (rewrite <- (length_map fst); fold (Dict.keys (Week.daily_presences w));
          now rewrite Ekeys).
    reflexivity.
  - destruct (py_min Datetime.ltb (d0 :: d1 :: r)) as [a|] eqn:Ea; [|discriminate].
    destruct (py_max Datetime.ltb (d0 :: d1 :: r)) as [b|] eqn:Eb; [|discriminate].
    pose proof (py_min_In _ _ _ _ Ea) as Hina. pose proof (py_max_In _ _ _ _ Eb) as Hinb.
    destruct (Hdays a Hina) as (Va & Ta & Ka). destruct (Hdays b Hinb) as (Vb & Tb & Kb).
    destruct (same_week_fields a b Va Vb) as [Hym Hmd]; [congruence|].
    assert (a <> b) as Hab by (apply (min_max_differ _ a b Hnd); [cbn; lia | exact Ea | exact Eb]).
    assert (Datetime.day a <> Datetime.day b) as Hday.
    { intros Hd. apply Hab. rewrite <- Ta, <- Tb. apply same_day_passage_date.
      destruct (Z.eq_dec (Datetime.month a) (Datetime.month b)) as [Hm | Hm]; [|tauto].
      destruct (Z.eq_dec (Datetime.year a) (Datetime.year b)) as [Hy | Hy]; [|tauto].
      repeat split; assumption. }
    exists a, b. split; [exact Hina|]. split; [exact Hinb|]. split.
    { intros d Hd. split.
      - apply (py_min_least _ Datetime.ltb datetime_ltb_asym datetime_leb_trans _ _ Ea d Hd).
      - apply (py_max_greatest _ Datetime.ltb _ _ datetime_ltb_asym datetime_leb_trans Eb d Hd). }
    split; [exact Hday|]. cbv zeta.
    unfold Week.str. rewrite Ekeys, Ea, Eb. cbn [bind].
    assert ((Z.of_nat (List.length (Week.daily_presences w)) =? 1) = false) as ->.
    { apply Z.eqb_neq. rewrite <- (length_map fst).
      fold (Dict.keys (Week.daily_presences w)). rewrite Ekeys. cbn [List.length]. lia. }
    unfold Week.pieces, Week.pieces_step. cbn [fold_left Datetime.getattr].
    destruct (Datetime.year a =? Datetime.year b) eqn:Ey; cbn [app];
      destruct (Datetime.month a =? Datetime.month b) eqn:Em; cbn [app];
      destruct (Datetime.day a =? Datetime.day b) eqn:Ed; cbn [app];
      rewrite ?Z.eqb_eq, ?Z.eqb_neq in *; tauto.
Qed.

(** The label of every week a run builds from valid timestamps has one of
    the four forms: the single day, or the range from the earliest to the
    latest day with the year and month, the year only, or nothing in
    common; the days of the range always differ, so no label has an empty
    range. *)
Theorem labels_have_a_form (ps : list (Datetime.t * User.t)) :
  Forall (fun p => Datetime.valid (fst p)) ps ->
  Forall label_form (Dict.values (WeekSet.weeks (add_passages WeekSet.init ps))).
Proof.
  intros Hv. apply Forall_forall. intros w Hw.
  apply in_map_iff in Hw as ([k w'] & <- & Hin). cbn [snd].
  destruct (stored_week_days ps k w' Hv Hin) as [Hnd Hdays].
  apply (label_form_of_week k); [|exact Hnd | exact Hdays].
  apply (proj2 (weekset_wf_add_passages WeekSet.init ps weekset_wf_init) k w' Hin).
Qed.

Lemma labels_have_a_form_witness :
  Forall label_form (Dict.values (WeekSet.weeks (add_passages WeekSet.init passages_example))).
Proof.
  apply (labels_have_a_form passages_example).
  repeat constructor; vm_compute; (reflexivity || discriminate).
Defined.

(** [str(week)] raises exactly when the week has no day, and then it is the
    [ValueError] of [min]. *)
Theorem label_raises_without_days :
  forall w : Week.t,
    (Week.daily_presences w = [] -> Week.str w = Raise ValueError)
    /\ (forall e, Week.str w = Raise e -> Week.daily_presences w = [] /\ e = ValueError).
Proof.
  intros w. split.
  - unfold Week.str. now intros ->.
  - intros e He. destruct (Week.daily_presences w) as [|p r] eqn:E.
    + unfold Week.str in He. rewrite E in He. cbn in He. now injection He as <-.
    + exfalso. destruct (has_days_label w) as (_ & _ & label & Hl).
      * unfold has_days. now rewrite E.
      * congruence.
Qed.

(** ** The shape of the report *)

Lemma week_names_length i weeks : List.length (week_names i weeks) = List.length weeks.
Proof.
  unfold week_names. rewrite length_map. revert i.
  induction weeks as [|w r IH]; intros i; cbn; [reflexivity | now rewrite IH].
Qed.

Lemma week_names_nth weeks : forall j i w,
  nth_error weeks i = Some w ->
  nth_error (week_names j weeks) i
  = Some ("Week " ++ PyStr.str (j + Z.of_nat i + 1) ++ " " ++ label_of w)%string.
Proof.
  unfold week_names.
  induction weeks as [|x r IH]; intros j i w Hi; [now destruct i|].
  destruct i as [|i]; cbn [nth_error enumerate_from map fst snd] in *.
  - injection Hi as ->. now replace (j + Z.of_nat 0 + 1) with (j + 1) by lia.
  - rewrite (IH (j + 1) i w Hi).
    now replace (j + 1 + Z.of_nat i + 1) with (j + Z.of_nat (S i) + 1) by lia.
Qed.

Lemma line_of_length weeks u : List.length (line_of weeks u) = (2 + List.length weeks)%nat.
Proof. unfold line_of. cbn [List.length]. now rewrite length_map. Qed.

(** The report is a table: after [Name] and [Group] the header row has one
    name for each week of the set, and every line has as many fields as the
    header row. *)
Theorem report_is_a_table :
  forall ps,
    let ws := add_passages WeekSet.init ps in
    exists headers lines,
      report ws = Ok (headers, lines)
      /\ Z.of_nat (List.length headers) = 2 + WeekSet.len ws
      /\ Forall (fun line => List.length line = List.length headers) lines.
Proof.
  intros ps ws.
  pose proof (weekset_wf_add_passages WeekSet.init ps weekset_wf_init) as Hwf. fold ws in Hwf.
  destruct (report_of_wf ws Hwf (wf_labels ws Hwf)) as (Hrep & _).
  eexists. eexists. split; [exact Hrep|].
  assert (List.length (WeekSet.iter ws) = List.length (WeekSet.weeks ws)) as Hlen.
  { unfold WeekSet.iter. rewrite (Permutation_length (sorted_perm _ Week.ltb _)).
    unfold Dict.values. now rewrite length_map. }
  split.
  - rewrite length_app, week_names_length, Hlen. unfold WeekSet.len. cbn [List.length]. lia.
  - apply Forall_forall. intros line Hline.
    apply in_map_iff in Hline as (u & <- & _).
    rewrite line_of_length, length_app, week_names_length. reflexivity.
Qed.

(** The header row is [Name], [Group], then for the i-th week in ascending
    order, counted from 1, the text [Week i] and the label of that week. *)
Theorem header_row :
  forall ps,
    let ws := add_passages WeekSet.init ps in
    exists headers lines,
      report ws = Ok (headers, lines)
      /\ nth_error headers 0 = Some "Name"
      /\ nth_error headers 1 = Some "Group"
      /\ forall i w,
           nth_error (WeekSet.iter ws) i = Some w ->
           exists label,
             Week.str w = Ok label
             /\ nth_error headers (2 + i)
                = Some ("Week " ++ PyStr.str (Z.of_nat i + 1) ++ " " ++ label)%string.
Proof.
  intros ps ws.
  pose proof (weekset_wf_add_passages WeekSet.init ps weekset_wf_init) as Hwf. fold ws in Hwf.
  destruct (report_of_wf ws Hwf (wf_labels ws Hwf)) as (Hrep & _).
  eexists. eexists. split; [exact Hrep|]. split; [reflexivity|]. split; [reflexivity|].
  intros i w Hi.
  assert (exists label, Week.str w = Ok label) as [label Hl].
  { apply (proj1 (Forall_forall _ _) (wf_labels ws Hwf) w). eapply nth_error_In, Hi. }
  exists label. split; [exact Hl|].
  cbn [app nth_error Nat.add]. rewrite (week_names_nth _ 0 i w Hi).
  unfold label_of. rewrite Hl. reflexivity.
Qed.

Lemma days_present_positive u w users :
  In users (Dict.values (Week.daily_presences w)) -> In u users -> 1 <= days_present u w.
Proof.
  intros Husers Hu. unfold days_present.
  assert (In users (filter (fun us => PySet.mem User.eqb us u)
                      (Dict.values (Week.daily_presences w)))) as H.
  { apply filter_In. split; [exact Husers|]. now apply (mem_In _ User.eqb user_eqb_eq). }
  destruct (filter _ _); [destruct H | cbn [List.length]; lia].
Qed.

(** No line and no column of the report is all zeros: every user of a line
    has a week with a count of at least 1, and every week has a user with
    a count of at least 1. *)
Theorem no_empty_line_or_column :
  forall ps,
    let ws := add_passages WeekSet.init ps in
    exists headers users,
      report ws = Ok (headers, map (line_of (WeekSet.iter ws)) users)
      /\ (forall u, In u users ->
            exists w, In w (WeekSet.iter ws) /\ 1 <= days_present u w)
      /\ (forall w, In w (WeekSet.iter ws) ->
            exists u, In u users /\ 1 <= days_present u w).
Proof.
  intros ps ws.
  pose proof (weekset_wf_add_passages WeekSet.init ps weekset_wf_init) as Hwf. fold ws in Hwf.
  destruct (report_of_wf ws Hwf (wf_labels ws Hwf)) as (Hrep & _ & _ & Husers).
  eexists. eexists. split; [exact Hrep|]. split.
  - intros u Hu. apply Husers in Hu as (w & users & Hw & Hd & Hin).
    exists w. split; [now apply sorted_In | now apply (days_present_positive u w users)].
  - intros w Hw. apply sorted_In in Hw.
    destruct (wf_In_value ws w Hwf Hw) as [_ (_ & Hne & _ & Hdays)].
    destruct (Week.daily_presences w) as [|[d users] r] eqn:E; [congruence|].
    destruct (Hdays d users (or_introl eq_refl)) as (Hu & _).
    destruct users as [|u us]; [congruence|].
    assert (In (u :: us) (Dict.values (Week.daily_presences w))) as Hin
      by (rewrite E; now left).
    exists u. split.
    + apply Husers. exists w, (u :: us). split; [exact Hw|]. split; [exact Hin | now left].
    + apply (days_present_positive u w (u :: us) Hin). now left.
Qed.

(** ** Failures of the reading *)

Section ReadingFailures.
Variable fromisoformat : string -> result Datetime.t.

Lemma read_loop_abort good bad rest e :
  (forall ws line, In line good -> exists ws', read_line fromisoformat ws line = Ok ws') ->
  (forall ws, read_line fromisoformat ws bad = Raise e) ->
  forall ws n i,
    read_loop fromisoformat ws n (enumerate_from i (good ++ bad :: rest)) = Raise e.
Proof.
  intros Hgood Hbad. induction good as [|line good IH]; intros ws n i;
    cbn [app enumerate_from read_loop].
  - now rewrite Hbad.
  - destruct (Hgood ws line (or_introl eq_refl)) as [ws1 ->]. cbn [bind].
    apply IH. intros ws' l Hl. apply Hgood. now right.
Qed.
End ReadingFailures.

(** What reading a line gives: [IndexError] when the line has no second
    column; the exception of [fromisoformat] when the second column is no
    date; [IndexError] when it is a date and the line has no eighth column;
    otherwise the week set with the passage of the user told by the eighth
    column on that date.  The week set at hand plays no part in a failure. *)
Theorem read_line_outcome :
  forall (fromisoformat : string -> result Datetime.t) (ws : WeekSet.t) (line : string),
    read_line fromisoformat ws line
    = match nth_error (split_comma line) 1 with
      | None => Raise IndexError
      | Some c1 =>
          match fromisoformat (PyStr.strip c1) with
          | Raise e => Raise e
          | Ok date =>
              match nth_error (split_comma line) 7 with
              | None => Raise IndexError
              | Some c7 => Ok (WeekSet.add_passage ws date (identity_of c7))
              end
          end
      end.
Proof.
  intros f ws line. unfold read_line, index.
  destruct (nth_error (split_comma line) 1) as [c1|]; [|reflexivity]. cbn [bind].
  destruct (f (PyStr.strip c1)) as [date|e]; [|reflexivity]. cbn [bind].
  destruct (nth_error (split_comma line) 7) as [c7|]; [|reflexivity]. cbn [bind].
  unfold register, identity_of.
  destruct (parse_total (PyStr.strip c7)) as (name & group & ->). reflexivity.
Qed.

(** The first line that cannot be read ends the run with its exception,
    whatever lines follow it: nothing is reported and no report is built. *)
Theorem first_bad_line_aborts (fromisoformat : string -> result Datetime.t)
    (header : string) (good : list string) (bad : string) (rest : list string) (e : exn) :
  (forall ws line, In line good -> exists ws', read_line fromisoformat ws line = Ok ws') ->
  (forall ws, read_line fromisoformat ws bad = Raise e) ->
  read_input fromisoformat (header :: good ++ bad :: rest) = Raise e
  /\ main fromisoformat (header :: good ++ bad :: rest) = Raise e.
Proof.
  intros Hgood Hbad.
  assert (read_input fromisoformat (header :: good ++ bad :: rest) = Raise e) as H.
  { unfold read_input, enumerate.
    now rewrite (read_loop_abort fromisoformat good bad rest e Hgood Hbad). }
  split; [exact H|]. unfold main. now rewrite H.
Qed.

Lemma first_bad_line_aborts_witness :
  read_input fromisoformat_example
    ("Id,Date" :: ["17,2023-05-01 08:30:00,a,b,c,d,e, Alice #3 "]
       ++ "18,2023-05-01 09:00:00,a,b" :: ["19,2023-05-02 08:30:00,a,b,c,d,e,Bob#1"])
  = Raise IndexError
  /\ main fromisoformat_example
       ("Id,Date" :: ["17,2023-05-01 08:30:00,a,b,c,d,e, Alice #3 "]
          ++ "18,2023-05-01 09:00:00,a,b" :: ["19,2023-05-02 08:30:00,a,b,c,d,e,Bob#1"])
     = Raise IndexError.
Proof.
  apply (first_bad_line_aborts fromisoformat_example).
  - intros ws line [<- | []]. eexists. reflexivity.
  - intros ws. reflexivity.
Defined.

(** ** Integers written and read *)

Lemma digits_uint d acc :
  PyStr.digits acc true (NilEmpty.string_of_uint d) = Some (uint_value acc d).
Proof.
  revert acc. induction d; intros acc; cbn [NilEmpty.string_of_uint uint_value];
    [reflexivity | ..];
    (cbn [PyStr.digits]; match goal with
     | |- context [PyStr.digit ?c] =>
         let v := eval vm_compute in (PyStr.digit c) in
         change (PyStr.digit c) with v
     end; cbv iota beta; apply IHd).
Qed.

Lemma digits_uint_first d acc :
  d <> Decimal.Nil ->
  PyStr.digits acc false (NilEmpty.string_of_uint d) = Some (uint_value acc d).
Proof.
  intros Hd. destruct d; [congruence | ..];
    cbn [NilEmpty.string_of_uint uint_value PyStr.digits];
    match goal with
    | |- context [PyStr.digit ?c] =>
        let v := eval vm_compute in (PyStr.digit c) in
        change (PyStr.digit c) with v
    end; cbv iota beta; apply digits_uint.
Qed.

Lemma uint_value_acc d acc :
  uint_value (Z.pos acc) d = Z.pos (Pos.of_uint_acc d acc).
Proof.
  revert acc. induction d; intros acc; cbn [uint_value Pos.of_uint_acc];
    [reflexivity | ..];
    match goal with
    | |- uint_value ?v _ = Z.pos (Pos.of_uint_acc _ ?p) =>
        replace v with (Z.pos p) by lia; apply IHd
    end.
Qed.

Lemma uint_value_of_uint d : uint_value 0 d = Z.of_N (Pos.of_uint d).
Proof.
  induction d; cbn [uint_value Pos.of_uint]; [reflexivity | exact IHd | ..];
    match goal with
    | |- uint_value ?v _ = Z.of_N (N.pos (Pos.of_uint_acc _ ?p)) =>
        change v with (Z.pos p); apply uint_value_acc
    end.
Qed.

Lemma to_uint_not_nil p : Pos.to_uint p <> Decimal.Nil.
Proof.
  intros H. pose proof (DecimalPos.Unsigned.of_to p) as Hp. rewrite H in Hp. discriminate.
Qed.

Lemma digits_of_positive p :
  PyStr.digits 0 false (NilEmpty.string_of_uint (Pos.to_uint p)) = Some (Z.pos p).
Proof.
  rewrite (digits_uint_first _ 0 (to_uint_not_nil p)), uint_value_of_uint.
  now rewrite DecimalPos.Unsigned.of_to.
Qed.

Lemma all_chars_uint d : all_chars int_char (NilEmpty.string_of_uint d) = true.
Proof. induction d; cbn [NilEmpty.string_of_uint all_chars]; [reflexivity | ..]; exact IHd. Qed.

Lemma str_positive p : PyStr.str (Z.pos p) = NilEmpty.string_of_uint (Pos.to_uint p).
Proof.
  unfold PyStr.str. cbn [Z.to_int NilZero.string_of_int]. unfold NilZero.string_of_uint.
  pose proof (to_uint_not_nil p). now destruct (Pos.to_uint p).
Qed.

Lemma str_negative p :
  PyStr.str (Z.neg p) = String "-" (NilEmpty.string_of_uint (Pos.to_uint p)).
Proof.
  unfold PyStr.str. cbn [Z.to_int NilZero.string_of_int]. unfold NilZero.string_of_uint.
  pose proof (to_uint_not_nil p). now destruct (Pos.to_uint p).
Qed.

(** [str] writes an integer with digits and the sign only, and writes
    something. *)
Lemma str_chars z : all_chars int_char (PyStr.str z) = true /\ PyStr.str z <> EmptyString.
Proof.
  destruct z as [|p|p].
  - split; [reflexivity | discriminate].
  - rewrite str_positive. split; [apply all_chars_uint|].
    pose proof (to_uint_not_nil p). now destruct (Pos.to_uint p).
  - rewrite str_negative. split; [|discriminate].
    cbn [all_chars]. now rewrite all_chars_uint.
Qed.

Lemma all_chars_impl (p q : ascii -> bool) s :
  (forall c, p c = true -> q c = true) -> all_chars p s = true -> all_chars q s = true.
Proof.
  intros H. induction s as [|a r IH]; cbn [all_chars]; [auto|].
  rewrite !andb_true_iff. intros [Ha Hr]. auto.
Qed.

Lemma int_char_no_space c : int_char c = true -> negb (PyStr.isspace c) = true.
Proof. destruct c as [[] [] [] [] [] [] [] []]; vm_compute; congruence. Qed.

Lemma lstrip_no_space s :
  all_chars (fun c => negb (PyStr.isspace c)) s = true -> PyStr.lstrip s = s.
Proof.
  destruct s as [|a r]; cbn [all_chars PyStr.lstrip]; [reflexivity|].
  rewrite andb_true_iff, negb_true_iff. now intros [-> _].
Qed.

Lemma rstrip_no_space s :
  all_chars (fun c => negb (PyStr.isspace c)) s = true -> PyStr.rstrip s = s.
Proof.
  induction s as [|a r IH]; cbn [all_chars PyStr.rstrip]; [reflexivity|].
  rewrite andb_true_iff, negb_true_iff. intros [Ha Hr]. rewrite (IH Hr), Ha.
  now destruct r.
Qed.

Lemma strip_no_space s :
  all_chars (fun c => negb (PyStr.isspace c)) s = true -> PyStr.strip s = s.
Proof.
  intros H. unfold PyStr.strip. now rewrite (lstrip_no_space s H), (rstrip_no_space s H).
Qed.

Lemma strip_str z : PyStr.strip (PyStr.str z) = PyStr.str z.
Proof.
  apply strip_no_space, (all_chars_impl int_char); [exact int_char_no_space|].
  apply str_chars.
Qed.

Lemma int_str (z : Z) : PyStr.int (PyStr.str z) = Ok z.
Proof.
  unfold PyStr.int. rewrite strip_str.
  destruct z as [|p|p].
  - reflexivity.
  - rewrite str_positive.
    assert (match NilEmpty.string_of_uint (Pos.to_uint p) with
            | String "-" r => option_map Z.opp (PyStr.digits 0 false r)
            | String "+" r => PyStr.digits 0 false r
            | _ => PyStr.digits 0 false (NilEmpty.string_of_uint (Pos.to_uint p))
            end
            = PyStr.digits 0 false (NilEmpty.string_of_uint (Pos.to_uint p))) as ->
      by (destruct (Pos.to_uint p); reflexivity).
    now rewrite digits_of_positive.
  - rewrite str_negative. cbv iota beta. now rewrite digits_of_positive.
Qed.

(** An integer written by [str] is read back by [int], and as a group
    token it gives the integer itself: the groups the report writes are
    read as they were, the sentinel [-1] included. *)
Theorem int_of_str :
  forall z : Z,
    PyStr.int (PyStr.str z) = Ok z
    /\ group_of_token (PyStr.str z) = z
    /\ PyStr.strip (PyStr.str z) = PyStr.str z.
Proof.
  intros z. split; [apply int_str|]. split; [|apply strip_str].
  unfold group_of_token. now rewrite int_str.
Qed.

(** ** White space and the identity of a user *)

Lemma without_cons c a r : without c (String a r) <-> a <> c /\ without c r.
Proof.
  unfold without. split.
  - intros H. split; [intros ->; now apply (H 0%nat) | intros n; apply (H (S n))].
  - intros [Ha Hr] [|n]; cbn; [congruence | apply Hr].
Qed.

Lemma without_nil c : without c EmptyString.
Proof. intros [|n]; discriminate. Qed.

Lemma without_app c a b : without c (a ++ b) <-> without c a /\ without c b.
Proof.
  induction a as [|x a IH]; cbn [append].
  - split; [intros H; split; [apply without_nil | exact H] | tauto].
  - rewrite !without_cons, IH. tauto.
Qed.

Lemma all_chars_without (p : ascii -> bool) c s :
  p c = false -> all_chars p s = true -> without c s.
Proof.
  intros Hc. induction s as [|a r IH]; cbn [all_chars]; [intros _; apply without_nil|].
  rewrite andb_true_iff, without_cons. intros [Ha Hr]. split; [congruence | auto].
Qed.

Lemma all_chars_app (p : ascii -> bool) a b :
  all_chars p (a ++ b) = all_chars p a && all_chars p b.
Proof.
  induction a as [|x a IH]; cbn [append all_chars]; [reflexivity|].
  now rewrite IH, andb_assoc.
Qed.

Lemma lstrip_blank l s : blank l = true -> PyStr.lstrip (l ++ s) = PyStr.lstrip s.
Proof.
  unfold blank. induction l as [|a l IH]; cbn [append all_chars PyStr.lstrip]; [reflexivity|].
  rewrite andb_true_iff. intros [-> Hl]. auto.
Qed.

Lemma rstrip_blank r : blank r = true -> PyStr.rstrip r = EmptyString.
Proof.
  unfold blank. induction r as [|a r IH]; cbn [all_chars PyStr.rstrip]; [reflexivity|].
  rewrite andb_true_iff. intros [Ha Hr]. now rewrite (IH Hr), Ha.
Qed.

Lemma rstrip_app_blank s r : blank r = true -> PyStr.rstrip (s ++ r) = PyStr.rstrip s.
Proof.
  intros Hr. induction s as [|a s IH]; cbn [append PyStr.rstrip].
  - now apply rstrip_blank.
  - now rewrite IH.
Qed.

Lemma lstrip_app s x :
  PyStr.lstrip s <> EmptyString -> PyStr.lstrip (s ++ x) = (PyStr.lstrip s ++ x)%string.
Proof.
  induction s as [|a s IH]; cbn [append PyStr.lstrip]; [congruence|].
  destruct (PyStr.isspace a); [exact IH | reflexivity].
Qed.

Lemma rstrip_app x s :
  PyStr.rstrip s <> EmptyString -> PyStr.rstrip (x ++ s) = (x ++ PyStr.rstrip s)%string.
Proof.
  intros Hs. induction x as [|a x IH]; cbn [append PyStr.rstrip]; [reflexivity|].
  rewrite IH. destruct (x ++ PyStr.rstrip s)%string eqn:E; [|reflexivity].
  exfalso. apply Hs. destruct x; [exact E | discriminate].
Qed.

Lemma lstrip_idem s : PyStr.lstrip (PyStr.lstrip s) = PyStr.lstrip s.
Proof.
  induction s as [|a s IH]; cbn [PyStr.lstrip]; [reflexivity|].
  destruct (PyStr.isspace a) eqn:E; [exact IH|]. cbn [PyStr.lstrip]. now rewrite E.
Qed.

Lemma lstrip_rstrip s : PyStr.lstrip (PyStr.rstrip s) = PyStr.rstrip (PyStr.lstrip s).
Proof.
  induction s as [|a s IH]; [reflexivity|].
  cbn [PyStr.lstrip PyStr.rstrip].
  destruct (PyStr.isspace a) eqn:E.
  - rewrite <- IH. destruct (PyStr.rstrip s) eqn:Er; [reflexivity|].
    cbn [PyStr.lstrip]. now rewrite E.
  - cbn [PyStr.rstrip]. destruct (PyStr.rstrip s); cbn [PyStr.lstrip]; now rewrite E.
Qed.

Lemma rstrip_idem s : PyStr.rstrip (PyStr.rstrip s) = PyStr.rstrip s.
Proof.
  induction s as [|a s IH]; [reflexivity|].
  cbn [PyStr.rstrip]. destruct (PyStr.rstrip s) as [|b r] eqn:Er.
  - destruct (PyStr.isspace a) eqn:E; [reflexivity|]. cbn [PyStr.rstrip]. now rewrite E.
  - cbn [PyStr.rstrip] in *. now rewrite IH.
Qed.

Lemma strip_idem s : PyStr.strip (PyStr.strip s) = PyStr.strip s.
Proof.
  unfold PyStr.strip. now rewrite lstrip_rstrip, lstrip_idem, rstrip_idem.
Qed.

Lemma strip_padded l s r :
  blank l = true -> blank r = true -> PyStr.strip (l ++ s ++ r) = PyStr.strip s.
Proof.
  intros Hl Hr. unfold PyStr.strip.
  now rewrite (lstrip_blank l _ Hl), <- !lstrip_rstrip, (rstrip_app_blank s r Hr).
Qed.

Lemma strip_lstrip_ne s : PyStr.strip s <> EmptyString -> PyStr.lstrip s <> EmptyString.
Proof. unfold PyStr.strip. intros H E. now rewrite E in H. Qed.

Lemma strip_rstrip_ne s : PyStr.strip s <> EmptyString -> PyStr.rstrip s <> EmptyString.
Proof. unfold PyStr.strip. rewrite <- lstrip_rstrip. intros H E. now rewrite E in H. Qed.

Lemma rstrip_without c s : without c s -> without c (PyStr.rstrip s).
Proof.
  induction s as [|a s IH]; [auto|]. rewrite without_cons. intros [Ha Hs].
  cbn [PyStr.rstrip]. destruct (PyStr.rstrip s) as [|b r] eqn:E.
  - destruct (PyStr.isspace a); [apply without_nil|].
    apply without_cons. split; [exact Ha | apply without_nil].
  - apply without_cons. split; [exact Ha | now apply IH].
Qed.

Lemma lstrip_without c s : without c s -> without c (PyStr.lstrip s).
Proof.
  induction s as [|a s IH]; [auto|]. intros H. cbn [PyStr.lstrip].
  destruct (PyStr.isspace a); [|exact H]. apply IH. now apply without_cons in H.
Qed.

Lemma strip_without c s : without c s -> without c (PyStr.strip s).
Proof. intros H. now apply rstrip_without, lstrip_without. Qed.

Lemma blank_without_sharp s : blank s = true -> without "#" s.
Proof. apply all_chars_without. reflexivity. Qed.

Lemma app_not_nil_l (a b : string) : a <> EmptyString -> (a ++ b)%string <> EmptyString.
Proof. destruct a; [congruence | discriminate]. Qed.

Lemma app_not_nil_r (a b : string) : b <> EmptyString -> (a ++ b)%string <> EmptyString.
Proof. destruct a; [now cbn | discriminate]. Qed.

Lemma append_assoc (a b c : string) : ((a ++ b) ++ c)%string = (a ++ b ++ c)%string.
Proof. induction a as [|x a IH]; cbn [append]; [reflexivity | now rewrite IH]. Qed.

(** The identity of a description whose name part and group part, trimmed,
    are not empty. *)
Lemma identity_of_padded l1 before r1 l2 after r2 :
  blank l1 = true -> blank r1 = true -> blank l2 = true -> blank r2 = true ->
  without "#" after ->
  PyStr.strip before <> EmptyString -> PyStr.strip after <> EmptyString ->
  identity_of (l1 ++ before ++ r1 ++ String "#" (l2 ++ after ++ r2))
  = User.make (PyStr.strip before) (group_of_token (PyStr.strip after)).
Proof.
  intros Hl1 Hr1 Hl2 Hr2 Hw Hb Ha. unfold identity_of.
  assert (PyStr.strip (l1 ++ before ++ r1 ++ String "#" (l2 ++ after ++ r2))
          = ((PyStr.lstrip before ++ r1) ++ String "#" (l2 ++ PyStr.rstrip after))%string) as ->.
  { unfold PyStr.strip. rewrite (lstrip_blank l1 _ Hl1).
    rewrite (lstrip_app before _ (strip_lstrip_ne before Hb)).
    replace (PyStr.lstrip before ++ r1 ++ String "#" (l2 ++ after ++ r2))%string
      with (((PyStr.lstrip before ++ r1) ++ String "#" (l2 ++ after)) ++ r2)%string.
    - rewrite (rstrip_app_blank _ r2 Hr2).
      replace ((PyStr.lstrip before ++ r1) ++ String "#" (l2 ++ after))%string
        with (((PyStr.lstrip before ++ r1) ++ String "#" l2) ++ after)%string.
      + rewrite (rstrip_app _ after (strip_rstrip_ne after Ha)).
        rewrite !append_assoc. reflexivity.
      + rewrite !append_assoc. reflexivity.
    - rewrite !append_assoc. cbn [append]. now rewrite !append_assoc. }
  rewrite parse_inside.
  - f_equal.
    + unfold PyStr.strip.
      rewrite (lstrip_app _ r1) by (rewrite lstrip_idem; now apply strip_lstrip_ne).
      now rewrite lstrip_idem, (rstrip_app_blank _ r1 Hr1).
    + f_equal. unfold PyStr.strip.
      now rewrite (lstrip_blank l2 _ Hl2), lstrip_rstrip, rstrip_idem.
  - apply without_app. split; [now apply blank_without_sharp | now apply rstrip_without].
  - apply app_not_nil_l. now apply strip_lstrip_ne.
  - apply app_not_nil_r. now apply strip_rstrip_ne.
Qed.

(** White space around column 7, around the name and around the group does
    not change the user: a description padded with white space at both
    ends gives the user of the description, and a description with a name
    part and a group part after the last [#], each padded at will, gives
    the user of the trimmed name and of the integer of the trimmed group
    part ([-1] when it is none). *)
Theorem padding_is_ignored :
  (forall l s r,
     blank l = true -> blank r = true -> identity_of (l ++ s ++ r) = identity_of s)
  /\ (forall l1 before r1 l2 after r2,
        blank l1 = true -> blank r1 = true -> blank l2 = true -> blank r2 = true ->
        without "#" after ->
        PyStr.strip before <> EmptyString -> PyStr.strip after <> EmptyString ->
        identity_of (l1 ++ before ++ r1 ++ String "#" (l2 ++ after ++ r2))
        = User.make (PyStr.strip before) (group_of_token (PyStr.strip after))).
Proof.
  split; [|exact identity_of_padded].
  intros l s r Hl Hr. unfold identity_of. rewrite (strip_padded l s r Hl Hr).
  destruct (parse_total (PyStr.strip s)) as (name & group & E). now rewrite E.
Qed.

Lemma padding_is_ignored_witness :
  identity_of "  Alice  # 3  " = User.make "Alice" 3
  /\ identity_of (" " ++ "Bob#x" ++ "  ") = identity_of "Bob#x".
Proof.
  split.
  - apply (proj2 padding_is_ignored "  " "Alice" "  " " " "3" "  ");
      try reflexivity; try discriminate.
    intros [|[|n]]; discriminate.
  - apply (proj1 padding_is_ignored " " "Bob#x" "  "); reflexivity.
Defined.

Lemma append_nil_r (s : string) : (s ++ "")%string = s.
Proof. induction s as [|a s IH]; cbn [append]; [reflexivity | now rewrite IH]. Qed.

Lemma str_without_sharp z : without "#" (PyStr.str z).
Proof. apply (all_chars_without int_char); [reflexivity | apply str_chars]. Qed.

(** A user written as name, [#], group is read back: for a name that is not
    empty and has no white space at its ends, the description made of the
    name, [#] and the group written by [str] parses to the name and the
    group, also with the blank the usual form [name #group] has before
    the [#]. *)
Theorem identity_round_trip (u : User.t) :
  User.name u <> EmptyString -> PyStr.strip (User.name u) = User.name u ->
  parse_name_and_group (User.name u ++ String "#" (PyStr.str (User.group u)))
  = Ok (User.name u, User.group u)
  /\ identity_of (User.name u ++ " #" ++ PyStr.str (User.group u)) = u.
Proof.
  intros Hne Htrim.
  assert (PyStr.strip (PyStr.str (User.group u)) <> EmptyString) as Hg
    by (rewrite strip_str; apply str_chars).
  split.
  - rewrite parse_inside; [|apply str_without_sharp | exact Hne | apply str_chars].
    rewrite Htrim, strip_str. unfold group_of_token. now rewrite int_str.
  - pose proof (identity_of_padded "" (User.name u) " " "" (PyStr.str (User.group u)) ""
                  eq_refl eq_refl eq_refl eq_refl (str_without_sharp _)) as H.
    rewrite Htrim in H. specialize (H Hne Hg).
    cbn [append] in H. rewrite append_nil_r in H.
    replace (User.name u ++ " #" ++ PyStr.str (User.group u))%string
      with (User.name u ++ String " " (String "#" (PyStr.str (User.group u))))%string
      by reflexivity.
    rewrite H, strip_str. unfold group_of_token. rewrite int_str. now destruct u.
Qed.

Lemma identity_round_trip_witness :
  parse_name_and_group ("Alice" ++ String "#" (PyStr.str (-1))) = Ok ("Alice", -1)
  /\ identity_of ("Alice" ++ " #" ++ PyStr.str (-1)) = User.make "Alice" (-1).
Proof.
  apply (identity_round_trip (User.make "Alice" (-1))); [discriminate | reflexivity].
Defined.

(** ** Commas: the lines read and the lines written *)

Lemma split_comma_without line c : In c (split_comma line) -> without "," c.
Proof.
  revert c. induction line as [|a r IH]; intros c; cbn [split_comma].
  - intros [<- | []]. apply without_nil.
  - destruct (Ascii.eqb_spec a ",") as [-> | Hne].
    + intros [<- | H]; [apply without_nil | now apply IH].
    + destruct (split_comma r) as [|x l].
      * intros [<- | []]. apply without_cons. split; [exact Hne | apply without_nil].
      * intros [<- | H].
        -- apply without_cons. split; [exact Hne | apply IH; now left].
        -- apply IH. now right.
Qed.

Lemma split_comma_field x : without "," x -> split_comma x = [x].
Proof.
  induction x as [|a x IH]; [reflexivity|]. rewrite without_cons. intros [Ha Hx].
  cbn [split_comma]. destruct (Ascii.eqb_spec a ","); [congruence|]. now rewrite (IH Hx).
Qed.

Lemma split_comma_app x rest :
  without "," x -> split_comma (x ++ String "," rest) = x :: split_comma rest.
Proof.
  induction x as [|a x IH]; [reflexivity|]. rewrite without_cons. intros [Ha Hx].
  cbn [append split_comma]. destruct (Ascii.eqb_spec a ","); [congruence|].
  now rewrite (IH Hx).
Qed.

(** Fields without a comma, joined with commas, split into the fields. *)
Lemma split_join fields :
  fields <> [] -> (forall x, In x fields -> without "," x) ->
  split_comma (PyStr.join "," fields) = fields.
Proof.
  induction fields as [|x [|y r] IH]; intros Hne H; [congruence | |].
  - apply split_comma_field, H. now left.
  - change (PyStr.join "," (x :: y :: r))
      with (x ++ String "," (PyStr.join "," (y :: r)))%string.
    rewrite split_comma_app by (apply H; now left).
    f_equal. apply IH; [discriminate|]. intros z Hz. apply H. now right.
Qed.

Lemma take_without c n s : without c s -> without c (PyStr.take n s).
Proof.
  revert s. induction n as [|n IH]; intros [|a s] H; cbn [PyStr.take];
    try apply without_nil.
  apply without_cons in H as [Ha Hs]. apply without_cons. auto.
Qed.

Lemma parse_name_without c s name group :
  without c s -> parse_name_and_group s = Ok (name, group) -> without c name.
Proof.
  intros Hs. unfold parse_name_and_group.
  destruct (_ && _).
  - destruct (PyStr.int _) as [g|[]]; cbn [bind]; intros [= <- _];
      now apply strip_without, take_without.
  - now intros [= <- _].
Qed.

Lemma identity_of_without c column7 :
  without c column7 -> without c (User.name (identity_of column7)).
Proof.
  intros H. unfold identity_of.
  destruct (parse_name_and_group (PyStr.strip column7)) as [[name group]|e] eqn:E.
  - cbn [User.name]. apply (parse_name_without c _ name group (strip_without c _ H) E).
  - exact H.
Qed.

Lemma appears_add_passage ws t u u' :
  weekset_wf ws -> appears (WeekSet.add_passage ws t u) u' -> appears ws u' \/ u' = u.
Proof.
  intros Hwf H.
  apply (wf_appears _ u' (weekset_wf_add ws t u Hwf)) in H as (k & d & H).
  apply recorded_add_passage_iff in H as [H | (_ & _ & ->)]; [|now right].
  left. apply (wf_appears ws u' Hwf). eauto.
Qed.

Lemma join_without c sep l :
  without c sep -> (forall x, In x l -> without c x) -> without c (PyStr.join sep l).
Proof.
  intros Hsep. induction l as [|x [|y r] IH]; intros H.
  - apply without_nil.
  - apply H. now left.
  - change (PyStr.join sep (x :: y :: r)) with (x ++ sep ++ PyStr.join sep (y :: r))%string.
    apply without_app. split; [apply H; now left|].
    apply without_app. split; [exact Hsep|]. apply IH. intros z Hz. apply H. now right.
Qed.

Lemma str_without_comma z : without "," (PyStr.str z).
Proof. apply (all_chars_without int_char); [reflexivity | apply str_chars]. Qed.

Lemma text_without_comma (s : string) :
  all_chars (fun a => negb (Ascii.eqb a ",")) s = true -> without "," s.
Proof. apply all_chars_without. reflexivity. Qed.

Lemma pieces_without a b :
  let '(c, f, t) := Week.pieces a b in
  (forall x, In x c -> without "," x) /\ (forall x, In x f -> without "," x)
  /\ (forall x, In x t -> without "," x).
Proof.
  unfold Week.pieces.
  assert (forall fields st,
            (let '(c, f, t) := st in
             (forall x, In x c -> without "," x) /\ (forall x, In x f -> without "," x)
             /\ (forall x, In x t -> without "," x)) ->
            let '(c, f, t) := fold_left (Week.pieces_step a b) fields st in
            (forall x, In x c -> without "," x) /\ (forall x, In x f -> without "," x)
            /\ (forall x, In x t -> without "," x)) as H.
  { induction fields as [|fd fields IH]; intros st Hst; [exact Hst|].
    cbn [fold_left]. apply IH. destruct st as [[c f] t]. destruct Hst as (Hc & Hf & Ht).
    unfold Week.pieces_step. destruct (_ =? _); repeat split; try assumption;
      intros x Hx; apply in_app_iff in Hx as [Hx | [<- | []]]; auto;
      apply str_without_comma. }
  apply H. repeat split; intros x [].
Qed.

Lemma ok_inj (A : Type) (a b : A) : Ok a = Ok b -> a = b.
Proof. now intros [= ->]. Qed.

Lemma week_str_without w label : Week.str w = Ok label -> without "," label.
Proof.
  unfold Week.str. destruct (_ =? 1).
  - destruct (Dict.keys (Week.daily_presences w)) as [|d r]; [discriminate|].
    intros H. apply ok_inj in H. subst label. apply without_app. split; [now apply text_without_comma|].
    apply without_app. split; [|now apply text_without_comma].
    apply join_without; [now apply text_without_comma|].
    intros x Hx. apply in_map_iff in Hx as (z & <- & _). apply str_without_comma.
  - destruct (py_min _ _) as [a|]; [|discriminate].
    destruct (py_max _ _) as [b|]; [|discriminate]. cbn [bind].
    pose proof (pieces_without a b) as H.
    destruct (Week.pieces a b) as [[c f] t]. destruct H as (Hc & Hf & Ht).
    intros H. apply ok_inj in H. subst label.
    repeat (apply without_app; split);
      try (now apply text_without_comma);
      apply join_without; try assumption; now apply text_without_comma.
Qed.

Lemma week_names_without i weeks x :
  Forall (fun w => exists label, Week.str w = Ok label) weeks ->
  In x (week_names i weeks) -> without "," x.
Proof.
  intros Hl Hx. unfold week_names in Hx.
  apply in_map_iff in Hx as ([j w] & <- & Hin). cbn [fst snd].
  assert (In w weeks) as Hw.
  { clear -Hin. revert i Hin. induction weeks as [|y r IH]; intros i; cbn; [auto|].
    intros [[= _ <-] | H]; [now left | right; eapply IH, H]. }
  destruct (proj1 (Forall_forall _ _) Hl w Hw) as [label Hlabel].
  unfold label_of. rewrite Hlabel.
  repeat (apply without_app; split);
    try (now apply text_without_comma); try apply str_without_comma.
  now apply (week_str_without w).
Qed.

Section CommaFacts.
Variable fromisoformat : string -> result Datetime.t.

Lemma read_line_user ws line ws' :
  read_line fromisoformat ws line = Ok ws' ->
  exists t c7, In c7 (split_comma line) /\ ws' = WeekSet.add_passage ws t (identity_of c7).
Proof.
  unfold read_line, register, index.
  destruct (nth_error (split_comma line) 1) as [c1|]; [|discriminate]. cbn [bind].
  destruct (fromisoformat (PyStr.strip c1)) as [date|]; [|discriminate]. cbn [bind].
  destruct (nth_error (split_comma line) 7) as [c7|] eqn:E7; [|discriminate]. cbn [bind].
  destruct (parse_total (PyStr.strip c7)) as (name & group & E). rewrite E. cbn [bind].
  intros [= <-]. exists date, c7. split; [eapply nth_error_In, E7|].
  unfold identity_of. now rewrite E.
Qed.

Lemma read_loop_names lines ws n ws' n' :
  read_loop fromisoformat ws n lines = Ok (ws', n') ->
  weekset_wf ws -> (forall u, appears ws u -> without "," (User.name u)) ->
  forall u, appears ws' u -> without "," (User.name u).
Proof.
  revert ws n. induction lines as [|[i line] rest IH]; intros ws n; cbn [read_loop].
  - now intros [= <- _].
  - destruct (read_line fromisoformat ws line) as [ws1|] eqn:E; [|discriminate].
    cbn [bind]. intros Hloop Hwf Hnames.
    destruct (read_line_user _ _ _ E) as (t & c7 & Hc7 & ->).
    apply (IH _ _ Hloop); [now apply weekset_wf_add|].
    intros u Hu. apply (appears_add_passage ws t _ u Hwf) in Hu as [Hu | ->]; [auto|].
    apply identity_of_without, (split_comma_without line c7 Hc7).
Qed.
End CommaFacts.

(** The report of a run is read back field by field: whatever the input
    file, no field of the header row and of the lines holds a comma (names
    come from a column of a line split at commas), so each row written with
    the separator [,] splits at its commas into its fields. *)
Theorem report_rows_split_back (fromisoformat : string -> result Datetime.t)
    (file : list string) (entries : Z) (headers : list string) (lines : list (list string)) :
  main fromisoformat file = Ok (entries, (headers, lines)) ->
  split_comma (PyStr.join "," headers) = headers
  /\ Forall (fun line => split_comma (PyStr.join "," line) = line) lines.
Proof.
  unfold main, read_input. destruct file as [|header data]; [discriminate|].
  destruct (read_loop fromisoformat WeekSet.init None (enumerate data))
    as [[ws [n|]]|] eqn:Eloop; cbn [bind]; try discriminate.
  pose proof (read_loop_wf fromisoformat _ _ _ _ _ Eloop weekset_wf_init) as Hwf.
  assert (forall u, appears ws u -> without "," (User.name u)) as Hnames.
  { apply (read_loop_names fromisoformat _ _ _ _ _ Eloop weekset_wf_init).
    intros u (w & users & [] & _). }
  destruct (report_of_wf ws Hwf (wf_labels ws Hwf)) as (Hrep & _ & _ & Husers).
  rewrite Hrep. cbn [bind]. intros [= _ <- <-]. split.
  - apply split_join; [discriminate|].
    intros x [<- | [<- | Hx]]; try (now apply text_without_comma).
    apply (week_names_without 0 (WeekSet.iter ws) x (wf_labels ws Hwf) Hx).
  - apply Forall_forall. intros line Hline.
    apply in_map_iff in Hline as (u & <- & Hu).
    apply split_join; [discriminate|]. unfold line_of.
    intros x [<- | [<- | Hx]].
    + apply Hnames, Husers, Hu.
    + apply str_without_comma.
    + apply in_map_iff in Hx as (w & <- & _). apply str_without_comma.
Qed.

Lemma report_rows_split_back_witness :
  split_comma (PyStr.join "," ["Name"; "Group"; "Week 1 (only 2023/5/1)"])
  = ["Name"; "Group"; "Week 1 (only 2023/5/1)"]
  /\ Forall (fun line => split_comma (PyStr.join "," line) = line) [["Alice"; "3"; "1"]].
Proof.
  apply (report_rows_split_back fromisoformat_example one_record_file 1). reflexivity.
Defined.

(** ** The total of a line *)

Lemma NoDup_flat_map (A B K : Type) (f : A -> list B) (key : A -> K) (g : B -> K)
    (l : list A) :
  NoDup (map key l) ->
  (forall x, In x l -> NoDup (f x)) ->
  (forall x d, In x l -> In d (f x) -> g d = key x) ->
  NoDup (flat_map f l).
Proof.
  induction l as [|x l IH]; intros Hnd Hf Hg; cbn [flat_map map] in *; [constructor|].
  inversion Hnd as [|? ? Hnotin Hnd']; subst.
  apply NoDup_app.
  - apply Hf. now left.
  - apply IH; [exact Hnd' | intros y Hy; apply Hf; now right |].
    intros y d Hy Hd. apply Hg; [now right | exact Hd].
  - intros d Hd Hd'. apply in_flat_map in Hd' as (y & Hy & Hdy).
    apply Hnotin. rewrite <- (Hg x d (or_introl eq_refl) Hd).
    rewrite (Hg y d (or_intror Hy) Hdy). now apply in_map.
Qed.

Lemma flat_map_length_sum (A B : Type) (f : A -> list B) (l : list A) :
  Z.of_nat (List.length (flat_map f l))
  = Zsum (map (fun x => Z.of_nat (List.length (f x))) l).
Proof.
  induction l as [|x l IH]; cbn [flat_map map Zsum]; [reflexivity|].
  rewrite length_app. lia.
Qed.

Lemma recorded_init k d u : recorded WeekSet.init k d u = false.
Proof. reflexivity. Qed.

Lemma recorded_of_passages ps k d u :
  recorded (add_passages WeekSet.init ps) k d u = true
  <-> exists t, In (t, u) ps /\ Datetime.isoweek t = k /\ WeekSet.passage_date t = d.
Proof.
  rewrite recorded_passages, recorded_init, orb_false_l, existsb_exists. split.
  - intros ([t u'] & Hin & H). unfold passage_hits in H. cbn [fst snd] in H.
    rewrite !andb_true_iff, pair_eqb_eq, datetime_eqb_eq, user_eqb_eq in H.
    destruct H as [[Hk Hd] ->]. eauto.
  - intros (t & Hin & Hk & Hd). exists (t, u). split; [exact Hin|].
    unfold passage_hits. cbn [fst snd].
    rewrite !andb_true_iff, pair_eqb_eq, datetime_eqb_eq, user_eqb_eq. auto.
Qed.

Lemma day_has_key k w d u : week_wf k w -> day_has w d u = true ->
  In d (Dict.keys (Week.daily_presences w)).
Proof. intros Hw H. apply (wf_key_day_has k w d Hw). eauto. Qed.

(** The counts of a line add up to the number of different calendar days on
    which the user has a passage: each day of a user is counted once, in
    the week it belongs to. *)
Theorem line_total :
  forall (ps : list (Datetime.t * User.t)) (u : User.t),
    let ws := add_passages WeekSet.init ps in
    exists days,
      NoDup days
      /\ (forall d, In d days <-> exists t, In (t, u) ps /\ WeekSet.passage_date t = d)
      /\ Zsum (map (days_present u) (WeekSet.iter ws)) = Z.of_nat (List.length days).
Proof.
  intros ps u ws.
  pose proof (weekset_wf_add_passages WeekSet.init ps weekset_wf_init) as Hwf. fold ws in Hwf.
  set (days_of := fun w => filter (fun d => day_has w d u) (Dict.keys (Week.daily_presences w))).
  assert (forall w, In w (WeekSet.iter ws) ->
            In (Week.identifier w, w) (WeekSet.weeks ws) /\ week_wf (Week.identifier w) w)
    as Hweek.
  { intros w Hw. apply sorted_In in Hw. now apply wf_In_value. }
  exists (flat_map days_of (WeekSet.iter ws)). split; [|split].
  - apply NoDup_flat_map with (key := Week.identifier) (g := Datetime.isoweek).
    + eapply Permutation_NoDup.
      * apply Permutation_map. symmetry. apply sorted_perm.
      * rewrite wf_values_identifiers by exact Hwf. apply Hwf.
    + intros w Hw. apply NoDup_filter. apply (proj2 (Hweek w Hw)).
    + intros w d Hw Hd. apply filter_In in Hd as [Hd _].
      destruct (Hweek w Hw) as [_ (_ & _ & _ & Hdays)].
      apply in_map_iff in Hd as ([d' users] & <- & Hd). cbn [fst].
      now apply (Hdays d' users Hd).
  - intros d. rewrite in_flat_map. split.
    + intros (w & Hw & Hd). apply filter_In in Hd as [_ Hd].
      destruct (Hweek w Hw) as [Hin _].
      rewrite <- (wf_recorded ws _ w d u Hwf Hin) in Hd.
      apply recorded_of_passages in Hd as (t & Ht & _ & Hpd). eauto.
    + intros (t & Ht & Hpd).
      assert (recorded ws (Datetime.isoweek t) d u = true) as Hrec
        by (apply recorded_of_passages; eauto).
      unfold recorded in Hrec.
      destruct (Dict.get pair_eqb (WeekSet.weeks ws) (Datetime.isoweek t)) as [w|] eqn:Ew;
        [|discriminate].
      apply (get_In _ _ pair_eqb pair_eqb_eq) in Ew.
      pose proof (proj2 Hwf _ _ Ew) as Hw.
      exists w. split.
      * apply sorted_In. change w with (snd (Datetime.isoweek t, w)). now apply in_map.
      * apply filter_In. split; [|exact Hrec]. apply (day_has_key _ w d u Hw Hrec).
  - rewrite flat_map_length_sum. f_equal. apply map_ext_in. intros w Hw.
    apply days_present_keys. apply (proj2 (Hweek w Hw)).
Qed.
